(** * Verification of the SQL gateway of [SqliteAgent] (src/code/main.py and
      src/code/sample.py).

    Both scripts define a class [SqliteAgent] whose [execute_prompt] asks the
    Gemini completion service for an SQL statement, checks it against an
    allow-list regular expression, runs it on an sqlite3 cursor and renders the
    rows.  The two external services are oracles here: the completion service
    is a function from a request to a reply, the database a function from a
    statement to a result or an [sqlite3.Error].

    Text is modelled as Rocq [string]s over ASCII: [str.upper], [str.strip] and
    [str.split] are written out for the ASCII range (Python's whitespace set
    on ASCII is TAB, LF, VT, FF, CR, the separators 0x1c-0x1f and SPACE).
    The gate is modelled a second time on code points ([UniGate]), with the
    case tables of CPython 3.11, and the request cycle a second time with
    every outcome of the external calls, including those the scripts do not
    catch ([Full]). *)

From Stdlib Require Import Ascii String List Bool Arith ZArith NArith Lia.
Import ListNotations.
Open Scope list_scope.
Open Scope string_scope.

(** ** Python string operations *)
Module PyStr.

Definition chr (n : nat) : ascii := ascii_of_nat n.

(** One-character strings. *)
Definition nl : string := String (chr 10) EmptyString.

(** [str.isspace] on one ASCII character. *)
Definition is_space (c : ascii) : bool :=
  let n := nat_of_ascii c in
  (Nat.leb 9 n && Nat.leb n 13) || (Nat.leb 28 n && Nat.leb n 31) || Nat.eqb n 32.

Definition is_lower (c : ascii) : bool :=
  let n := nat_of_ascii c in Nat.leb 97 n && Nat.leb n 122.

Definition is_upper (c : ascii) : bool :=
  let n := nat_of_ascii c in Nat.leb 65 n && Nat.leb n 90.

Definition upper_char (c : ascii) : ascii :=
  if is_lower c then chr (nat_of_ascii c - 32)%nat else c.

Definition lower_char (c : ascii) : ascii :=
  if is_upper c then chr (nat_of_ascii c + 32)%nat else c.

(** [s.upper()] *)
Fixpoint upper (s : string) : string :=
  match s with
  | EmptyString => EmptyString
  | String c s' => String (upper_char c) (upper s')
  end.

(** [s.lstrip()] *)
Fixpoint lstrip (s : string) : string :=
  match s with
  | EmptyString => EmptyString
  | String c s' => if is_space c then lstrip s' else s
  end.

(** [s.rstrip()]: a character is kept when it is not whitespace or when a
    kept character follows it. *)
Fixpoint rstrip (s : string) : string :=
  match s with
  | EmptyString => EmptyString
  | String c s' =>
      match rstrip s' with
      | EmptyString => if is_space c then EmptyString else String c EmptyString
      | r => String c r
      end
  end.

(** [s.strip()] *)
Definition strip (s : string) : string := rstrip (lstrip s).

(** Helper of [py_split]: the leading run of non-whitespace characters of
    [s] and the words that follow it. *)
Fixpoint split_go (s : string) : string * list string :=
  match s with
  | EmptyString => (EmptyString, [])
  | String c s' =>
      let (w, ws) := split_go s' in
      if is_space c
      then (EmptyString, match w with EmptyString => ws | _ => w :: ws end)
      else (String c w, ws)
  end.

(** [s.split()] with no separator: the maximal runs of non-whitespace. *)
Definition py_split (s : string) : list string :=
  let (w, ws) := split_go s in
  match w with EmptyString => ws | _ => w :: ws end.

(** [sep.join(xs)] *)
Fixpoint join (sep : string) (xs : list string) : string :=
  match xs with
  | [] => EmptyString
  | [x] => x
  | x :: xs' => x ++ sep ++ join sep xs'
  end.

(** [s * n] for a string [s]. *)
Fixpoint repeat_str (s : string) (n : nat) : string :=
  match n with
  | O => EmptyString
  | S n' => s ++ repeat_str s n'
  end.

(** [s.startswith(p)] *)
Fixpoint startswith (p s : string) : bool :=
  match p, s with
  | EmptyString, _ => true
  | String a p', String b s' => Ascii.eqb a b && startswith p' s'
  | String _ _, EmptyString => false
  end.

(** Character comparison of a regular expression compiled with
    [re.IGNORECASE] (ASCII letters compared by their lower-case form). *)
Definition ci_eq (a b : ascii) : bool := Ascii.eqb (lower_char a) (lower_char b).

(** [re.match] of a literal pattern [p] at the start of [s], ignoring case. *)
Fixpoint match_literal_ci (p s : string) : bool :=
  match p, s with
  | EmptyString, _ => true
  | String a p', String b s' => ci_eq a b && match_literal_ci p' s'
  | String _ _, EmptyString => false
  end.

End PyStr.

Import PyStr.

(** ** The security gate (identical in main.py lines 134-137 and sample.py
    lines 135-140) *)
Module Gate.

(** [normalized_sql = generated_sql.upper().strip()] *)
Definition normalize (generated_sql : string) : string := strip (upper generated_sql).

(** The alternatives of
    [re.compile(r"^(SELECT|PRAGMA TABLE_INFO|PRAGMA table_info)", re.IGNORECASE)]. *)
Definition allowed_alternatives : list string :=
  ["SELECT"; "PRAGMA TABLE_INFO"; "PRAGMA table_info"].

(** [allowed_pattern.match(s)] is not None *)
Definition allowed_match (s : string) : bool :=
  existsb (fun p => match_literal_ci p s) allowed_alternatives.

(** The gate's decision on a generated statement. *)
Definition accepts (generated_sql : string) : bool :=
  allowed_match (normalize generated_sql).

End Gate.

(** ** Effects shared by both scripts *)
Module Agent.

(** A request to [client.models.generate_content]: the optional
    [system_instruction] and the single element of [contents]. *)
Record LlmRequest := mkLlmRequest {
  req_system : option string;
  req_contents : string
}.

(** What [generate_content] does: a response whose [.text] is given, or an
    [APIError] carrying its message. *)
Inductive LlmReply :=
| LlmText (text : string)
| LlmApiError (msg : string).

(** What [cursor.execute(sql)] followed by reading [cursor.description] and
    [cursor.fetchall()] does: the column names and the rows, or an
    [sqlite3.Error] carrying its message ([str(e)]). *)
Inductive DbReply (V : Type) :=
| DbRows (header : list string) (rows : list (list V))
| DbError (msg : string).
Arguments DbRows {V} header rows.
Arguments DbError {V} msg.

(** Observable effects of one request cycle, in order.  Of the logging and
    printing only the rejection log line of main.py is kept, since it is the
    one place the rejected command's name appears; the model name and the
    temperature of the requests are not modelled. *)
Inductive Event :=
| ELlm (req : LlmRequest)            (* a completion-service call *)
| EExec (sql : string)               (* [self.cursor.execute(sql)] *)
| ELogReject (command : string).     (* the security-rejection log line of main.py *)

(** Exceptions that can leave [execute_prompt]. *)
Inductive PyExn :=
| IndexError
| Sqlite3Error (msg : string)
| AttributeError               (* [response.text.strip()] with [response.text] None *)
| TypeError                    (* iterating over [cursor.description] when it is None *)
| ClientError (msg : string).  (* an exception of [generate_content] other than [APIError] *)

(** Python values returned by [execute_prompt]. *)
Inductive PyRet (V : Type) :=
| RStr (s : string)
| RRows (rows : list (list V)).
Arguments RStr {V} s.
Arguments RRows {V} rows.

Inductive Result (A : Type) :=
| Ok (a : A)
| Raised (e : PyExn).
Arguments Ok {A} a.
Arguments Raised {A} e.

(** A computation records events and either returns or raises. *)
Definition M (A : Type) : Type := list Event -> list Event * Result A.

Definition ret {A} (a : A) : M A := fun tr => (tr, Ok a).
Definition raise {A} (e : PyExn) : M A := fun tr => (tr, Raised e).
Definition emit (e : Event) : M unit := fun tr => (app tr [e], Ok tt).
Definition bind {A B} (m : M A) (k : A -> M B) : M B :=
  fun tr => match m tr with
            | (tr', Ok a) => k a tr'
            | (tr', Raised e) => (tr', Raised e)
            end.

Notation "x <- m ;; k" := (bind m (fun x => k))
  (at level 61, m at next level, right associativity).
Notation "m ;;; k" := (bind m (fun _ => k)) (at level 61, right associativity).

(** Run from an empty trace. *)
Definition run {A} (m : M A) : list Event * Result A := m [].

(** [for x in xs: body(x)] collecting the results in order. *)
Fixpoint map_m {A B} (f : A -> M B) (xs : list A) : M (list B) :=
  match xs with
  | [] => ret []
  | x :: xs' => y <- f x ;; ys <- map_m f xs' ;; ret (y :: ys)
  end.

(** Lines of a triple-quoted literal joined by newlines. *)
Definition lines (xs : list string) : string := join nl xs.

Definition indent : string := "        ".

(** [self.table_names] after [_setup_database]. *)
Definition table_names : list string := ["Employees"; "Departments"].

(** The statement run by [_get_schema_description] for [table]. *)
Definition table_info_sql (table : string) : string :=
  "PRAGMA table_info(" ++ table ++ ")".

Section Schema.
(** [catalog t] is what [PRAGMA table_info(t)] returns, as
    [(col[1], col[2])] pairs: the column names and declared types. *)
Variable catalog : string -> list (string * string).

(** [_get_schema_description] (identical in both scripts). *)
Definition get_schema_description : M string :=
  parts <- map_m (fun table =>
             emit (EExec (table_info_sql table)) ;;;
             let columns := map (fun col => fst col ++ " (" ++ snd col ++ ")")
                                (catalog table) in
             ret ("Table **" ++ table ++ "**: (" ++ join ", " columns ++ ")"))
           table_names ;;
  ret (join nl parts).
End Schema.

End Agent.

Import Agent.

(** ** src/code/main.py: [SqliteAgent] with the REASON/THINK/ACT calls *)
Module Main.

Section MainAgent.
Context {V : Type}.
(** [str(item)] for a scalar fetched from sqlite3. *)
Variable py_str : V -> string.
Variable catalog : string -> list (string * string).
Variable llm : LlmRequest -> LlmReply.
Variable db : string -> DbReply V.

Definition reason_context (schema : string) : string :=
  lines [EmptyString;
         indent ++ "**ROLE:** You are the **REASON** component of an SQL agent. ";
         indent ++ "**SCHEMA:** " ++ schema;
         indent ++ "**TASK:** Explain, in a single sentence, which table(s) contain the necessary data to answer the user request.";
         indent ++ "**OUTPUT FORMAT:** Respond ONLY with the reasoning sentence.";
         indent].

Definition think_context : string :=
  lines [EmptyString;
         indent ++ "**ROLE:** You are the **THINK** component of an SQL agent.";
         indent ++ "**TASK:** Explain, in a single sentence, the logical steps required to construct the query (e.g., 'I must filter by X and order by Y'). Use the schema and the previous REASON step as context.";
         indent ++ "**OUTPUT FORMAT:** Respond ONLY with the thinking sentence.";
         indent].

Definition sql_context : string :=
  lines [EmptyString;
         indent ++ "**ROLE:** You are the **ACTION** component of an SQL agent.";
         indent ++ "**STRICT RULES:** 1. ONLY generate a valid SELECT or PRAGMA statement. 2. REJECT DML/DDL. 3. All SELECTs MUST include LIMIT 100.";
         indent ++ "**TASK:** Generate the final, executable, and constrained SQLite SQL query.";
         indent ++ "**OUTPUT FORMAT:** Respond ONLY with the SQL query text.";
         indent].

(** The request sent by [_llm_call(prompt, context)]. *)
Definition llm_request (prompt context : string) : LlmRequest :=
  mkLlmRequest None (context ++ nl ++ nl ++ "User Request: " ++ prompt).

(** The value [_llm_call] returns for a reply of the service. *)
Definition llm_result (r : LlmReply) : string :=
  match r with
  | LlmText text => strip text
  | LlmApiError _ => "ERROR: API Call Failed"
  end.

(** [_llm_call] *)
Definition llm_call (prompt context : string) : M string :=
  let req := llm_request prompt context in
  emit (ELlm req) ;;; ret (llm_result (llm req)).

Definition reject_message : string :=
  "Query rejected. Agent is restricted to SELECT/DESCRIBE only.".

Definition no_results_message : string := "No results found for your query.".

Definition error_message (e : string) : string := "Error executing SQL: " ++ e.

(** One rendered row: [f"| {' | '.join(cells)} |"]. *)
Definition table_line (cells : list string) : string :=
  "| " ++ join " | " cells ++ " |".

(** The [output] lines of lines 156-162, joined by newlines. *)
Definition format_table (header : list string) (results : list (list V)) : string :=
  let line0 := table_line header in
  let sep := "|" ++ repeat_str "-" (String.length line0 - 2) ++ "|" in
  join nl (line0 :: sep :: map (fun row => table_line (map py_str row)) results).

(** [return "\n\nFINAL ANSWER:\n" + "\n".join(output)] *)
Definition final_answer (header : list string) (results : list (list V)) : string :=
  nl ++ nl ++ "FINAL ANSWER:" ++ nl ++ format_table header results.

(** Lines 131-168: the security gate, then execution and formatting. *)
Definition gate_and_execute (generated_sql : string) : M (PyRet V) :=
  let normalized_sql := Gate.normalize generated_sql in
  if negb (Gate.allowed_match normalized_sql) then
    match py_split normalized_sql with
    | [] => raise IndexError
    | command :: _ => emit (ELogReject command) ;;; ret (RStr reject_message)
    end
  else
    emit (EExec generated_sql) ;;;
    match db generated_sql with
    | DbError e => ret (RStr (error_message e))
    | DbRows header results =>
        match results with
        | [] => ret (RStr no_results_message)
        | _ :: _ => ret (RStr (final_answer header results))
        end
    end.

(** [execute_prompt] *)
Definition execute_prompt (user_prompt : string) : M (PyRet V) :=
  schema <- get_schema_description catalog ;;
  reason <- llm_call user_prompt (reason_context schema) ;;
  think <- llm_call user_prompt think_context ;;
  generated_sql <- llm_call user_prompt sql_context ;;
  gate_and_execute generated_sql.

End MainAgent.
End Main.

(** ** src/code/sample.py: [SqliteAgent] with a single generation call *)
Module Sample.

Section SampleAgent.
Context {V : Type}.
Variable py_str : V -> string.
Variable catalog : string -> list (string * string).
Variable llm : LlmRequest -> LlmReply.
Variable db : string -> DbReply V.

Definition system_prompt (schema : string) : string :=
  lines [EmptyString;
         indent ++ "You are a View-Only SQL Generator. Your task is to translate the user's request into a single, valid SQLite SQL query.";
         EmptyString;
         indent ++ "**CURRENT DATABASE SCHEMA:**";
         indent ++ schema;
         EmptyString;
         indent ++ "**STRICT RULES:**";
         indent ++ "1.  **ONLY SELECT/DESCRIBE:** Your output MUST ONLY be a valid `SELECT` statement or a SQLite `PRAGMA table_info(<table_name>)` statement (which serves as the 'DESCRIBE TABLE' equivalent).";
         indent ++ "2.  **REJECT DML/DDL:** You MUST reject and refuse to generate any query that is NOT `SELECT` or `PRAGMA table_info`. This includes INSERT, UPDATE, DELETE, DROP, ALTER, etc.";
         indent ++ "3.  **LIMIT 100:** All `SELECT` queries MUST include `LIMIT 100` at the end.";
         indent ++ "4.  **OUTPUT FORMAT:** Respond ONLY with the SQL query text. Do not include any explanations, Markdown formatting (e.g., ```sql`), or extra text.";
         indent].

Definition generate_request (user_prompt schema : string) : LlmRequest :=
  mkLlmRequest (Some (system_prompt schema)) user_prompt.

(** The value [_generate_sql] returns for a reply of the service. *)
Definition generate_result (r : LlmReply) : string :=
  match r with
  | LlmText text => strip text
  | LlmApiError e => "ERROR: Could not generate SQL due to API issue: " ++ e
  end.

(** [_generate_sql] *)
Definition generate_sql (user_prompt : string) : M string :=
  schema <- get_schema_description catalog ;;
  let req := generate_request user_prompt schema in
  emit (ELlm req) ;;; ret (generate_result (llm req)).

Definition reject_message : string :=
  "Query rejected. This agent is restricted to SELECT and DESCRIBE TABLE operations only.".

Definition no_results_message : string := "No results found for your query.".

Definition error_message (e : string) : string := "Error executing SQL: " ++ e.

(** Lines 167-172: [" | ".join(header)], a dash rule as long as it, and one
    [" | ".join(map(str, row))] per row, joined by newlines. *)
Definition format_table (header : list string) (results : list (list V)) : string :=
  let line0 := join " | " header in
  join nl (line0 :: repeat_str "-" (String.length line0)
                 :: map (fun row => join " | " (map py_str row)) results).

(** Lines 134-176: the security gate, then execution and formatting. *)
Definition gate_and_execute (generated_sql : string) : M (PyRet V) :=
  let normalized_sql := Gate.normalize generated_sql in
  if negb (Gate.allowed_match normalized_sql) then
    ret (RStr reject_message)
  else
    emit (EExec generated_sql) ;;;
    match db generated_sql with
    | DbError e => ret (RStr (error_message e))
    | DbRows header results =>
        if startswith "PRAGMA" normalized_sql then ret (RRows results)
        else match results with
             | [] => ret (RStr no_results_message)
             | _ :: _ => ret (RStr (format_table header results))
             end
    end.

(** [execute_prompt] *)
Definition execute_prompt (user_prompt : string) : M (PyRet V) :=
  generated_sql <- generate_sql user_prompt ;;
  gate_and_execute generated_sql.

End SampleAgent.
End Sample.

(** ** Derived notions of one request cycle *)
Module Cycle.

(** The schema string [_get_schema_description] returns. *)
Definition schema_of (catalog : string -> list (string * string)) : string :=
  join nl (map (fun table =>
                  "Table **" ++ table ++ "**: ("
                  ++ join ", " (map (fun col => fst col ++ " (" ++ snd col ++ ")")
                                    (catalog table)) ++ ")")
               table_names).

(** The candidate statement of main.py: what the ACT call returns. *)
Definition main_candidate (llm : LlmRequest -> LlmReply) (user_prompt : string) : string :=
  Main.llm_result (llm (Main.llm_request user_prompt Main.sql_context)).

(** The candidate statement of sample.py: what [_generate_sql] returns. *)
Definition sample_candidate (catalog : string -> list (string * string))
    (llm : LlmRequest -> LlmReply) (user_prompt : string) : string :=
  Sample.generate_result (llm (Sample.generate_request user_prompt (schema_of catalog))).

(** The events of a main.py cycle before the gate. *)
Definition main_prefix (catalog : string -> list (string * string)) (user_prompt : string)
  : list Event :=
  map (fun t => EExec (table_info_sql t)) table_names
  ++ [ELlm (Main.llm_request user_prompt (Main.reason_context (schema_of catalog)));
      ELlm (Main.llm_request user_prompt Main.think_context);
      ELlm (Main.llm_request user_prompt Main.sql_context)].

(** The events of a sample.py cycle before the gate. *)
Definition sample_prefix (catalog : string -> list (string * string)) (user_prompt : string)
  : list Event :=
  map (fun t => EExec (table_info_sql t)) table_names
  ++ [ELlm (Sample.generate_request user_prompt (schema_of catalog))].

(** Every character of [s] is whitespace. *)
Fixpoint all_space (s : string) : bool :=
  match s with
  | EmptyString => true
  | String c s' => is_space c && all_space s'
  end.

(** [c] occurs in [s]. *)
Fixpoint has_char (c : ascii) (s : string) : bool :=
  match s with
  | EmptyString => false
  | String c' s' => Ascii.eqb c c' || has_char c s'
  end.

(** A cell text that contains neither a bar nor a newline. *)
Definition plain_cell (s : string) : bool :=
  negb (has_char "|" s) && negb (has_char (chr 10) s).

End Cycle.

(** ** Re-parsing a rendered table

    The scripts have no parser for their tables; the round-trip property of
    the spec needs one.  This one follows the layout the spec describes: a
    header row, a separator row, one row per record, cells separated by
    bars. *)
Module TableParse.

(** [s.split(c)] for one character [c]. *)
Fixpoint split_on (c : ascii) (s : string) : list string :=
  match s with
  | EmptyString => [EmptyString]
  | String a s' =>
      let r := split_on c s' in
      if Ascii.eqb a c then EmptyString :: r
      else match r with
           | x :: rest => String a x :: rest
           | [] => [String a EmptyString]
           end
  end.

(** Drop one trailing space. *)
Fixpoint chop_space (s : string) : string :=
  match s with
  | EmptyString => EmptyString
  | String c EmptyString => if Ascii.eqb c " " then EmptyString else s
  | String c s' => String c (chop_space s')
  end.

(** Drop the one space of padding on each side of a cell. *)
Definition trim1 (s : string) : string :=
  match s with
  | String c s' => if Ascii.eqb c " " then chop_space s' else s
  | EmptyString => EmptyString
  end.

Fixpoint drop_prefix (p s : string) : option string :=
  match p, s with
  | EmptyString, _ => Some s
  | String a p', String b s' => if Ascii.eqb a b then drop_prefix p' s' else None
  | String _ _, EmptyString => None
  end.

(** The cells of a main.py row [| a | b |]. *)
Definition main_cells (line : string) : list string :=
  map trim1 (removelast (tl (split_on "|" line))).

(** Parse main.py's [FINAL ANSWER] text into column names and cells. *)
Definition parse_main (s : string) : option (list string * list (list string)) :=
  match drop_prefix (nl ++ nl ++ "FINAL ANSWER:" ++ nl) s with
  | None => None
  | Some body =>
      match split_on (chr 10) body with
      | h :: _ :: rows => Some (main_cells h, map main_cells rows)
      | _ => None
      end
  end.

(** The cells of a sample.py row [a | b]. *)
Definition sample_cells (line : string) : list string :=
  map trim1 (split_on "|" (" " ++ line ++ " ")).

(** Parse sample.py's table text into column names and cells. *)
Definition parse_sample (s : string) : option (list string * list (list string)) :=
  match split_on (chr 10) s with
  | h :: _ :: rows => Some (sample_cells h, map sample_cells rows)
  | _ => None
  end.

End TableParse.

(** ** Database setup: db.py [setup_demo_database] and the agents'
    [__init__] with [_setup_database]

    The sqlite3 engine is an oracle [db_step]: given the operations already
    performed on the connection, it says whether the next one raises an
    [sqlite3.Error] (and with which message). *)
Module Setup.

(** A Python literal of the seed data; [LReal d k] is the float literal with
    digits [d] and [k] digits after the point ([60000.00] is [LReal 6000000 2]). *)
Inductive SqlLit :=
| LInt (n : Z)
| LText (s : string)
| LReal (digits : Z) (scale : nat).

(** The operations the setup code performs on a connection. *)
Inductive DbOp :=
| OpConnect (path : string)                          (* [sqlite3.connect(path)] *)
| OpExecute (sql : string)                           (* [cursor.execute(sql)] *)
| OpExecuteMany (sql : string) (rows : list (list SqlLit))  (* [cursor.executemany] *)
| OpCommit                                           (* [conn.commit()] *)
| OpClose.                                           (* [conn.close()] *)

Record Connection := mkConnection { conn_path : string }.

(** The attributes [conn] and [table_names] of [SqliteAgent] after
    [__init__] ([cursor] is [conn.cursor()], [logger] a module global). *)
Record AgentState := mkAgentState {
  agent_conn : Connection;
  agent_table_names : list string
}.

Definition employee_data : list (list SqlLit) :=
  [[LInt 101; LText "Alice Smith"; LText "Sales"; LReal 6000000 2];
   [LInt 102; LText "Bob Johnson"; LText "IT"; LReal 7500000 2];
   [LInt 103; LText "Charlie Brown"; LText "Sales"; LReal 6200000 2];
   [LInt 104; LText "Diana Prince"; LText "HR"; LReal 5500000 2];
   [LInt 105; LText "Clark Kent"; LText "IT"; LReal 8000000 2]].

Definition department_data : list (list SqlLit) :=
  [[LInt 1; LText "Sales"]; [LInt 2; LText "IT"]; [LInt 3; LText "HR"]].

Definition insert_employees_sql : string := "INSERT INTO Employees VALUES (?, ?, ?, ?)".
Definition insert_departments_sql : string := "INSERT INTO Departments VALUES (?, ?)".

(** The triple-quoted CREATE statements of db.py and sample.py. *)
Definition create_employees_block : string :=
  lines [EmptyString;
         "            CREATE TABLE IF NOT EXISTS Employees (";
         "                employee_id INTEGER PRIMARY KEY,";
         "                name TEXT NOT NULL,";
         "                department TEXT,";
         "                salary REAL";
         "            );";
         indent].

Definition create_departments_block : string :=
  lines [EmptyString;
         "            CREATE TABLE IF NOT EXISTS Departments (";
         "                dept_id INTEGER PRIMARY KEY,";
         "                name TEXT NOT NULL";
         "            );";
         indent].

(** The one-line CREATE statements of main.py. *)
Definition main_create_employees : string :=
  "CREATE TABLE IF NOT EXISTS Employees (employee_id INTEGER PRIMARY KEY, name TEXT NOT NULL, department TEXT, salary REAL);".
Definition main_create_departments : string :=
  "CREATE TABLE IF NOT EXISTS Departments (dept_id INTEGER PRIMARY KEY, name TEXT NOT NULL);".

(** The operations after [connect] in db.py lines 18-57. *)
Definition db_setup_ops : list DbOp :=
  [OpExecute create_employees_block; OpExecuteMany insert_employees_sql employee_data;
   OpExecute create_departments_block; OpExecuteMany insert_departments_sql department_data;
   OpCommit].

(** [_setup_database] of main.py (lines 50-65). *)
Definition main_setup_ops : list DbOp :=
  [OpExecute main_create_employees; OpExecuteMany insert_employees_sql employee_data;
   OpExecute main_create_departments; OpExecuteMany insert_departments_sql department_data;
   OpCommit].

(** [_setup_database] of sample.py (lines 47-76). *)
Definition sample_setup_ops : list DbOp :=
  [OpExecute create_employees_block; OpExecuteMany insert_employees_sql employee_data;
   OpExecute create_departments_block; OpExecuteMany insert_departments_sql department_data;
   OpCommit].

Section Steps.
Variable db_step : list DbOp -> DbOp -> option string.

(** Run [ops] in order after [done]; stop at the first one that raises. *)
Fixpoint run_ops (done : list DbOp) (ops : list DbOp) : list DbOp * option string :=
  match ops with
  | [] => (done, None)
  | op :: ops' =>
      let done' := app done [op] in
      match db_step done op with
      | Some e => (done', Some e)
      | None => run_ops done' ops'
      end
  end.

(** db.py [setup_demo_database]: the [try] block, and the [except
    sqlite3.Error] handler that closes [conn] when it was bound (a
    [Connection] is always truthy) and returns [None]. *)
Definition setup_demo_database (db_path : string)
  : list DbOp * Result (option Connection) :=
  match db_step [] (OpConnect db_path) with
  | Some _ => ([OpConnect db_path], Ok None)
  | None =>
      match run_ops [OpConnect db_path] db_setup_ops with
      | (done, None) => (done, Ok (Some (mkConnection db_path)))
      | (done, Some _) =>
          match db_step done OpClose with
          | None => (app done [OpClose], Ok None)
          | Some e' => (app done [OpClose], Raised (Sqlite3Error e'))
          end
      end
  end.

(** [SqliteAgent.__init__(db_path, table_names)] with the script's
    [_setup_database] operations [setup_ops]: no handler, so an
    [sqlite3.Error] leaves the constructor; [_setup_database] ends by
    assigning [self.table_names = ['Employees', 'Departments']]. *)
Definition agent_init (setup_ops : list DbOp) (db_path : string)
    (table_names_arg : option (list string)) : list DbOp * Result AgentState :=
  match db_step [] (OpConnect db_path) with
  | Some e => ([OpConnect db_path], Raised (Sqlite3Error e))
  | None =>
      let self0 := mkAgentState (mkConnection db_path)
                     (match table_names_arg with Some t => t | None => [] end) in
      match run_ops [OpConnect db_path] setup_ops with
      | (done, Some e) => (done, Raised (Sqlite3Error e))
      | (done, None) => (done, Ok (mkAgentState (agent_conn self0) table_names))
      end
  end.

(** The first [k] operations of [ops] run after [done] succeed and the
    [k]-th raises [e]. *)
Definition fails_first_at (done ops : list DbOp) (k : nat) (e : string) : Prop :=
  k < length ops
  /\ (forall i, i < k -> db_step (app done (firstn i ops)) (nth i ops OpCommit) = None)
  /\ db_step (app done (firstn k ops)) (nth k ops OpCommit) = Some e.

End Steps.
End Setup.

(** One line of the schema description: [f"Table **{table}**: (...)"]. *)
Definition schema_line (catalog : string -> list (string * string)) (table : string) : string :=
  "Table **" ++ table ++ "**: ("
  ++ join ", " (map (fun col => fst col ++ " (" ++ snd col ++ ")") (catalog table)) ++ ")".

(** ** The request cycle with every outcome of the external calls

    [Agent.LlmReply], [Agent.DbReply] and the catalog above cover the replies
    the scripts handle.  Here the completion service can also return a
    response whose [.text] is None (a response with no text part) or raise an
    exception other than [APIError] (a transport error of the HTTP client,
    ...); an accepted statement can run with [cursor.description] None (a
    [PRAGMA] that sqlite3 does not know runs as a no-op); and a schema read
    [PRAGMA table_info(T)] can raise an [sqlite3.Error].  None of these is
    caught by the scripts.  Printing and logging are assumed not to raise. *)
Module Full.

(** What [client.models.generate_content(...)] does. *)
Inductive Reply :=
| RText (text : string)        (* a response whose [.text] is a string *)
| RNoText                      (* a response whose [.text] is None *)
| RApiError (msg : string)     (* raises [APIError]; [str(e)] is [msg] *)
| ROtherError (msg : string).  (* raises any other exception *)

(** What [cursor.execute(sql)], then [cursor.description] and
    [cursor.fetchall()], do for an accepted statement. *)
Inductive Exec (V : Type) :=
| XRows (header : list string) (rows : list (list V))
| XNoDescription                (* runs; [cursor.description] is None *)
| XError (msg : string).        (* raises [sqlite3.Error] *)
Arguments XRows {V} header rows.
Arguments XNoDescription {V}.
Arguments XError {V} msg.

(** What [cursor.execute(f"PRAGMA table_info({table})")] followed by
    [cursor.fetchall()] does: the [(col[1], col[2])] pairs, or an
    [sqlite3.Error]. *)
Inductive CatalogReply :=
| CRows (cols : list (string * string))
| CError (msg : string).

(** The reply is one [_llm_call] and [_generate_sql] turn into a value. *)
Definition handled (r : Reply) : bool :=
  match r with
  | RText _ | RApiError _ => true
  | RNoText | ROtherError _ => false
  end.

(** Every schema read succeeds. *)
Definition catalog_ok (catalog : string -> CatalogReply) : bool :=
  forallb (fun t => match catalog t with CRows _ => true | CError _ => false end) table_names.

Section Schema.
Variable catalog : string -> CatalogReply.

(** One iteration of the loop of [_get_schema_description]. *)
Definition schema_part (table : string) : M string :=
  emit (EExec (table_info_sql table)) ;;;
  match catalog table with
  | CError e => raise (Sqlite3Error e)
  | CRows cols =>
      let columns := map (fun col => fst col ++ " (" ++ snd col ++ ")") cols in
      ret ("Table **" ++ table ++ "**: (" ++ join ", " columns ++ ")")
  end.

(** [_get_schema_description] (identical in both scripts). *)
Definition get_schema_description : M string :=
  parts <- map_m schema_part table_names ;;
  ret (join nl parts).
End Schema.

(** src/code/main.py *)
Module MainFull.
Section MainAgent.
Context {V : Type}.
Variable py_str : V -> string.
Variable catalog : string -> CatalogReply.
Variable llm : LlmRequest -> Reply.
Variable db : string -> Exec V.

(** [_llm_call]: [return response.text.strip()] inside
    [try ... except APIError]. *)
Definition llm_call (prompt context : string) : M string :=
  let req := Main.llm_request prompt context in
  emit (ELlm req) ;;;
  match llm req with
  | RText text => ret (strip text)
  | RNoText => raise AttributeError
  | RApiError _ => ret "ERROR: API Call Failed"
  | ROtherError e => raise (ClientError e)
  end.

(** Lines 131-168: the header is read from [cursor.description] before
    [fetchall]. *)
Definition gate_and_execute (generated_sql : string) : M (PyRet V) :=
  let normalized_sql := Gate.normalize generated_sql in
  if negb (Gate.allowed_match normalized_sql) then
    match py_split normalized_sql with
    | [] => raise IndexError
    | command :: _ => emit (ELogReject command) ;;; ret (RStr Main.reject_message)
    end
  else
    emit (EExec generated_sql) ;;;
    match db generated_sql with
    | XError e => ret (RStr (Main.error_message e))
    | XNoDescription => raise TypeError
    | XRows header results =>
        match results with
        | [] => ret (RStr Main.no_results_message)
        | _ :: _ => ret (RStr (Main.final_answer py_str header results))
        end
    end.

(** [execute_prompt] *)
Definition execute_prompt (user_prompt : string) : M (PyRet V) :=
  schema <- get_schema_description catalog ;;
  reason <- llm_call user_prompt (Main.reason_context schema) ;;
  think <- llm_call user_prompt Main.think_context ;;
  generated_sql <- llm_call user_prompt Main.sql_context ;;
  gate_and_execute generated_sql.

End MainAgent.
End MainFull.

(** src/code/sample.py *)
Module SampleFull.
Section SampleAgent.
Context {V : Type}.
Variable py_str : V -> string.
Variable catalog : string -> CatalogReply.
Variable llm : LlmRequest -> Reply.
Variable db : string -> Exec V.

(** [_generate_sql]: the schema is read before the [try]; the call and
    [response.text.strip()] are inside [try ... except APIError]. *)
Definition generate_sql (user_prompt : string) : M string :=
  schema <- get_schema_description catalog ;;
  let req := Sample.generate_request user_prompt schema in
  emit (ELlm req) ;;;
  match llm req with
  | RText text => ret (strip text)
  | RNoText => raise AttributeError
  | RApiError e => ret ("ERROR: Could not generate SQL due to API issue: " ++ e)
  | ROtherError e => raise (ClientError e)
  end.

(** Lines 134-176: both branches read the header from
    [cursor.description] before [fetchall]. *)
Definition gate_and_execute (generated_sql : string) : M (PyRet V) :=
  let normalized_sql := Gate.normalize generated_sql in
  if negb (Gate.allowed_match normalized_sql) then
    ret (RStr Sample.reject_message)
  else
    emit (EExec generated_sql) ;;;
    match db generated_sql with
    | XError e => ret (RStr (Sample.error_message e))
    | XNoDescription => raise TypeError
    | XRows header results =>
        if startswith "PRAGMA" normalized_sql then ret (RRows results)
        else match results with
             | [] => ret (RStr Sample.no_results_message)
             | _ :: _ => ret (RStr (Sample.format_table py_str header results))
             end
    end.

(** [execute_prompt] *)
Definition execute_prompt (user_prompt : string) : M (PyRet V) :=
  generated_sql <- generate_sql user_prompt ;;
  gate_and_execute generated_sql.

End SampleAgent.
End SampleFull.

(** The replies of [Agent] as replies of this model. *)
Definition lift_reply (r : LlmReply) : Reply :=
  match r with
  | LlmText t => RText t
  | LlmApiError e => RApiError e
  end.

Definition lift_db {V : Type} (r : DbReply V) : Exec V :=
  match r with
  | DbRows h rows => XRows h rows
  | DbError e => XError e
  end.

(** The columns a schema read returns, when it returns. *)
Definition columns_read (catalog : string -> CatalogReply) (table : string)
  : list (string * string) :=
  match catalog table with CRows cols => cols | CError _ => [] end.

(** Used in the proofs: [m] appends its events to whatever trace it is given,
    and its outcome does not depend on that trace. *)
Definition frames {A : Type} (m : M A) : Prop :=
  forall tr, m tr = (app tr (fst (m [])), snd (m [])).

End Full.

(** ** The security gate on Python [str] values

    [Gate] above works on ASCII text.  The generated statement is a Python
    [str], a sequence of code points, and [re.IGNORECASE] compares code points
    through [_sre.unicode_tolower] and the extra cases of [re._casefix], so a
    character of the normalized text that is not an ASCII letter can still
    match a letter of the pattern.  The tables are those of CPython 3.11
    (Unicode 14.0.0). *)
Module UniGate.
Local Open Scope N_scope.

(** [chr(c).upper()] for every code point [c] it changes (Python 3.11,
    Unicode 14.0.0); every other code point is its own upper case. *)
Definition upper_full_table : list (N * list N) :=
  [
   (97, [65]); (98, [66]); (99, [67]); (100, [68]); (101, [69]); (102, [70]); (103, [71]); (104, [72]);
   (105, [73]); (106, [74]); (107, [75]); (108, [76]); (109, [77]); (110, [78]); (111, [79]); (112, [80]);
   (113, [81]); (114, [82]); (115, [83]); (116, [84]); (117, [85]); (118, [86]); (119, [87]); (120, [88]);
   (121, [89]); (122, [90]); (181, [924]); (223, [83; 83]); (224, [192]); (225, [193]); (226, [194]); (227, [195]);
   (228, [196]); (229, [197]); (230, [198]); (231, [199]); (232, [200]); (233, [201]); (234, [202]); (235, [203]);
   (236, [204]); (237, [205]); (238, [206]); (239, [207]); (240, [208]); (241, [209]); (242, [210]); (243, [211]);
   (244, [212]); (245, [213]); (246, [214]); (248, [216]); (249, [217]); (250, [218]); (251, [219]); (252, [220]);
   (253, [221]); (254, [222]); (255, [376]); (257, [256]); (259, [258]); (261, [260]); (263, [262]); (265, [264]);
   (267, [266]); (269, [268]); (271, [270]); (273, [272]); (275, [274]); (277, [276]); (279, [278]); (281, [280]);
   (283, [282]); (285, [284]); (287, [286]); (289, [288]); (291, [290]); (293, [292]); (295, [294]); (297, [296]);
   (299, [298]); (301, [300]); (303, [302]); (305, [73]); (307, [306]); (309, [308]); (311, [310]); (314, [313]);
   (316, [315]); (318, [317]); (320, [319]); (322, [321]); (324, [323]); (326, [325]); (328, [327]); (329, [700; 78]);
   (331, [330]); (333, [332]); (335, [334]); (337, [336]); (339, [338]); (341, [340]); (343, [342]); (345, [344]);
   (347, [346]); (349, [348]); (351, [350]); (353, [352]); (355, [354]); (357, [356]); (359, [358]); (361, [360]);
   (363, [362]); (365, [364]); (367, [366]); (369, [368]); (371, [370]); (373, [372]); (375, [374]); (378, [377]);
   (380, [379]); (382, [381]); (383, [83]); (384, [579]); (387, [386]); (389, [388]); (392, [391]); (396, [395]);
   (402, [401]); (405, [502]); (409, [408]); (410, [573]); (414, [544]); (417, [416]); (419, [418]); (421, [420]);
   (424, [423]); (429, [428]); (432, [431]); (436, [435]); (438, [437]); (441, [440]); (445, [444]); (447, [503]);
   (453, [452]); (454, [452]); (456, [455]); (457, [455]); (459, [458]); (460, [458]); (462, [461]); (464, [463]);
   (466, [465]); (468, [467]); (470, [469]); (472, [471]); (474, [473]); (476, [475]); (477, [398]); (479, [478]);
   (481, [480]); (483, [482]); (485, [484]); (487, [486]); (489, [488]); (491, [490]); (493, [492]); (495, [494]);
   (496, [74; 780]); (498, [497]); (499, [497]); (501, [500]); (505, [504]); (507, [506]); (509, [508]); (511, [510]);
   (513, [512]); (515, [514]); (517, [516]); (519, [518]); (521, [520]); (523, [522]); (525, [524]); (527, [526]);
   (529, [528]); (531, [530]); (533, [532]); (535, [534]); (537, [536]); (539, [538]); (541, [540]); (543, [542]);
   (547, [546]); (549, [548]); (551, [550]); (553, [552]); (555, [554]); (557, [556]); (559, [558]); (561, [560]);
   (563, [562]); (572, [571]); (575, [11390]); (576, [11391]); (578, [577]); (583, [582]); (585, [584]); (587, [586]);
   (589, [588]); (591, [590]); (592, [11375]); (593, [11373]); (594, [11376]); (595, [385]); (596, [390]); (598, [393]);
   (599, [394]); (601, [399]); (603, [400]); (604, [42923]); (608, [403]); (609, [42924]); (611, [404]); (613, [42893]);
   (614, [42922]); (616, [407]); (617, [406]); (618, [42926]); (619, [11362]); (620, [42925]); (623, [412]); (625, [11374]);
   (626, [413]); (629, [415]); (637, [11364]); (640, [422]); (642, [42949]); (643, [425]); (647, [42929]); (648, [430]);
   (649, [580]); (650, [433]); (651, [434]); (652, [581]); (658, [439]); (669, [42930]); (670, [42928]); (837, [921]);
   (881, [880]); (883, [882]); (887, [886]); (891, [1021]); (892, [1022]); (893, [1023]); (912, [921; 776; 769]); (940, [902]);
   (941, [904]); (942, [905]); (943, [906]); (944, [933; 776; 769]); (945, [913]); (946, [914]); (947, [915]); (948, [916]);
   (949, [917]); (950, [918]); (951, [919]); (952, [920]); (953, [921]); (954, [922]); (955, [923]); (956, [924]);
   (957, [925]); (958, [926]); (959, [927]); (960, [928]); (961, [929]); (962, [931]); (963, [931]); (964, [932]);
   (965, [933]); (966, [934]); (967, [935]); (968, [936]); (969, [937]); (970, [938]); (971, [939]); (972, [908]);
   (973, [910]); (974, [911]); (976, [914]); (977, [920]); (981, [934]); (982, [928]); (983, [975]); (985, [984]);
   (987, [986]); (989, [988]); (991, [990]); (993, [992]); (995, [994]); (997, [996]); (999, [998]); (1001, [1000]);
   (1003, [1002]); (1005, [1004]); (1007, [1006]); (1008, [922]); (1009, [929]); (1010, [1017]); (1011, [895]); (1013, [917]);
   (1016, [1015]); (1019, [1018]); (1072, [1040]); (1073, [1041]); (1074, [1042]); (1075, [1043]); (1076, [1044]); (1077, [1045]);
   (1078, [1046]); (1079, [1047]); (1080, [1048]); (1081, [1049]); (1082, [1050]); (1083, [1051]); (1084, [1052]); (1085, [1053]);
   (1086, [1054]); (1087, [1055]); (1088, [1056]); (1089, [1057]); (1090, [1058]); (1091, [1059]); (1092, [1060]); (1093, [1061]);
   (1094, [1062]); (1095, [1063]); (1096, [1064]); (1097, [1065]); (1098, [1066]); (1099, [1067]); (1100, [1068]); (1101, [1069]);
   (1102, [1070]); (1103, [1071]); (1104, [1024]); (1105, [1025]); (1106, [1026]); (1107, [1027]); (1108, [1028]); (1109, [1029]);
   (1110, [1030]); (1111, [1031]); (1112, [1032]); (1113, [1033]); (1114, [1034]); (1115, [1035]); (1116, [1036]); (1117, [1037]);
   (1118, [1038]); (1119, [1039]); (1121, [1120]); (1123, [1122]); (1125, [1124]); (1127, [1126]); (1129, [1128]); (1131, [1130]);
   (1133, [1132]); (1135, [1134]); (1137, [1136]); (1139, [1138]); (1141, [1140]); (1143, [1142]); (1145, [1144]); (1147, [1146]);
   (1149, [1148]); (1151, [1150]); (1153, [1152]); (1163, [1162]); (1165, [1164]); (1167, [1166]); (1169, [1168]); (1171, [1170]);
   (1173, [1172]); (1175, [1174]); (1177, [1176]); (1179, [1178]); (1181, [1180]); (1183, [1182]); (1185, [1184]); (1187, [1186]);
   (1189, [1188]); (1191, [1190]); (1193, [1192]); (1195, [1194]); (1197, [1196]); (1199, [1198]); (1201, [1200]); (1203, [1202]);
   (1205, [1204]); (1207, [1206]); (1209, [1208]); (1211, [1210]); (1213, [1212]); (1215, [1214]); (1218, [1217]); (1220, [1219]);
   (1222, [1221]); (1224, [1223]); (1226, [1225]); (1228, [1227]); (1230, [1229]); (1231, [1216]); (1233, [1232]); (1235, [1234]);
   (1237, [1236]); (1239, [1238]); (1241, [1240]); (1243, [1242]); (1245, [1244]); (1247, [1246]); (1249, [1248]); (1251, [1250]);
   (1253, [1252]); (1255, [1254]); (1257, [1256]); (1259, [1258]); (1261, [1260]); (1263, [1262]); (1265, [1264]); (1267, [1266]);
   (1269, [1268]); (1271, [1270]); (1273, [1272]); (1275, [1274]); (1277, [1276]); (1279, [1278]); (1281, [1280]); (1283, [1282]);
   (1285, [1284]); (1287, [1286]); (1289, [1288]); (1291, [1290]); (1293, [1292]); (1295, [1294]); (1297, [1296]); (1299, [1298]);
   (1301, [1300]); (1303, [1302]); (1305, [1304]); (1307, [1306]); (1309, [1308]); (1311, [1310]); (1313, [1312]); (1315, [1314]);
   (1317, [1316]); (1319, [1318]); (1321, [1320]); (1323, [1322]); (1325, [1324]); (1327, [1326]); (1377, [1329]); (1378, [1330]);
   (1379, [1331]); (1380, [1332]); (1381, [1333]); (1382, [1334]); (1383, [1335]); (1384, [1336]); (1385, [1337]); (1386, [1338]);
   (1387, [1339]); (1388, [1340]); (1389, [1341]); (1390, [1342]); (1391, [1343]); (1392, [1344]); (1393, [1345]); (1394, [1346]);
   (1395, [1347]); (1396, [1348]); (1397, [1349]); (1398, [1350]); (1399, [1351]); (1400, [1352]); (1401, [1353]); (1402, [1354]);
   (1403, [1355]); (1404, [1356]); (1405, [1357]); (1406, [1358]); (1407, [1359]); (1408, [1360]); (1409, [1361]); (1410, [1362]);
   (1411, [1363]); (1412, [1364]); (1413, [1365]); (1414, [1366]); (1415, [1333; 1362]); (4304, [7312]); (4305, [7313]); (4306, [7314]);
   (4307, [7315]); (4308, [7316]); (4309, [7317]); (4310, [7318]); (4311, [7319]); (4312, [7320]); (4313, [7321]); (4314, [7322]);
   (4315, [7323]); (4316, [7324]); (4317, [7325]); (4318, [7326]); (4319, [7327]); (4320, [7328]); (4321, [7329]); (4322, [7330]);
   (4323, [7331]); (4324, [7332]); (4325, [7333]); (4326, [7334]); (4327, [7335]); (4328, [7336]); (4329, [7337]); (4330, [7338]);
   (4331, [7339]); (4332, [7340]); (4333, [7341]); (4334, [7342]); (4335, [7343]); (4336, [7344]); (4337, [7345]); (4338, [7346]);
   (4339, [7347]); (4340, [7348]); (4341, [7349]); (4342, [7350]); (4343, [7351]); (4344, [7352]); (4345, [7353]); (4346, [7354]);
   (4349, [7357]); (4350, [7358]); (4351, [7359]); (5112, [5104]); (5113, [5105]); (5114, [5106]); (5115, [5107]); (5116, [5108]);
   (5117, [5109]); (7296, [1042]); (7297, [1044]); (7298, [1054]); (7299, [1057]); (7300, [1058]); (7301, [1058]); (7302, [1066]);
   (7303, [1122]); (7304, [42570]); (7545, [42877]); (7549, [11363]); (7566, [42950]); (7681, [7680]); (7683, [7682]); (7685, [7684]);
   (7687, [7686]); (7689, [7688]); (7691, [7690]); (7693, [7692]); (7695, [7694]); (7697, [7696]); (7699, [7698]); (7701, [7700]);
   (7703, [7702]); (7705, [7704]); (7707, [7706]); (7709, [7708]); (7711, [7710]); (7713, [7712]); (7715, [7714]); (7717, [7716]);
   (7719, [7718]); (7721, [7720]); (7723, [7722]); (7725, [7724]); (7727, [7726]); (7729, [7728]); (7731, [7730]); (7733, [7732]);
   (7735, [7734]); (7737, [7736]); (7739, [7738]); (7741, [7740]); (7743, [7742]); (7745, [7744]); (7747, [7746]); (7749, [7748]);
   (7751, [7750]); (7753, [7752]); (7755, [7754]); (7757, [7756]); (7759, [7758]); (7761, [7760]); (7763, [7762]); (7765, [7764]);
   (7767, [7766]); (7769, [7768]); (7771, [7770]); (7773, [7772]); (7775, [7774]); (7777, [7776]); (7779, [7778]); (7781, [7780]);
   (7783, [7782]); (7785, [7784]); (7787, [7786]); (7789, [7788]); (7791, [7790]); (7793, [7792]); (7795, [7794]); (7797, [7796]);
   (7799, [7798]); (7801, [7800]); (7803, [7802]); (7805, [7804]); (7807, [7806]); (7809, [7808]); (7811, [7810]); (7813, [7812]);
   (7815, [7814]); (7817, [7816]); (7819, [7818]); (7821, [7820]); (7823, [7822]); (7825, [7824]); (7827, [7826]); (7829, [7828]);
   (7830, [72; 817]); (7831, [84; 776]); (7832, [87; 778]); (7833, [89; 778]); (7834, [65; 702]); (7835, [7776]); (7841, [7840]); (7843, [7842]);
   (7845, [7844]); (7847, [7846]); (7849, [7848]); (7851, [7850]); (7853, [7852]); (7855, [7854]); (7857, [7856]); (7859, [7858]);
   (7861, [7860]); (7863, [7862]); (7865, [7864]); (7867, [7866]); (7869, [7868]); (7871, [7870]); (7873, [7872]); (7875, [7874]);
   (7877, [7876]); (7879, [7878]); (7881, [7880]); (7883, [7882]); (7885, [7884]); (7887, [7886]); (7889, [7888]); (7891, [7890]);
   (7893, [7892]); (7895, [7894]); (7897, [7896]); (7899, [7898]); (7901, [7900]); (7903, [7902]); (7905, [7904]); (7907, [7906]);
   (7909, [7908]); (7911, [7910]); (7913, [7912]); (7915, [7914]); (7917, [7916]); (7919, [7918]); (7921, [7920]); (7923, [7922]);
   (7925, [7924]); (7927, [7926]); (7929, [7928]); (7931, [7930]); (7933, [7932]); (7935, [7934]); (7936, [7944]); (7937, [7945]);
   (7938, [7946]); (7939, [7947]); (7940, [7948]); (7941, [7949]); (7942, [7950]); (7943, [7951]); (7952, [7960]); (7953, [7961]);
   (7954, [7962]); (7955, [7963]); (7956, [7964]); (7957, [7965]); (7968, [7976]); (7969, [7977]); (7970, [7978]); (7971, [7979]);
   (7972, [7980]); (7973, [7981]); (7974, [7982]); (7975, [7983]); (7984, [7992]); (7985, [7993]); (7986, [7994]); (7987, [7995]);
   (7988, [7996]); (7989, [7997]); (7990, [7998]); (7991, [7999]); (8000, [8008]); (8001, [8009]); (8002, [8010]); (8003, [8011]);
   (8004, [8012]); (8005, [8013]); (8016, [933; 787]); (8017, [8025]); (8018, [933; 787; 768]); (8019, [8027]); (8020, [933; 787; 769]); (8021, [8029]);
   (8022, [933; 787; 834]); (8023, [8031]); (8032, [8040]); (8033, [8041]); (8034, [8042]); (8035, [8043]); (8036, [8044]); (8037, [8045]);
   (8038, [8046]); (8039, [8047]); (8048, [8122]); (8049, [8123]); (8050, [8136]); (8051, [8137]); (8052, [8138]); (8053, [8139]);
   (8054, [8154]); (8055, [8155]); (8056, [8184]); (8057, [8185]); (8058, [8170]); (8059, [8171]); (8060, [8186]); (8061, [8187]);
   (8064, [7944; 921]); (8065, [7945; 921]); (8066, [7946; 921]); (8067, [7947; 921]); (8068, [7948; 921]); (8069, [7949; 921]); (8070, [7950; 921]); (8071, [7951; 921]);
   (8072, [7944; 921]); (8073, [7945; 921]); (8074, [7946; 921]); (8075, [7947; 921]); (8076, [7948; 921]); (8077, [7949; 921]); (8078, [7950; 921]); (8079, [7951; 921]);
   (8080, [7976; 921]); (8081, [7977; 921]); (8082, [7978; 921]); (8083, [7979; 921]); (8084, [7980; 921]); (8085, [7981; 921]); (8086, [7982; 921]); (8087, [7983; 921]);
   (8088, [7976; 921]); (8089, [7977; 921]); (8090, [7978; 921]); (8091, [7979; 921]); (8092, [7980; 921]); (8093, [7981; 921]); (8094, [7982; 921]); (8095, [7983; 921]);
   (8096, [8040; 921]); (8097, [8041; 921]); (8098, [8042; 921]); (8099, [8043; 921]); (8100, [8044; 921]); (8101, [8045; 921]); (8102, [8046; 921]); (8103, [8047; 921]);
   (8104, [8040; 921]); (8105, [8041; 921]); (8106, [8042; 921]); (8107, [8043; 921]); (8108, [8044; 921]); (8109, [8045; 921]); (8110, [8046; 921]); (8111, [8047; 921]);
   (8112, [8120]); (8113, [8121]); (8114, [8122; 921]); (8115, [913; 921]); (8116, [902; 921]); (8118, [913; 834]); (8119, [913; 834; 921]); (8124, [913; 921]);
   (8126, [921]); (8130, [8138; 921]); (8131, [919; 921]); (8132, [905; 921]); (8134, [919; 834]); (8135, [919; 834; 921]); (8140, [919; 921]); (8144, [8152]);
   (8145, [8153]); (8146, [921; 776; 768]); (8147, [921; 776; 769]); (8150, [921; 834]); (8151, [921; 776; 834]); (8160, [8168]); (8161, [8169]); (8162, [933; 776; 768]);
   (8163, [933; 776; 769]); (8164, [929; 787]); (8165, [8172]); (8166, [933; 834]); (8167, [933; 776; 834]); (8178, [8186; 921]); (8179, [937; 921]); (8180, [911; 921]);
   (8182, [937; 834]); (8183, [937; 834; 921]); (8188, [937; 921]); (8526, [8498]); (8560, [8544]); (8561, [8545]); (8562, [8546]); (8563, [8547]);
   (8564, [8548]); (8565, [8549]); (8566, [8550]); (8567, [8551]); (8568, [8552]); (8569, [8553]); (8570, [8554]); (8571, [8555]);
   (8572, [8556]); (8573, [8557]); (8574, [8558]); (8575, [8559]); (8580, [8579]); (9424, [9398]); (9425, [9399]); (9426, [9400]);
   (9427, [9401]); (9428, [9402]); (9429, [9403]); (9430, [9404]); (9431, [9405]); (9432, [9406]); (9433, [9407]); (9434, [9408]);
   (9435, [9409]); (9436, [9410]); (9437, [9411]); (9438, [9412]); (9439, [9413]); (9440, [9414]); (9441, [9415]); (9442, [9416]);
   (9443, [9417]); (9444, [9418]); (9445, [9419]); (9446, [9420]); (9447, [9421]); (9448, [9422]); (9449, [9423]); (11312, [11264]);
   (11313, [11265]); (11314, [11266]); (11315, [11267]); (11316, [11268]); (11317, [11269]); (11318, [11270]); (11319, [11271]); (11320, [11272]);
   (11321, [11273]); (11322, [11274]); (11323, [11275]); (11324, [11276]); (11325, [11277]); (11326, [11278]); (11327, [11279]); (11328, [11280]);
   (11329, [11281]); (11330, [11282]); (11331, [11283]); (11332, [11284]); (11333, [11285]); (11334, [11286]); (11335, [11287]); (11336, [11288]);
   (11337, [11289]); (11338, [11290]); (11339, [11291]); (11340, [11292]); (11341, [11293]); (11342, [11294]); (11343, [11295]); (11344, [11296]);
   (11345, [11297]); (11346, [11298]); (11347, [11299]); (11348, [11300]); (11349, [11301]); (11350, [11302]); (11351, [11303]); (11352, [11304]);
   (11353, [11305]); (11354, [11306]); (11355, [11307]); (11356, [11308]); (11357, [11309]); (11358, [11310]); (11359, [11311]); (11361, [11360]);
   (11365, [570]); (11366, [574]); (11368, [11367]); (11370, [11369]); (11372, [11371]); (11379, [11378]); (11382, [11381]); (11393, [11392]);
   (11395, [11394]); (11397, [11396]); (11399, [11398]); (11401, [11400]); (11403, [11402]); (11405, [11404]); (11407, [11406]); (11409, [11408]);
   (11411, [11410]); (11413, [11412]); (11415, [11414]); (11417, [11416]); (11419, [11418]); (11421, [11420]); (11423, [11422]); (11425, [11424]);
   (11427, [11426]); (11429, [11428]); (11431, [11430]); (11433, [11432]); (11435, [11434]); (11437, [11436]); (11439, [11438]); (11441, [11440]);
   (11443, [11442]); (11445, [11444]); (11447, [11446]); (11449, [11448]); (11451, [11450]); (11453, [11452]); (11455, [11454]); (11457, [11456]);
   (11459, [11458]); (11461, [11460]); (11463, [11462]); (11465, [11464]); (11467, [11466]); (11469, [11468]); (11471, [11470]); (11473, [11472]);
   (11475, [11474]); (11477, [11476]); (11479, [11478]); (11481, [11480]); (11483, [11482]); (11485, [11484]); (11487, [11486]); (11489, [11488]);
   (11491, [11490]); (11500, [11499]); (11502, [11501]); (11507, [11506]); (11520, [4256]); (11521, [4257]); (11522, [4258]); (11523, [4259]);
   (11524, [4260]); (11525, [4261]); (11526, [4262]); (11527, [4263]); (11528, [4264]); (11529, [4265]); (11530, [4266]); (11531, [4267]);
   (11532, [4268]); (11533, [4269]); (11534, [4270]); (11535, [4271]); (11536, [4272]); (11537, [4273]); (11538, [4274]); (11539, [4275]);
   (11540, [4276]); (11541, [4277]); (11542, [4278]); (11543, [4279]); (11544, [4280]); (11545, [4281]); (11546, [4282]); (11547, [4283]);
   (11548, [4284]); (11549, [4285]); (11550, [4286]); (11551, [4287]); (11552, [4288]); (11553, [4289]); (11554, [4290]); (11555, [4291]);
   (11556, [4292]); (11557, [4293]); (11559, [4295]); (11565, [4301]); (42561, [42560]); (42563, [42562]); (42565, [42564]); (42567, [42566]);
   (42569, [42568]); (42571, [42570]); (42573, [42572]); (42575, [42574]); (42577, [42576]); (42579, [42578]); (42581, [42580]); (42583, [42582]);
   (42585, [42584]); (42587, [42586]); (42589, [42588]); (42591, [42590]); (42593, [42592]); (42595, [42594]); (42597, [42596]); (42599, [42598]);
   (42601, [42600]); (42603, [42602]); (42605, [42604]); (42625, [42624]); (42627, [42626]); (42629, [42628]); (42631, [42630]); (42633, [42632]);
   (42635, [42634]); (42637, [42636]); (42639, [42638]); (42641, [42640]); (42643, [42642]); (42645, [42644]); (42647, [42646]); (42649, [42648]);
   (42651, [42650]); (42787, [42786]); (42789, [42788]); (42791, [42790]); (42793, [42792]); (42795, [42794]); (42797, [42796]); (42799, [42798]);
   (42803, [42802]); (42805, [42804]); (42807, [42806]); (42809, [42808]); (42811, [42810]); (42813, [42812]); (42815, [42814]); (42817, [42816]);
   (42819, [42818]); (42821, [42820]); (42823, [42822]); (42825, [42824]); (42827, [42826]); (42829, [42828]); (42831, [42830]); (42833, [42832]);
   (42835, [42834]); (42837, [42836]); (42839, [42838]); (42841, [42840]); (42843, [42842]); (42845, [42844]); (42847, [42846]); (42849, [42848]);
   (42851, [42850]); (42853, [42852]); (42855, [42854]); (42857, [42856]); (42859, [42858]); (42861, [42860]); (42863, [42862]); (42874, [42873]);
   (42876, [42875]); (42879, [42878]); (42881, [42880]); (42883, [42882]); (42885, [42884]); (42887, [42886]); (42892, [42891]); (42897, [42896]);
   (42899, [42898]); (42900, [42948]); (42903, [42902]); (42905, [42904]); (42907, [42906]); (42909, [42908]); (42911, [42910]); (42913, [42912]);
   (42915, [42914]); (42917, [42916]); (42919, [42918]); (42921, [42920]); (42933, [42932]); (42935, [42934]); (42937, [42936]); (42939, [42938]);
   (42941, [42940]); (42943, [42942]); (42945, [42944]); (42947, [42946]); (42952, [42951]); (42954, [42953]); (42961, [42960]); (42967, [42966]);
   (42969, [42968]); (42998, [42997]); (43859, [42931]); (43888, [5024]); (43889, [5025]); (43890, [5026]); (43891, [5027]); (43892, [5028]);
   (43893, [5029]); (43894, [5030]); (43895, [5031]); (43896, [5032]); (43897, [5033]); (43898, [5034]); (43899, [5035]); (43900, [5036]);
   (43901, [5037]); (43902, [5038]); (43903, [5039]); (43904, [5040]); (43905, [5041]); (43906, [5042]); (43907, [5043]); (43908, [5044]);
   (43909, [5045]); (43910, [5046]); (43911, [5047]); (43912, [5048]); (43913, [5049]); (43914, [5050]); (43915, [5051]); (43916, [5052]);
   (43917, [5053]); (43918, [5054]); (43919, [5055]); (43920, [5056]); (43921, [5057]); (43922, [5058]); (43923, [5059]); (43924, [5060]);
   (43925, [5061]); (43926, [5062]); (43927, [5063]); (43928, [5064]); (43929, [5065]); (43930, [5066]); (43931, [5067]); (43932, [5068]);
   (43933, [5069]); (43934, [5070]); (43935, [5071]); (43936, [5072]); (43937, [5073]); (43938, [5074]); (43939, [5075]); (43940, [5076]);
   (43941, [5077]); (43942, [5078]); (43943, [5079]); (43944, [5080]); (43945, [5081]); (43946, [5082]); (43947, [5083]); (43948, [5084]);
   (43949, [5085]); (43950, [5086]); (43951, [5087]); (43952, [5088]); (43953, [5089]); (43954, [5090]); (43955, [5091]); (43956, [5092]);
   (43957, [5093]); (43958, [5094]); (43959, [5095]); (43960, [5096]); (43961, [5097]); (43962, [5098]); (43963, [5099]); (43964, [5100]);
   (43965, [5101]); (43966, [5102]); (43967, [5103]); (64256, [70; 70]); (64257, [70; 73]); (64258, [70; 76]); (64259, [70; 70; 73]); (64260, [70; 70; 76]);
   (64261, [83; 84]); (64262, [83; 84]); (64275, [1348; 1350]); (64276, [1348; 1333]); (64277, [1348; 1339]); (64278, [1358; 1350]); (64279, [1348; 1341]); (65345, [65313]);
   (65346, [65314]); (65347, [65315]); (65348, [65316]); (65349, [65317]); (65350, [65318]); (65351, [65319]); (65352, [65320]); (65353, [65321]);
   (65354, [65322]); (65355, [65323]); (65356, [65324]); (65357, [65325]); (65358, [65326]); (65359, [65327]); (65360, [65328]); (65361, [65329]);
   (65362, [65330]); (65363, [65331]); (65364, [65332]); (65365, [65333]); (65366, [65334]); (65367, [65335]); (65368, [65336]); (65369, [65337]);
   (65370, [65338]); (66600, [66560]); (66601, [66561]); (66602, [66562]); (66603, [66563]); (66604, [66564]); (66605, [66565]); (66606, [66566]);
   (66607, [66567]); (66608, [66568]); (66609, [66569]); (66610, [66570]); (66611, [66571]); (66612, [66572]); (66613, [66573]); (66614, [66574]);
   (66615, [66575]); (66616, [66576]); (66617, [66577]); (66618, [66578]); (66619, [66579]); (66620, [66580]); (66621, [66581]); (66622, [66582]);
   (66623, [66583]); (66624, [66584]); (66625, [66585]); (66626, [66586]); (66627, [66587]); (66628, [66588]); (66629, [66589]); (66630, [66590]);
   (66631, [66591]); (66632, [66592]); (66633, [66593]); (66634, [66594]); (66635, [66595]); (66636, [66596]); (66637, [66597]); (66638, [66598]);
   (66639, [66599]); (66776, [66736]); (66777, [66737]); (66778, [66738]); (66779, [66739]); (66780, [66740]); (66781, [66741]); (66782, [66742]);
   (66783, [66743]); (66784, [66744]); (66785, [66745]); (66786, [66746]); (66787, [66747]); (66788, [66748]); (66789, [66749]); (66790, [66750]);
   (66791, [66751]); (66792, [66752]); (66793, [66753]); (66794, [66754]); (66795, [66755]); (66796, [66756]); (66797, [66757]); (66798, [66758]);
   (66799, [66759]); (66800, [66760]); (66801, [66761]); (66802, [66762]); (66803, [66763]); (66804, [66764]); (66805, [66765]); (66806, [66766]);
   (66807, [66767]); (66808, [66768]); (66809, [66769]); (66810, [66770]); (66811, [66771]); (66967, [66928]); (66968, [66929]); (66969, [66930]);
   (66970, [66931]); (66971, [66932]); (66972, [66933]); (66973, [66934]); (66974, [66935]); (66975, [66936]); (66976, [66937]); (66977, [66938]);
   (66979, [66940]); (66980, [66941]); (66981, [66942]); (66982, [66943]); (66983, [66944]); (66984, [66945]); (66985, [66946]); (66986, [66947]);
   (66987, [66948]); (66988, [66949]); (66989, [66950]); (66990, [66951]); (66991, [66952]); (66992, [66953]); (66993, [66954]); (66995, [66956]);
   (66996, [66957]); (66997, [66958]); (66998, [66959]); (66999, [66960]); (67000, [66961]); (67001, [66962]); (67003, [66964]); (67004, [66965]);
   (68800, [68736]); (68801, [68737]); (68802, [68738]); (68803, [68739]); (68804, [68740]); (68805, [68741]); (68806, [68742]); (68807, [68743]);
   (68808, [68744]); (68809, [68745]); (68810, [68746]); (68811, [68747]); (68812, [68748]); (68813, [68749]); (68814, [68750]); (68815, [68751]);
   (68816, [68752]); (68817, [68753]); (68818, [68754]); (68819, [68755]); (68820, [68756]); (68821, [68757]); (68822, [68758]); (68823, [68759]);
   (68824, [68760]); (68825, [68761]); (68826, [68762]); (68827, [68763]); (68828, [68764]); (68829, [68765]); (68830, [68766]); (68831, [68767]);
   (68832, [68768]); (68833, [68769]); (68834, [68770]); (68835, [68771]); (68836, [68772]); (68837, [68773]); (68838, [68774]); (68839, [68775]);
   (68840, [68776]); (68841, [68777]); (68842, [68778]); (68843, [68779]); (68844, [68780]); (68845, [68781]); (68846, [68782]); (68847, [68783]);
   (68848, [68784]); (68849, [68785]); (68850, [68786]); (71872, [71840]); (71873, [71841]); (71874, [71842]); (71875, [71843]); (71876, [71844]);
   (71877, [71845]); (71878, [71846]); (71879, [71847]); (71880, [71848]); (71881, [71849]); (71882, [71850]); (71883, [71851]); (71884, [71852]);
   (71885, [71853]); (71886, [71854]); (71887, [71855]); (71888, [71856]); (71889, [71857]); (71890, [71858]); (71891, [71859]); (71892, [71860]);
   (71893, [71861]); (71894, [71862]); (71895, [71863]); (71896, [71864]); (71897, [71865]); (71898, [71866]); (71899, [71867]); (71900, [71868]);
   (71901, [71869]); (71902, [71870]); (71903, [71871]); (93792, [93760]); (93793, [93761]); (93794, [93762]); (93795, [93763]); (93796, [93764]);
   (93797, [93765]); (93798, [93766]); (93799, [93767]); (93800, [93768]); (93801, [93769]); (93802, [93770]); (93803, [93771]); (93804, [93772]);
   (93805, [93773]); (93806, [93774]); (93807, [93775]); (93808, [93776]); (93809, [93777]); (93810, [93778]); (93811, [93779]); (93812, [93780]);
   (93813, [93781]); (93814, [93782]); (93815, [93783]); (93816, [93784]); (93817, [93785]); (93818, [93786]); (93819, [93787]); (93820, [93788]);
   (93821, [93789]); (93822, [93790]); (93823, [93791]); (125218, [125184]); (125219, [125185]); (125220, [125186]); (125221, [125187]); (125222, [125188]);
   (125223, [125189]); (125224, [125190]); (125225, [125191]); (125226, [125192]); (125227, [125193]); (125228, [125194]); (125229, [125195]); (125230, [125196]);
   (125231, [125197]); (125232, [125198]); (125233, [125199]); (125234, [125200]); (125235, [125201]); (125236, [125202]); (125237, [125203]); (125238, [125204]);
   (125239, [125205]); (125240, [125206]); (125241, [125207]); (125242, [125208]); (125243, [125209]); (125244, [125210]); (125245, [125211]); (125246, [125212]);
   (125247, [125213]); (125248, [125214]); (125249, [125215]); (125250, [125216]); (125251, [125217])].

(** [_sre.unicode_tolower(c)] for every code point it changes. *)
Definition sre_lower_table : list (N * N) :=
  [
   (65, 97); (66, 98); (67, 99); (68, 100); (69, 101); (70, 102); (71, 103); (72, 104); (73, 105); (74, 106);
   (75, 107); (76, 108); (77, 109); (78, 110); (79, 111); (80, 112); (81, 113); (82, 114); (83, 115); (84, 116);
   (85, 117); (86, 118); (87, 119); (88, 120); (89, 121); (90, 122); (192, 224); (193, 225); (194, 226); (195, 227);
   (196, 228); (197, 229); (198, 230); (199, 231); (200, 232); (201, 233); (202, 234); (203, 235); (204, 236); (205, 237);
   (206, 238); (207, 239); (208, 240); (209, 241); (210, 242); (211, 243); (212, 244); (213, 245); (214, 246); (216, 248);
   (217, 249); (218, 250); (219, 251); (220, 252); (221, 253); (222, 254); (256, 257); (258, 259); (260, 261); (262, 263);
   (264, 265); (266, 267); (268, 269); (270, 271); (272, 273); (274, 275); (276, 277); (278, 279); (280, 281); (282, 283);
   (284, 285); (286, 287); (288, 289); (290, 291); (292, 293); (294, 295); (296, 297); (298, 299); (300, 301); (302, 303);
   (304, 105); (306, 307); (308, 309); (310, 311); (313, 314); (315, 316); (317, 318); (319, 320); (321, 322); (323, 324);
   (325, 326); (327, 328); (330, 331); (332, 333); (334, 335); (336, 337); (338, 339); (340, 341); (342, 343); (344, 345);
   (346, 347); (348, 349); (350, 351); (352, 353); (354, 355); (356, 357); (358, 359); (360, 361); (362, 363); (364, 365);
   (366, 367); (368, 369); (370, 371); (372, 373); (374, 375); (376, 255); (377, 378); (379, 380); (381, 382); (385, 595);
   (386, 387); (388, 389); (390, 596); (391, 392); (393, 598); (394, 599); (395, 396); (398, 477); (399, 601); (400, 603);
   (401, 402); (403, 608); (404, 611); (406, 617); (407, 616); (408, 409); (412, 623); (413, 626); (415, 629); (416, 417);
   (418, 419); (420, 421); (422, 640); (423, 424); (425, 643); (428, 429); (430, 648); (431, 432); (433, 650); (434, 651);
   (435, 436); (437, 438); (439, 658); (440, 441); (444, 445); (452, 454); (453, 454); (455, 457); (456, 457); (458, 460);
   (459, 460); (461, 462); (463, 464); (465, 466); (467, 468); (469, 470); (471, 472); (473, 474); (475, 476); (478, 479);
   (480, 481); (482, 483); (484, 485); (486, 487); (488, 489); (490, 491); (492, 493); (494, 495); (497, 499); (498, 499);
   (500, 501); (502, 405); (503, 447); (504, 505); (506, 507); (508, 509); (510, 511); (512, 513); (514, 515); (516, 517);
   (518, 519); (520, 521); (522, 523); (524, 525); (526, 527); (528, 529); (530, 531); (532, 533); (534, 535); (536, 537);
   (538, 539); (540, 541); (542, 543); (544, 414); (546, 547); (548, 549); (550, 551); (552, 553); (554, 555); (556, 557);
   (558, 559); (560, 561); (562, 563); (570, 11365); (571, 572); (573, 410); (574, 11366); (577, 578); (579, 384); (580, 649);
   (581, 652); (582, 583); (584, 585); (586, 587); (588, 589); (590, 591); (880, 881); (882, 883); (886, 887); (895, 1011);
   (902, 940); (904, 941); (905, 942); (906, 943); (908, 972); (910, 973); (911, 974); (913, 945); (914, 946); (915, 947);
   (916, 948); (917, 949); (918, 950); (919, 951); (920, 952); (921, 953); (922, 954); (923, 955); (924, 956); (925, 957);
   (926, 958); (927, 959); (928, 960); (929, 961); (931, 963); (932, 964); (933, 965); (934, 966); (935, 967); (936, 968);
   (937, 969); (938, 970); (939, 971); (975, 983); (984, 985); (986, 987); (988, 989); (990, 991); (992, 993); (994, 995);
   (996, 997); (998, 999); (1000, 1001); (1002, 1003); (1004, 1005); (1006, 1007); (1012, 952); (1015, 1016); (1017, 1010); (1018, 1019);
   (1021, 891); (1022, 892); (1023, 893); (1024, 1104); (1025, 1105); (1026, 1106); (1027, 1107); (1028, 1108); (1029, 1109); (1030, 1110);
   (1031, 1111); (1032, 1112); (1033, 1113); (1034, 1114); (1035, 1115); (1036, 1116); (1037, 1117); (1038, 1118); (1039, 1119); (1040, 1072);
   (1041, 1073); (1042, 1074); (1043, 1075); (1044, 1076); (1045, 1077); (1046, 1078); (1047, 1079); (1048, 1080); (1049, 1081); (1050, 1082);
   (1051, 1083); (1052, 1084); (1053, 1085); (1054, 1086); (1055, 1087); (1056, 1088); (1057, 1089); (1058, 1090); (1059, 1091); (1060, 1092);
   (1061, 1093); (1062, 1094); (1063, 1095); (1064, 1096); (1065, 1097); (1066, 1098); (1067, 1099); (1068, 1100); (1069, 1101); (1070, 1102);
   (1071, 1103); (1120, 1121); (1122, 1123); (1124, 1125); (1126, 1127); (1128, 1129); (1130, 1131); (1132, 1133); (1134, 1135); (1136, 1137);
   (1138, 1139); (1140, 1141); (1142, 1143); (1144, 1145); (1146, 1147); (1148, 1149); (1150, 1151); (1152, 1153); (1162, 1163); (1164, 1165);
   (1166, 1167); (1168, 1169); (1170, 1171); (1172, 1173); (1174, 1175); (1176, 1177); (1178, 1179); (1180, 1181); (1182, 1183); (1184, 1185);
   (1186, 1187); (1188, 1189); (1190, 1191); (1192, 1193); (1194, 1195); (1196, 1197); (1198, 1199); (1200, 1201); (1202, 1203); (1204, 1205);
   (1206, 1207); (1208, 1209); (1210, 1211); (1212, 1213); (1214, 1215); (1216, 1231); (1217, 1218); (1219, 1220); (1221, 1222); (1223, 1224);
   (1225, 1226); (1227, 1228); (1229, 1230); (1232, 1233); (1234, 1235); (1236, 1237); (1238, 1239); (1240, 1241); (1242, 1243); (1244, 1245);
   (1246, 1247); (1248, 1249); (1250, 1251); (1252, 1253); (1254, 1255); (1256, 1257); (1258, 1259); (1260, 1261); (1262, 1263); (1264, 1265);
   (1266, 1267); (1268, 1269); (1270, 1271); (1272, 1273); (1274, 1275); (1276, 1277); (1278, 1279); (1280, 1281); (1282, 1283); (1284, 1285);
   (1286, 1287); (1288, 1289); (1290, 1291); (1292, 1293); (1294, 1295); (1296, 1297); (1298, 1299); (1300, 1301); (1302, 1303); (1304, 1305);
   (1306, 1307); (1308, 1309); (1310, 1311); (1312, 1313); (1314, 1315); (1316, 1317); (1318, 1319); (1320, 1321); (1322, 1323); (1324, 1325);
   (1326, 1327); (1329, 1377); (1330, 1378); (1331, 1379); (1332, 1380); (1333, 1381); (1334, 1382); (1335, 1383); (1336, 1384); (1337, 1385);
   (1338, 1386); (1339, 1387); (1340, 1388); (1341, 1389); (1342, 1390); (1343, 1391); (1344, 1392); (1345, 1393); (1346, 1394); (1347, 1395);
   (1348, 1396); (1349, 1397); (1350, 1398); (1351, 1399); (1352, 1400); (1353, 1401); (1354, 1402); (1355, 1403); (1356, 1404); (1357, 1405);
   (1358, 1406); (1359, 1407); (1360, 1408); (1361, 1409); (1362, 1410); (1363, 1411); (1364, 1412); (1365, 1413); (1366, 1414); (4256, 11520);
   (4257, 11521); (4258, 11522); (4259, 11523); (4260, 11524); (4261, 11525); (4262, 11526); (4263, 11527); (4264, 11528); (4265, 11529); (4266, 11530);
   (4267, 11531); (4268, 11532); (4269, 11533); (4270, 11534); (4271, 11535); (4272, 11536); (4273, 11537); (4274, 11538); (4275, 11539); (4276, 11540);
   (4277, 11541); (4278, 11542); (4279, 11543); (4280, 11544); (4281, 11545); (4282, 11546); (4283, 11547); (4284, 11548); (4285, 11549); (4286, 11550);
   (4287, 11551); (4288, 11552); (4289, 11553); (4290, 11554); (4291, 11555); (4292, 11556); (4293, 11557); (4295, 11559); (4301, 11565); (5024, 43888);
   (5025, 43889); (5026, 43890); (5027, 43891); (5028, 43892); (5029, 43893); (5030, 43894); (5031, 43895); (5032, 43896); (5033, 43897); (5034, 43898);
   (5035, 43899); (5036, 43900); (5037, 43901); (5038, 43902); (5039, 43903); (5040, 43904); (5041, 43905); (5042, 43906); (5043, 43907); (5044, 43908);
   (5045, 43909); (5046, 43910); (5047, 43911); (5048, 43912); (5049, 43913); (5050, 43914); (5051, 43915); (5052, 43916); (5053, 43917); (5054, 43918);
   (5055, 43919); (5056, 43920); (5057, 43921); (5058, 43922); (5059, 43923); (5060, 43924); (5061, 43925); (5062, 43926); (5063, 43927); (5064, 43928);
   (5065, 43929); (5066, 43930); (5067, 43931); (5068, 43932); (5069, 43933); (5070, 43934); (5071, 43935); (5072, 43936); (5073, 43937); (5074, 43938);
   (5075, 43939); (5076, 43940); (5077, 43941); (5078, 43942); (5079, 43943); (5080, 43944); (5081, 43945); (5082, 43946); (5083, 43947); (5084, 43948);
   (5085, 43949); (5086, 43950); (5087, 43951); (5088, 43952); (5089, 43953); (5090, 43954); (5091, 43955); (5092, 43956); (5093, 43957); (5094, 43958);
   (5095, 43959); (5096, 43960); (5097, 43961); (5098, 43962); (5099, 43963); (5100, 43964); (5101, 43965); (5102, 43966); (5103, 43967); (5104, 5112);
   (5105, 5113); (5106, 5114); (5107, 5115); (5108, 5116); (5109, 5117); (7312, 4304); (7313, 4305); (7314, 4306); (7315, 4307); (7316, 4308);
   (7317, 4309); (7318, 4310); (7319, 4311); (7320, 4312); (7321, 4313); (7322, 4314); (7323, 4315); (7324, 4316); (7325, 4317); (7326, 4318);
   (7327, 4319); (7328, 4320); (7329, 4321); (7330, 4322); (7331, 4323); (7332, 4324); (7333, 4325); (7334, 4326); (7335, 4327); (7336, 4328);
   (7337, 4329); (7338, 4330); (7339, 4331); (7340, 4332); (7341, 4333); (7342, 4334); (7343, 4335); (7344, 4336); (7345, 4337); (7346, 4338);
   (7347, 4339); (7348, 4340); (7349, 4341); (7350, 4342); (7351, 4343); (7352, 4344); (7353, 4345); (7354, 4346); (7357, 4349); (7358, 4350);
   (7359, 4351); (7680, 7681); (7682, 7683); (7684, 7685); (7686, 7687); (7688, 7689); (7690, 7691); (7692, 7693); (7694, 7695); (7696, 7697);
   (7698, 7699); (7700, 7701); (7702, 7703); (7704, 7705); (7706, 7707); (7708, 7709); (7710, 7711); (7712, 7713); (7714, 7715); (7716, 7717);
   (7718, 7719); (7720, 7721); (7722, 7723); (7724, 7725); (7726, 7727); (7728, 7729); (7730, 7731); (7732, 7733); (7734, 7735); (7736, 7737);
   (7738, 7739); (7740, 7741); (7742, 7743); (7744, 7745); (7746, 7747); (7748, 7749); (7750, 7751); (7752, 7753); (7754, 7755); (7756, 7757);
   (7758, 7759); (7760, 7761); (7762, 7763); (7764, 7765); (7766, 7767); (7768, 7769); (7770, 7771); (7772, 7773); (7774, 7775); (7776, 7777);
   (7778, 7779); (7780, 7781); (7782, 7783); (7784, 7785); (7786, 7787); (7788, 7789); (7790, 7791); (7792, 7793); (7794, 7795); (7796, 7797);
   (7798, 7799); (7800, 7801); (7802, 7803); (7804, 7805); (7806, 7807); (7808, 7809); (7810, 7811); (7812, 7813); (7814, 7815); (7816, 7817);
   (7818, 7819); (7820, 7821); (7822, 7823); (7824, 7825); (7826, 7827); (7828, 7829); (7838, 223); (7840, 7841); (7842, 7843); (7844, 7845);
   (7846, 7847); (7848, 7849); (7850, 7851); (7852, 7853); (7854, 7855); (7856, 7857); (7858, 7859); (7860, 7861); (7862, 7863); (7864, 7865);
   (7866, 7867); (7868, 7869); (7870, 7871); (7872, 7873); (7874, 7875); (7876, 7877); (7878, 7879); (7880, 7881); (7882, 7883); (7884, 7885);
   (7886, 7887); (7888, 7889); (7890, 7891); (7892, 7893); (7894, 7895); (7896, 7897); (7898, 7899); (7900, 7901); (7902, 7903); (7904, 7905);
   (7906, 7907); (7908, 7909); (7910, 7911); (7912, 7913); (7914, 7915); (7916, 7917); (7918, 7919); (7920, 7921); (7922, 7923); (7924, 7925);
   (7926, 7927); (7928, 7929); (7930, 7931); (7932, 7933); (7934, 7935); (7944, 7936); (7945, 7937); (7946, 7938); (7947, 7939); (7948, 7940);
   (7949, 7941); (7950, 7942); (7951, 7943); (7960, 7952); (7961, 7953); (7962, 7954); (7963, 7955); (7964, 7956); (7965, 7957); (7976, 7968);
   (7977, 7969); (7978, 7970); (7979, 7971); (7980, 7972); (7981, 7973); (7982, 7974); (7983, 7975); (7992, 7984); (7993, 7985); (7994, 7986);
   (7995, 7987); (7996, 7988); (7997, 7989); (7998, 7990); (7999, 7991); (8008, 8000); (8009, 8001); (8010, 8002); (8011, 8003); (8012, 8004);
   (8013, 8005); (8025, 8017); (8027, 8019); (8029, 8021); (8031, 8023); (8040, 8032); (8041, 8033); (8042, 8034); (8043, 8035); (8044, 8036);
   (8045, 8037); (8046, 8038); (8047, 8039); (8072, 8064); (8073, 8065); (8074, 8066); (8075, 8067); (8076, 8068); (8077, 8069); (8078, 8070);
   (8079, 8071); (8088, 8080); (8089, 8081); (8090, 8082); (8091, 8083); (8092, 8084); (8093, 8085); (8094, 8086); (8095, 8087); (8104, 8096);
   (8105, 8097); (8106, 8098); (8107, 8099); (8108, 8100); (8109, 8101); (8110, 8102); (8111, 8103); (8120, 8112); (8121, 8113); (8122, 8048);
   (8123, 8049); (8124, 8115); (8136, 8050); (8137, 8051); (8138, 8052); (8139, 8053); (8140, 8131); (8152, 8144); (8153, 8145); (8154, 8054);
   (8155, 8055); (8168, 8160); (8169, 8161); (8170, 8058); (8171, 8059); (8172, 8165); (8184, 8056); (8185, 8057); (8186, 8060); (8187, 8061);
   (8188, 8179); (8486, 969); (8490, 107); (8491, 229); (8498, 8526); (8544, 8560); (8545, 8561); (8546, 8562); (8547, 8563); (8548, 8564);
   (8549, 8565); (8550, 8566); (8551, 8567); (8552, 8568); (8553, 8569); (8554, 8570); (8555, 8571); (8556, 8572); (8557, 8573); (8558, 8574);
   (8559, 8575); (8579, 8580); (9398, 9424); (9399, 9425); (9400, 9426); (9401, 9427); (9402, 9428); (9403, 9429); (9404, 9430); (9405, 9431);
   (9406, 9432); (9407, 9433); (9408, 9434); (9409, 9435); (9410, 9436); (9411, 9437); (9412, 9438); (9413, 9439); (9414, 9440); (9415, 9441);
   (9416, 9442); (9417, 9443); (9418, 9444); (9419, 9445); (9420, 9446); (9421, 9447); (9422, 9448); (9423, 9449); (11264, 11312); (11265, 11313);
   (11266, 11314); (11267, 11315); (11268, 11316); (11269, 11317); (11270, 11318); (11271, 11319); (11272, 11320); (11273, 11321); (11274, 11322); (11275, 11323);
   (11276, 11324); (11277, 11325); (11278, 11326); (11279, 11327); (11280, 11328); (11281, 11329); (11282, 11330); (11283, 11331); (11284, 11332); (11285, 11333);
   (11286, 11334); (11287, 11335); (11288, 11336); (11289, 11337); (11290, 11338); (11291, 11339); (11292, 11340); (11293, 11341); (11294, 11342); (11295, 11343);
   (11296, 11344); (11297, 11345); (11298, 11346); (11299, 11347); (11300, 11348); (11301, 11349); (11302, 11350); (11303, 11351); (11304, 11352); (11305, 11353);
   (11306, 11354); (11307, 11355); (11308, 11356); (11309, 11357); (11310, 11358); (11311, 11359); (11360, 11361); (11362, 619); (11363, 7549); (11364, 637);
   (11367, 11368); (11369, 11370); (11371, 11372); (11373, 593); (11374, 625); (11375, 592); (11376, 594); (11378, 11379); (11381, 11382); (11390, 575);
   (11391, 576); (11392, 11393); (11394, 11395); (11396, 11397); (11398, 11399); (11400, 11401); (11402, 11403); (11404, 11405); (11406, 11407); (11408, 11409);
   (11410, 11411); (11412, 11413); (11414, 11415); (11416, 11417); (11418, 11419); (11420, 11421); (11422, 11423); (11424, 11425); (11426, 11427); (11428, 11429);
   (11430, 11431); (11432, 11433); (11434, 11435); (11436, 11437); (11438, 11439); (11440, 11441); (11442, 11443); (11444, 11445); (11446, 11447); (11448, 11449);
   (11450, 11451); (11452, 11453); (11454, 11455); (11456, 11457); (11458, 11459); (11460, 11461); (11462, 11463); (11464, 11465); (11466, 11467); (11468, 11469);
   (11470, 11471); (11472, 11473); (11474, 11475); (11476, 11477); (11478, 11479); (11480, 11481); (11482, 11483); (11484, 11485); (11486, 11487); (11488, 11489);
   (11490, 11491); (11499, 11500); (11501, 11502); (11506, 11507); (42560, 42561); (42562, 42563); (42564, 42565); (42566, 42567); (42568, 42569); (42570, 42571);
   (42572, 42573); (42574, 42575); (42576, 42577); (42578, 42579); (42580, 42581); (42582, 42583); (42584, 42585); (42586, 42587); (42588, 42589); (42590, 42591);
   (42592, 42593); (42594, 42595); (42596, 42597); (42598, 42599); (42600, 42601); (42602, 42603); (42604, 42605); (42624, 42625); (42626, 42627); (42628, 42629);
   (42630, 42631); (42632, 42633); (42634, 42635); (42636, 42637); (42638, 42639); (42640, 42641); (42642, 42643); (42644, 42645); (42646, 42647); (42648, 42649);
   (42650, 42651); (42786, 42787); (42788, 42789); (42790, 42791); (42792, 42793); (42794, 42795); (42796, 42797); (42798, 42799); (42802, 42803); (42804, 42805);
   (42806, 42807); (42808, 42809); (42810, 42811); (42812, 42813); (42814, 42815); (42816, 42817); (42818, 42819); (42820, 42821); (42822, 42823); (42824, 42825);
   (42826, 42827); (42828, 42829); (42830, 42831); (42832, 42833); (42834, 42835); (42836, 42837); (42838, 42839); (42840, 42841); (42842, 42843); (42844, 42845);
   (42846, 42847); (42848, 42849); (42850, 42851); (42852, 42853); (42854, 42855); (42856, 42857); (42858, 42859); (42860, 42861); (42862, 42863); (42873, 42874);
   (42875, 42876); (42877, 7545); (42878, 42879); (42880, 42881); (42882, 42883); (42884, 42885); (42886, 42887); (42891, 42892); (42893, 613); (42896, 42897);
   (42898, 42899); (42902, 42903); (42904, 42905); (42906, 42907); (42908, 42909); (42910, 42911); (42912, 42913); (42914, 42915); (42916, 42917); (42918, 42919);
   (42920, 42921); (42922, 614); (42923, 604); (42924, 609); (42925, 620); (42926, 618); (42928, 670); (42929, 647); (42930, 669); (42931, 43859);
   (42932, 42933); (42934, 42935); (42936, 42937); (42938, 42939); (42940, 42941); (42942, 42943); (42944, 42945); (42946, 42947); (42948, 42900); (42949, 642);
   (42950, 7566); (42951, 42952); (42953, 42954); (42960, 42961); (42966, 42967); (42968, 42969); (42997, 42998); (65313, 65345); (65314, 65346); (65315, 65347);
   (65316, 65348); (65317, 65349); (65318, 65350); (65319, 65351); (65320, 65352); (65321, 65353); (65322, 65354); (65323, 65355); (65324, 65356); (65325, 65357);
   (65326, 65358); (65327, 65359); (65328, 65360); (65329, 65361); (65330, 65362); (65331, 65363); (65332, 65364); (65333, 65365); (65334, 65366); (65335, 65367);
   (65336, 65368); (65337, 65369); (65338, 65370); (66560, 66600); (66561, 66601); (66562, 66602); (66563, 66603); (66564, 66604); (66565, 66605); (66566, 66606);
   (66567, 66607); (66568, 66608); (66569, 66609); (66570, 66610); (66571, 66611); (66572, 66612); (66573, 66613); (66574, 66614); (66575, 66615); (66576, 66616);
   (66577, 66617); (66578, 66618); (66579, 66619); (66580, 66620); (66581, 66621); (66582, 66622); (66583, 66623); (66584, 66624); (66585, 66625); (66586, 66626);
   (66587, 66627); (66588, 66628); (66589, 66629); (66590, 66630); (66591, 66631); (66592, 66632); (66593, 66633); (66594, 66634); (66595, 66635); (66596, 66636);
   (66597, 66637); (66598, 66638); (66599, 66639); (66736, 66776); (66737, 66777); (66738, 66778); (66739, 66779); (66740, 66780); (66741, 66781); (66742, 66782);
   (66743, 66783); (66744, 66784); (66745, 66785); (66746, 66786); (66747, 66787); (66748, 66788); (66749, 66789); (66750, 66790); (66751, 66791); (66752, 66792);
   (66753, 66793); (66754, 66794); (66755, 66795); (66756, 66796); (66757, 66797); (66758, 66798); (66759, 66799); (66760, 66800); (66761, 66801); (66762, 66802);
   (66763, 66803); (66764, 66804); (66765, 66805); (66766, 66806); (66767, 66807); (66768, 66808); (66769, 66809); (66770, 66810); (66771, 66811); (66928, 66967);
   (66929, 66968); (66930, 66969); (66931, 66970); (66932, 66971); (66933, 66972); (66934, 66973); (66935, 66974); (66936, 66975); (66937, 66976); (66938, 66977);
   (66940, 66979); (66941, 66980); (66942, 66981); (66943, 66982); (66944, 66983); (66945, 66984); (66946, 66985); (66947, 66986); (66948, 66987); (66949, 66988);
   (66950, 66989); (66951, 66990); (66952, 66991); (66953, 66992); (66954, 66993); (66956, 66995); (66957, 66996); (66958, 66997); (66959, 66998); (66960, 66999);
   (66961, 67000); (66962, 67001); (66964, 67003); (66965, 67004); (68736, 68800); (68737, 68801); (68738, 68802); (68739, 68803); (68740, 68804); (68741, 68805);
   (68742, 68806); (68743, 68807); (68744, 68808); (68745, 68809); (68746, 68810); (68747, 68811); (68748, 68812); (68749, 68813); (68750, 68814); (68751, 68815);
   (68752, 68816); (68753, 68817); (68754, 68818); (68755, 68819); (68756, 68820); (68757, 68821); (68758, 68822); (68759, 68823); (68760, 68824); (68761, 68825);
   (68762, 68826); (68763, 68827); (68764, 68828); (68765, 68829); (68766, 68830); (68767, 68831); (68768, 68832); (68769, 68833); (68770, 68834); (68771, 68835);
   (68772, 68836); (68773, 68837); (68774, 68838); (68775, 68839); (68776, 68840); (68777, 68841); (68778, 68842); (68779, 68843); (68780, 68844); (68781, 68845);
   (68782, 68846); (68783, 68847); (68784, 68848); (68785, 68849); (68786, 68850); (71840, 71872); (71841, 71873); (71842, 71874); (71843, 71875); (71844, 71876);
   (71845, 71877); (71846, 71878); (71847, 71879); (71848, 71880); (71849, 71881); (71850, 71882); (71851, 71883); (71852, 71884); (71853, 71885); (71854, 71886);
   (71855, 71887); (71856, 71888); (71857, 71889); (71858, 71890); (71859, 71891); (71860, 71892); (71861, 71893); (71862, 71894); (71863, 71895); (71864, 71896);
   (71865, 71897); (71866, 71898); (71867, 71899); (71868, 71900); (71869, 71901); (71870, 71902); (71871, 71903); (93760, 93792); (93761, 93793); (93762, 93794);
   (93763, 93795); (93764, 93796); (93765, 93797); (93766, 93798); (93767, 93799); (93768, 93800); (93769, 93801); (93770, 93802); (93771, 93803); (93772, 93804);
   (93773, 93805); (93774, 93806); (93775, 93807); (93776, 93808); (93777, 93809); (93778, 93810); (93779, 93811); (93780, 93812); (93781, 93813); (93782, 93814);
   (93783, 93815); (93784, 93816); (93785, 93817); (93786, 93818); (93787, 93819); (93788, 93820); (93789, 93821); (93790, 93822); (93791, 93823); (125184, 125218);
   (125185, 125219); (125186, 125220); (125187, 125221); (125188, 125222); (125189, 125223); (125190, 125224); (125191, 125225); (125192, 125226); (125193, 125227); (125194, 125228);
   (125195, 125229); (125196, 125230); (125197, 125231); (125198, 125232); (125199, 125233); (125200, 125234); (125201, 125235); (125202, 125236); (125203, 125237); (125204, 125238);
   (125205, 125239); (125206, 125240); (125207, 125241); (125208, 125242); (125209, 125243); (125210, 125244); (125211, 125245); (125212, 125246); (125213, 125247); (125214, 125248);
   (125215, 125249); (125216, 125250); (125217, 125251)].

(** The code points that [_sre.unicode_iscased] reports cased although
    [_sre.unicode_tolower] leaves them unchanged (they have an upper case). *)
Definition sre_cased_lower : list N :=
  [
   97; 98; 99; 100; 101; 102; 103; 104; 105; 106; 107; 108; 109; 110; 111; 112;
   113; 114; 115; 116; 117; 118; 119; 120; 121; 122; 181; 223; 224; 225; 226; 227;
   228; 229; 230; 231; 232; 233; 234; 235; 236; 237; 238; 239; 240; 241; 242; 243;
   244; 245; 246; 248; 249; 250; 251; 252; 253; 254; 255; 257; 259; 261; 263; 265;
   267; 269; 271; 273; 275; 277; 279; 281; 283; 285; 287; 289; 291; 293; 295; 297;
   299; 301; 303; 305; 307; 309; 311; 314; 316; 318; 320; 322; 324; 326; 328; 329;
   331; 333; 335; 337; 339; 341; 343; 345; 347; 349; 351; 353; 355; 357; 359; 361;
   363; 365; 367; 369; 371; 373; 375; 378; 380; 382; 383; 384; 387; 389; 392; 396;
   402; 405; 409; 410; 414; 417; 419; 421; 424; 429; 432; 436; 438; 441; 445; 447;
   454; 457; 460; 462; 464; 466; 468; 470; 472; 474; 476; 477; 479; 481; 483; 485;
   487; 489; 491; 493; 495; 496; 499; 501; 505; 507; 509; 511; 513; 515; 517; 519;
   521; 523; 525; 527; 529; 531; 533; 535; 537; 539; 541; 543; 547; 549; 551; 553;
   555; 557; 559; 561; 563; 572; 575; 576; 578; 583; 585; 587; 589; 591; 592; 593;
   594; 595; 596; 598; 599; 601; 603; 604; 608; 609; 611; 613; 614; 616; 617; 618;
   619; 620; 623; 625; 626; 629; 637; 640; 642; 643; 647; 648; 649; 650; 651; 652;
   658; 669; 670; 837; 881; 883; 887; 891; 892; 893; 912; 940; 941; 942; 943; 944;
   945; 946; 947; 948; 949; 950; 951; 952; 953; 954; 955; 956; 957; 958; 959; 960;
   961; 962; 963; 964; 965; 966; 967; 968; 969; 970; 971; 972; 973; 974; 976; 977;
   981; 982; 983; 985; 987; 989; 991; 993; 995; 997; 999; 1001; 1003; 1005; 1007; 1008;
   1009; 1010; 1011; 1013; 1016; 1019; 1072; 1073; 1074; 1075; 1076; 1077; 1078; 1079; 1080; 1081;
   1082; 1083; 1084; 1085; 1086; 1087; 1088; 1089; 1090; 1091; 1092; 1093; 1094; 1095; 1096; 1097;
   1098; 1099; 1100; 1101; 1102; 1103; 1104; 1105; 1106; 1107; 1108; 1109; 1110; 1111; 1112; 1113;
   1114; 1115; 1116; 1117; 1118; 1119; 1121; 1123; 1125; 1127; 1129; 1131; 1133; 1135; 1137; 1139;
   1141; 1143; 1145; 1147; 1149; 1151; 1153; 1163; 1165; 1167; 1169; 1171; 1173; 1175; 1177; 1179;
   1181; 1183; 1185; 1187; 1189; 1191; 1193; 1195; 1197; 1199; 1201; 1203; 1205; 1207; 1209; 1211;
   1213; 1215; 1218; 1220; 1222; 1224; 1226; 1228; 1230; 1231; 1233; 1235; 1237; 1239; 1241; 1243;
   1245; 1247; 1249; 1251; 1253; 1255; 1257; 1259; 1261; 1263; 1265; 1267; 1269; 1271; 1273; 1275;
   1277; 1279; 1281; 1283; 1285; 1287; 1289; 1291; 1293; 1295; 1297; 1299; 1301; 1303; 1305; 1307;
   1309; 1311; 1313; 1315; 1317; 1319; 1321; 1323; 1325; 1327; 1377; 1378; 1379; 1380; 1381; 1382;
   1383; 1384; 1385; 1386; 1387; 1388; 1389; 1390; 1391; 1392; 1393; 1394; 1395; 1396; 1397; 1398;
   1399; 1400; 1401; 1402; 1403; 1404; 1405; 1406; 1407; 1408; 1409; 1410; 1411; 1412; 1413; 1414;
   1415; 4304; 4305; 4306; 4307; 4308; 4309; 4310; 4311; 4312; 4313; 4314; 4315; 4316; 4317; 4318;
   4319; 4320; 4321; 4322; 4323; 4324; 4325; 4326; 4327; 4328; 4329; 4330; 4331; 4332; 4333; 4334;
   4335; 4336; 4337; 4338; 4339; 4340; 4341; 4342; 4343; 4344; 4345; 4346; 4349; 4350; 4351; 5112;
   5113; 5114; 5115; 5116; 5117; 7296; 7297; 7298; 7299; 7300; 7301; 7302; 7303; 7304; 7545; 7549;
   7566; 7681; 7683; 7685; 7687; 7689; 7691; 7693; 7695; 7697; 7699; 7701; 7703; 7705; 7707; 7709;
   7711; 7713; 7715; 7717; 7719; 7721; 7723; 7725; 7727; 7729; 7731; 7733; 7735; 7737; 7739; 7741;
   7743; 7745; 7747; 7749; 7751; 7753; 7755; 7757; 7759; 7761; 7763; 7765; 7767; 7769; 7771; 7773;
   7775; 7777; 7779; 7781; 7783; 7785; 7787; 7789; 7791; 7793; 7795; 7797; 7799; 7801; 7803; 7805;
   7807; 7809; 7811; 7813; 7815; 7817; 7819; 7821; 7823; 7825; 7827; 7829; 7830; 7831; 7832; 7833;
   7834; 7835; 7841; 7843; 7845; 7847; 7849; 7851; 7853; 7855; 7857; 7859; 7861; 7863; 7865; 7867;
   7869; 7871; 7873; 7875; 7877; 7879; 7881; 7883; 7885; 7887; 7889; 7891; 7893; 7895; 7897; 7899;
   7901; 7903; 7905; 7907; 7909; 7911; 7913; 7915; 7917; 7919; 7921; 7923; 7925; 7927; 7929; 7931;
   7933; 7935; 7936; 7937; 7938; 7939; 7940; 7941; 7942; 7943; 7952; 7953; 7954; 7955; 7956; 7957;
   7968; 7969; 7970; 7971; 7972; 7973; 7974; 7975; 7984; 7985; 7986; 7987; 7988; 7989; 7990; 7991;
   8000; 8001; 8002; 8003; 8004; 8005; 8016; 8017; 8018; 8019; 8020; 8021; 8022; 8023; 8032; 8033;
   8034; 8035; 8036; 8037; 8038; 8039; 8048; 8049; 8050; 8051; 8052; 8053; 8054; 8055; 8056; 8057;
   8058; 8059; 8060; 8061; 8064; 8065; 8066; 8067; 8068; 8069; 8070; 8071; 8080; 8081; 8082; 8083;
   8084; 8085; 8086; 8087; 8096; 8097; 8098; 8099; 8100; 8101; 8102; 8103; 8112; 8113; 8114; 8115;
   8116; 8118; 8119; 8126; 8130; 8131; 8132; 8134; 8135; 8144; 8145; 8146; 8147; 8150; 8151; 8160;
   8161; 8162; 8163; 8164; 8165; 8166; 8167; 8178; 8179; 8180; 8182; 8183; 8526; 8560; 8561; 8562;
   8563; 8564; 8565; 8566; 8567; 8568; 8569; 8570; 8571; 8572; 8573; 8574; 8575; 8580; 9424; 9425;
   9426; 9427; 9428; 9429; 9430; 9431; 9432; 9433; 9434; 9435; 9436; 9437; 9438; 9439; 9440; 9441;
   9442; 9443; 9444; 9445; 9446; 9447; 9448; 9449; 11312; 11313; 11314; 11315; 11316; 11317; 11318; 11319;
   11320; 11321; 11322; 11323; 11324; 11325; 11326; 11327; 11328; 11329; 11330; 11331; 11332; 11333; 11334; 11335;
   11336; 11337; 11338; 11339; 11340; 11341; 11342; 11343; 11344; 11345; 11346; 11347; 11348; 11349; 11350; 11351;
   11352; 11353; 11354; 11355; 11356; 11357; 11358; 11359; 11361; 11365; 11366; 11368; 11370; 11372; 11379; 11382;
   11393; 11395; 11397; 11399; 11401; 11403; 11405; 11407; 11409; 11411; 11413; 11415; 11417; 11419; 11421; 11423;
   11425; 11427; 11429; 11431; 11433; 11435; 11437; 11439; 11441; 11443; 11445; 11447; 11449; 11451; 11453; 11455;
   11457; 11459; 11461; 11463; 11465; 11467; 11469; 11471; 11473; 11475; 11477; 11479; 11481; 11483; 11485; 11487;
   11489; 11491; 11500; 11502; 11507; 11520; 11521; 11522; 11523; 11524; 11525; 11526; 11527; 11528; 11529; 11530;
   11531; 11532; 11533; 11534; 11535; 11536; 11537; 11538; 11539; 11540; 11541; 11542; 11543; 11544; 11545; 11546;
   11547; 11548; 11549; 11550; 11551; 11552; 11553; 11554; 11555; 11556; 11557; 11559; 11565; 42561; 42563; 42565;
   42567; 42569; 42571; 42573; 42575; 42577; 42579; 42581; 42583; 42585; 42587; 42589; 42591; 42593; 42595; 42597;
   42599; 42601; 42603; 42605; 42625; 42627; 42629; 42631; 42633; 42635; 42637; 42639; 42641; 42643; 42645; 42647;
   42649; 42651; 42787; 42789; 42791; 42793; 42795; 42797; 42799; 42803; 42805; 42807; 42809; 42811; 42813; 42815;
   42817; 42819; 42821; 42823; 42825; 42827; 42829; 42831; 42833; 42835; 42837; 42839; 42841; 42843; 42845; 42847;
   42849; 42851; 42853; 42855; 42857; 42859; 42861; 42863; 42874; 42876; 42879; 42881; 42883; 42885; 42887; 42892;
   42897; 42899; 42900; 42903; 42905; 42907; 42909; 42911; 42913; 42915; 42917; 42919; 42921; 42933; 42935; 42937;
   42939; 42941; 42943; 42945; 42947; 42952; 42954; 42961; 42967; 42969; 42998; 43859; 43888; 43889; 43890; 43891;
   43892; 43893; 43894; 43895; 43896; 43897; 43898; 43899; 43900; 43901; 43902; 43903; 43904; 43905; 43906; 43907;
   43908; 43909; 43910; 43911; 43912; 43913; 43914; 43915; 43916; 43917; 43918; 43919; 43920; 43921; 43922; 43923;
   43924; 43925; 43926; 43927; 43928; 43929; 43930; 43931; 43932; 43933; 43934; 43935; 43936; 43937; 43938; 43939;
   43940; 43941; 43942; 43943; 43944; 43945; 43946; 43947; 43948; 43949; 43950; 43951; 43952; 43953; 43954; 43955;
   43956; 43957; 43958; 43959; 43960; 43961; 43962; 43963; 43964; 43965; 43966; 43967; 64256; 64257; 64258; 64259;
   64260; 64261; 64262; 64275; 64276; 64277; 64278; 64279; 65345; 65346; 65347; 65348; 65349; 65350; 65351; 65352;
   65353; 65354; 65355; 65356; 65357; 65358; 65359; 65360; 65361; 65362; 65363; 65364; 65365; 65366; 65367; 65368;
   65369; 65370; 66600; 66601; 66602; 66603; 66604; 66605; 66606; 66607; 66608; 66609; 66610; 66611; 66612; 66613;
   66614; 66615; 66616; 66617; 66618; 66619; 66620; 66621; 66622; 66623; 66624; 66625; 66626; 66627; 66628; 66629;
   66630; 66631; 66632; 66633; 66634; 66635; 66636; 66637; 66638; 66639; 66776; 66777; 66778; 66779; 66780; 66781;
   66782; 66783; 66784; 66785; 66786; 66787; 66788; 66789; 66790; 66791; 66792; 66793; 66794; 66795; 66796; 66797;
   66798; 66799; 66800; 66801; 66802; 66803; 66804; 66805; 66806; 66807; 66808; 66809; 66810; 66811; 66967; 66968;
   66969; 66970; 66971; 66972; 66973; 66974; 66975; 66976; 66977; 66979; 66980; 66981; 66982; 66983; 66984; 66985;
   66986; 66987; 66988; 66989; 66990; 66991; 66992; 66993; 66995; 66996; 66997; 66998; 66999; 67000; 67001; 67003;
   67004; 68800; 68801; 68802; 68803; 68804; 68805; 68806; 68807; 68808; 68809; 68810; 68811; 68812; 68813; 68814;
   68815; 68816; 68817; 68818; 68819; 68820; 68821; 68822; 68823; 68824; 68825; 68826; 68827; 68828; 68829; 68830;
   68831; 68832; 68833; 68834; 68835; 68836; 68837; 68838; 68839; 68840; 68841; 68842; 68843; 68844; 68845; 68846;
   68847; 68848; 68849; 68850; 71872; 71873; 71874; 71875; 71876; 71877; 71878; 71879; 71880; 71881; 71882; 71883;
   71884; 71885; 71886; 71887; 71888; 71889; 71890; 71891; 71892; 71893; 71894; 71895; 71896; 71897; 71898; 71899;
   71900; 71901; 71902; 71903; 93792; 93793; 93794; 93795; 93796; 93797; 93798; 93799; 93800; 93801; 93802; 93803;
   93804; 93805; 93806; 93807; 93808; 93809; 93810; 93811; 93812; 93813; 93814; 93815; 93816; 93817; 93818; 93819;
   93820; 93821; 93822; 93823; 125218; 125219; 125220; 125221; 125222; 125223; 125224; 125225; 125226; 125227; 125228; 125229;
   125230; 125231; 125232; 125233; 125234; 125235; 125236; 125237; 125238; 125239; 125240; 125241; 125242; 125243; 125244; 125245;
   125246; 125247; 125248; 125249; 125250; 125251].

(** [re._casefix._EXTRA_CASES]: code points that [re.IGNORECASE] also
    equates with a lower-case letter besides its upper case. *)
Definition extra_cases : list (N * list N) :=
  [
   (105, [305]); (115, [383]); (181, [956]); (305, [105]); (383, [115]); (837, [953; 8126]); (912, [8147]); (944, [8163]);
   (946, [976]); (949, [1013]); (952, [977]); (953, [837; 8126]); (954, [1008]); (956, [181]); (960, [982]); (961, [1009]);
   (962, [963]); (963, [962]); (966, [981]); (976, [946]); (977, [952]); (981, [966]); (982, [960]); (1008, [954]);
   (1009, [961]); (1013, [949]); (1074, [7296]); (1076, [7297]); (1086, [7298]); (1089, [7299]); (1090, [7300; 7301]); (1098, [7302]);
   (1123, [7303]); (7296, [1074]); (7297, [1076]); (7298, [1086]); (7299, [1089]); (7300, [1090; 7301]); (7301, [1090; 7300]); (7302, [1098]);
   (7303, [1123]); (7304, [42571]); (7777, [7835]); (7835, [7777]); (8126, [837; 953]); (8147, [912]); (8163, [944]); (42571, [7304]);
   (64261, [64262]); (64262, [64261])].

(** The code points for which [str.isspace()] holds; [str.strip()] removes them. *)
Definition space_chars : list N :=
  [9; 10; 11; 12; 13; 28; 29; 30; 31; 32; 133; 160; 5760; 8192; 8193; 8194; 8195; 8196; 8197; 8198; 8199; 8200; 8201; 8202; 8232; 8233; 8239; 8287; 12288].

(** [d[k]] for a dict given by its items. *)
Fixpoint lookup {B : Type} (k : N) (l : list (N * B)) : option B :=
  match l with
  | [] => None
  | (k', v) :: l' => if N.eqb k k' then Some v else lookup k l'
  end.

(** [chr(c).upper()] *)
Definition upper_char (c : N) : list N :=
  match lookup c upper_full_table with Some u => u | None => [c] end.

(** [s.upper()]: each character is mapped on its own. *)
Definition upper (s : list N) : list N := flat_map upper_char s.

Definition is_space (c : N) : bool := existsb (N.eqb c) space_chars.

(** [s.lstrip()], [s.rstrip()], [s.strip()] *)
Fixpoint lstrip (s : list N) : list N :=
  match s with
  | [] => []
  | c :: s' => if is_space c then lstrip s' else s
  end.

Definition rstrip (s : list N) : list N := rev (lstrip (rev s)).

Definition strip (s : list N) : list N := rstrip (lstrip s).

(** [generated_sql.upper().strip()] *)
Definition normalize (g : list N) : list N := strip (upper g).

(** [_sre.unicode_tolower] and [_sre.unicode_iscased] *)
Definition sre_lower (c : N) : N :=
  match lookup c sre_lower_table with Some l => l | None => c end.

Definition sre_iscased (c : N) : bool :=
  negb (N.eqb (sre_lower c) c) || existsb (N.eqb c) sre_cased_lower.

(** The instructions [re._compiler._compile] emits for a literal character
    under [re.IGNORECASE] on a [str] pattern. *)
Inductive Op :=
| OpLiteral (c : N)                 (* LITERAL c: the character itself *)
| OpLiteralUniIgnore (lo : N)       (* LITERAL_UNI_IGNORE lo: [unicode_tolower(x) == lo] *)
| OpInUniIgnore (set : list N).     (* IN_UNI_IGNORE: [unicode_tolower(x)] in the set *)

Definition compile_literal (av : N) : Op :=
  if negb (sre_iscased av) then OpLiteral av
  else
    let lo := sre_lower av in
    match lookup lo extra_cases with
    | None => OpLiteralUniIgnore lo
    | Some ks => OpInUniIgnore (lo :: ks)
    end.

(** How the matcher tests one input character against an instruction. *)
Definition op_matches (op : Op) (x : N) : bool :=
  match op with
  | OpLiteral c => N.eqb x c
  | OpLiteralUniIgnore lo => N.eqb (sre_lower x) lo
  | OpInUniIgnore set => existsb (N.eqb (sre_lower x)) set
  end.

(** A literal sequence matched at the start of the text. *)
Fixpoint match_prefix (ops : list Op) (s : list N) : bool :=
  match ops, s with
  | [], _ => true
  | op :: ops', x :: s' => op_matches op x && match_prefix ops' s'
  | _ :: _, [] => false
  end.

(** The code points of an ASCII literal. *)
Definition codes (s : string) : list N := map N_of_ascii (list_ascii_of_string s).

(** [allowed_pattern.match(normalized_sql)] for
    [^(SELECT|PRAGMA TABLE_INFO|PRAGMA table_info)] with [re.IGNORECASE]:
    the branch succeeds when one alternative matches at the start. *)
Definition allowed_alternatives : list (list N) := map codes ["SELECT"; "PRAGMA TABLE_INFO"; "PRAGMA table_info"].

Definition allowed_match (s : list N) : bool :=
  existsb (fun alt => match_prefix (map compile_literal alt) s) allowed_alternatives.

Definition accepts (g : list N) : bool := allowed_match (normalize g).

(** [s.startswith(p)] *)
Fixpoint startswith (p s : list N) : bool :=
  match p, s with
  | [], _ => true
  | a :: p', b :: s' => N.eqb a b && startswith p' s'
  | _ :: _, [] => false
  end.

(** Used in the proofs: [x] occurs in the upper case of some character. *)
Definition in_image (x : N) : bool :=
  match lookup x upper_full_table with None => true | Some _ => false end
  || existsb (fun kv => existsb (N.eqb x) (snd kv)) upper_full_table.

(** Used in the proofs: every character an instruction can match. *)
Definition candidates (op : Op) : list N :=
  match op with
  | OpLiteral c => [c]
  | OpLiteralUniIgnore lo => lo :: map fst (filter (fun kv => N.eqb (snd kv) lo) sre_lower_table)
  | OpInUniIgnore set =>
      set ++ map fst (filter (fun kv => existsb (N.eqb (snd kv)) set) sre_lower_table)
  end.

(** Used in the proofs: on upper-case text without U+0130 the instruction
    compiled from [p] matches exactly the character [P]. *)
Definition char_ok (p P : N) : bool :=
  op_matches (compile_literal p) P
  && forallb (fun y => negb (in_image y) || N.eqb y 304 || N.eqb y P)
             (candidates (compile_literal p)).

Fixpoint all_char_ok (ps Ps : list N) : bool :=
  match ps, Ps with
  | [], [] => true
  | p :: ps', P :: Ps' => char_ok p P && all_char_ok ps' Ps'
  | _, _ => false
  end.

End UniGate.

(** ** The demo database of [_setup_database], as concrete oracles *)
Module Fixtures.

(** [str] on values already fetched as text. *)
Definition show (s : string) : string := s.

Definition demo_catalog (table : string) : list (string * string) :=
  if String.eqb table "Employees" then
    [("employee_id", "INTEGER"); ("name", "TEXT"); ("department", "TEXT"); ("salary", "REAL")]
  else if String.eqb table "Departments" then
    [("dept_id", "INTEGER"); ("name", "TEXT")]
  else [].

Definition select_salaries : string := "SELECT name, salary FROM Employees LIMIT 100".
Definition describe_departments : string := "PRAGMA TABLE_INFO(Departments)".
Definition select_engineering : string :=
  "SELECT * FROM Employees WHERE department='Engineering' LIMIT 100".
Definition select_bonus : string := "SELECT bonus FROM Employees LIMIT 100".
Definition update_bob : string :=
  "UPDATE Employees SET salary=100000 WHERE name='Bob Johnson'".

(** sqlite3 on the demo tables, for the statements used below. *)
Definition demo_db (sql : string) : DbReply string :=
  if String.eqb sql select_salaries then
    DbRows ["name"; "salary"]
      [["Alice Smith"; "60000.0"]; ["Bob Johnson"; "75000.0"];
       ["Charlie Brown"; "62000.0"]; ["Diana Prince"; "55000.0"];
       ["Clark Kent"; "80000.0"]]
  else if String.eqb sql describe_departments then
    DbRows ["cid"; "name"; "type"; "notnull"; "dflt_value"; "pk"]
      [["0"; "dept_id"; "INTEGER"; "0"; "None"; "1"];
       ["1"; "name"; "TEXT"; "1"; "None"; "0"]]
  else if String.eqb sql select_engineering then
    DbRows ["employee_id"; "name"; "department"; "salary"] []
  else DbError "no such column: bonus".

(** A completion service that answers every request with [text]. *)
Definition llm_says (text : string) (req : LlmRequest) : LlmReply := LlmText text.

(** A completion service that is down. *)
Definition llm_down (req : LlmRequest) : LlmReply := LlmApiError "503 UNAVAILABLE".

(** A database file that an earlier run already populated: the CREATE
    statements are no-ops ([IF NOT EXISTS]) and inserting the seed rows
    again violates the primary keys. *)
Definition populated_file_db (done : list Setup.DbOp) (op : Setup.DbOp) : option string :=
  match op with
  | Setup.OpExecuteMany sql _ =>
      if String.eqb sql Setup.insert_employees_sql
      then Some "UNIQUE constraint failed: Employees.employee_id"
      else Some "UNIQUE constraint failed: Departments.dept_id"
  | _ => None
  end.

(** The same database for the full model: the schema reads succeed and no
    statement below leaves [cursor.description] None. *)
Definition demo_catalog_full (table : string) : Full.CatalogReply :=
  Full.CRows (demo_catalog table).

Definition demo_exec (sql : string) : Full.Exec string := Full.lift_db (demo_db sql).

(** A connection that has been closed: every [execute] raises
    [sqlite3.ProgrammingError], a subclass of [sqlite3.Error]. *)
Definition closed_catalog (table : string) : Full.CatalogReply :=
  Full.CError "Cannot operate on a closed database.".


(** Completion services for the full model. *)
Definition llm_text (text : string) (req : LlmRequest) : Full.Reply := Full.RText text.
Definition llm_api_down (req : LlmRequest) : Full.Reply := Full.RApiError "503 UNAVAILABLE".
Definition llm_unreachable (req : LlmRequest) : Full.Reply :=
  Full.ROtherError "ConnectError: [Errno 111] Connection refused".
Definition llm_no_text (req : LlmRequest) : Full.Reply := Full.RNoText.

(** [PRAGMA TABLE_İNFO(Departments)]: a dotted capital I (U+0130) in
    place of the I of [INFO]. *)
Definition dotted_table_info : list N :=
  app (UniGate.codes "PRAGMA TABLE_") (304%N :: UniGate.codes "NFO(Departments)").

End Fixtures.

(** * Proofs *)

(** ** Characters *)

Ltac all_chars c := destruct c as [[] [] [] [] [] [] [] []]; reflexivity.

Lemma is_space_upper_char (c : ascii) : is_space (upper_char c) = is_space c.
Proof. all_chars c. Qed.

Lemma upper_char_idem (c : ascii) : upper_char (upper_char c) = upper_char c.
Proof. all_chars c. Qed.

Lemma upper_lower_char (c : ascii) : upper_char (lower_char c) = upper_char c.
Proof. all_chars c. Qed.

Lemma lower_upper_char (c : ascii) : lower_char (upper_char c) = lower_char c.
Proof. all_chars c. Qed.

(** Ignoring case is comparing upper-case forms. *)
Lemma ci_eq_upper (a b : ascii) : ci_eq a b = Ascii.eqb (upper_char a) (upper_char b).
Proof.
  unfold ci_eq.
  destruct (Ascii.eqb_spec (lower_char a) (lower_char b)) as [E | N];
  destruct (Ascii.eqb_spec (upper_char a) (upper_char b)) as [E' | N']; auto.
  - exfalso. apply N'. rewrite <- (upper_lower_char a), <- (upper_lower_char b), E.
    reflexivity.
  - exfalso. apply N. rewrite <- (lower_upper_char a), <- (lower_upper_char b), E'.
    reflexivity.
Qed.

(** ** Strings *)

Lemma lstrip_upper (s : string) : lstrip (upper s) = upper (lstrip s).
Proof.
  induction s as [|c s IH]; simpl; [reflexivity|].
  rewrite is_space_upper_char. destruct (is_space c); auto.
Qed.

Lemma upper_empty (s : string) : upper s = EmptyString <-> s = EmptyString.
Proof. destruct s; simpl; split; congruence. Qed.

Lemma rstrip_upper (s : string) : rstrip (upper s) = upper (rstrip s).
Proof.
  induction s as [|c s IH]; simpl; [reflexivity|].
  rewrite IH, is_space_upper_char.
  destruct (rstrip s) eqn:E; simpl; [|reflexivity].
  destruct (is_space c); reflexivity.
Qed.

Lemma normalize_upper (s : string) : Gate.normalize s = upper (strip s).
Proof. unfold Gate.normalize, strip. rewrite lstrip_upper, rstrip_upper. reflexivity. Qed.

(** Matching a literal ignoring case against an upper-case text is an exact
    prefix test of the literal's upper-case form. *)
Lemma match_literal_ci_upper (p t : string) :
  match_literal_ci p (upper t) = startswith (upper p) (upper t).
Proof.
  revert t; induction p as [|a p IH]; intros t; [reflexivity|].
  destruct t as [|b t]; simpl; [reflexivity|].
  rewrite ci_eq_upper, upper_char_idem, IH. reflexivity.
Qed.

Lemma rstrip_cons_nonspace (c : ascii) (s : string) :
  is_space c = false -> rstrip (String c s) = String c (rstrip s).
Proof. intros H. simpl. destruct (rstrip s); [rewrite H|]; reflexivity. Qed.

Lemma normalize_cons_nonspace (c : ascii) (s : string) :
  is_space c = false ->
  Gate.normalize (String c s) = String (upper_char c) (rstrip (upper s)).
Proof.
  intros H. unfold Gate.normalize, strip. simpl.
  rewrite is_space_upper_char, H. apply rstrip_cons_nonspace.
  rewrite is_space_upper_char. exact H.
Qed.

Lemma all_space_normalize (s : string) :
  Cycle.all_space s = true -> Gate.normalize s = EmptyString.
Proof.
  intros H. unfold Gate.normalize, strip. rewrite lstrip_upper.
  induction s as [|c s IH]; simpl in *; [reflexivity|].
  apply andb_true_iff in H as [Hc Hs]. rewrite Hc. auto.
Qed.

(** ** The gate *)

Lemma allowed_match_upper (t : string) :
  Gate.allowed_match (upper t) =
  startswith "SELECT" (upper t) || startswith "PRAGMA TABLE_INFO" (upper t).
Proof.
  unfold Gate.allowed_match, Gate.allowed_alternatives. cbn [existsb].
  rewrite !match_literal_ci_upper.
  replace (upper "SELECT") with "SELECT" by reflexivity.
  replace (upper "PRAGMA TABLE_INFO") with "PRAGMA TABLE_INFO" by reflexivity.
  replace (upper "PRAGMA table_info") with "PRAGMA TABLE_INFO" by reflexivity.
  destruct (startswith "SELECT" (upper t)), (startswith "PRAGMA TABLE_INFO" (upper t));
    reflexivity.
Qed.

Lemma accepts_table_info (t : string) :
  In t table_names -> Gate.accepts (table_info_sql t) = true.
Proof. simpl. intros [<- | [<- | []]]; reflexivity. Qed.

(** ** Unfolding a request cycle *)

Section Cycles.
Context {V : Type}.
Variable py_str : V -> string.
Variable catalog : string -> list (string * string).
Variable llm : LlmRequest -> LlmReply.
Variable db : string -> DbReply V.

Lemma main_run (p : string) :
  run (Main.execute_prompt py_str catalog llm db p)
  = Main.gate_and_execute py_str db (Cycle.main_candidate llm p) (Cycle.main_prefix catalog p).
Proof. reflexivity. Qed.

Lemma sample_run (p : string) :
  run (Sample.execute_prompt py_str catalog llm db p)
  = Sample.gate_and_execute py_str db (Cycle.sample_candidate catalog llm p)
      (Cycle.sample_prefix catalog p).
Proof. reflexivity. Qed.

End Cycles.

Lemma main_prefix_exec_accepted (catalog : string -> list (string * string)) (p s : string) :
  In (EExec s) (Cycle.main_prefix catalog p) -> Gate.accepts s = true.
Proof.
  unfold Cycle.main_prefix. simpl.
  intros [H | [H | [H | [H | [H | []]]]]]; inversion H; reflexivity.
Qed.

Lemma sample_prefix_exec_accepted (catalog : string -> list (string * string)) (p s : string) :
  In (EExec s) (Cycle.sample_prefix catalog p) -> Gate.accepts s = true.
Proof.
  unfold Cycle.sample_prefix. simpl.
  intros [H | [H | [H | []]]]; inversion H; reflexivity.
Qed.

Lemma startswith_select_not_pragma (s : string) :
  startswith "SELECT" s = true -> startswith "PRAGMA" s = false.
Proof.
  destruct s as [|c s]; [discriminate|].
  destruct c as [[] [] [] [] [] [] [] []]; simpl; first [reflexivity | discriminate].
Qed.

(** Unfold one gate step of either script under the gate's decision [A]. *)
Ltac gate_step A :=
  unfold Main.gate_and_execute, Sample.gate_and_execute;
  unfold Gate.accepts in A; rewrite A; cbn [negb bind emit ret raise fst snd].

(** ** C1 *)

(** C1: in a request cycle of either script, the candidate statement is
    passed to [cursor.execute] if and only if the gate accepts it.  The only
    other statements the cycle executes are the schema reads
    [PRAGMA table_info(T)], which the gate would accept, so a rejected
    candidate never reaches execution. *)
Theorem candidate_executed_iff_accepted {V : Type} (py_str : V -> string)
    (catalog : string -> list (string * string)) (llm : LlmRequest -> LlmReply)
    (db : string -> DbReply V) (p : string) :
  (In (EExec (Cycle.main_candidate llm p)) (fst (run (Main.execute_prompt py_str catalog llm db p)))
   <-> Gate.accepts (Cycle.main_candidate llm p) = true)
  /\ (In (EExec (Cycle.sample_candidate catalog llm p))
        (fst (run (Sample.execute_prompt py_str catalog llm db p)))
      <-> Gate.accepts (Cycle.sample_candidate catalog llm p) = true).
Proof.
  split.
  - rewrite main_run. set (g := Cycle.main_candidate llm p).
    destruct (Gate.accepts g) eqn:A; split; intros H; auto.
    + gate_step A.
      destruct (db g) as [h [|r rs] | e]; apply in_or_app; right; left; reflexivity.
    + exfalso. revert H. gate_step A. intros H. destruct (py_split (Gate.normalize g)) as [|c cs]; cbn [fst] in H.
      * apply main_prefix_exec_accepted in H. unfold Gate.accepts in H. congruence.
      * apply in_app_or in H as [H | [H | []]]; [|discriminate].
        apply main_prefix_exec_accepted in H. unfold Gate.accepts in H. congruence.
    + discriminate.
  - rewrite sample_run. set (g := Cycle.sample_candidate catalog llm p).
    destruct (Gate.accepts g) eqn:A; split; intros H; auto.
    + gate_step A.
      destruct (db g) as [h rs | e]; [destruct (startswith "PRAGMA" _), rs|];
        apply in_or_app; right; left; reflexivity.
    + exfalso. revert H. gate_step A. intros H. cbn [fst] in H.
      apply sample_prefix_exec_accepted in H. unfold Gate.accepts in H. congruence.
    + discriminate.
Qed.

(** ** C2 *)

(** *** The code-point gate *)

Lemma lookup_in {B : Type} (k : N) (l : list (N * B)) (v : B) :
  UniGate.lookup k l = Some v -> In (k, v) l.
Proof.
  induction l as [|[k' v'] l IH]; cbn [UniGate.lookup]; [discriminate|].
  destruct (N.eqb k k') eqn:E; intros H.
  - apply N.eqb_eq in E. injection H as <-. subst. left. reflexivity.
  - right. auto.
Qed.

Lemma lstrip_incl (x : N) (s : list N) : In x (UniGate.lstrip s) -> In x s.
Proof.
  induction s as [|c s IH]; cbn [UniGate.lstrip]; [auto|].
  destruct (UniGate.is_space c); [right; auto | auto].
Qed.

Lemma strip_incl (x : N) (s : list N) : In x (UniGate.strip s) -> In x s.
Proof.
  unfold UniGate.strip, UniGate.rstrip. intros H.
  apply in_rev in H. apply lstrip_incl in H. apply in_rev in H.
  apply lstrip_incl in H. exact H.
Qed.

Lemma upper_char_image (c x : N) : In x (UniGate.upper_char c) -> UniGate.in_image x = true.
Proof.
  unfold UniGate.upper_char, UniGate.in_image. destruct (UniGate.lookup c _) as [u|] eqn:E; intros H.
  - apply lookup_in in E. apply orb_true_intro. right.
    apply existsb_exists. exists (c, u). split; [exact E|].
    apply existsb_exists. exists x. split; [exact H | apply N.eqb_refl].
  - destruct H as [<- | []]. rewrite E. reflexivity.
Qed.

Lemma no_upper_gives_304 :
  forallb (fun kv => negb (existsb (N.eqb 304%N) (snd kv))) UniGate.upper_full_table = true.
Proof. vm_compute. reflexivity. Qed.

Lemma upper_char_304 (c : N) : In 304%N (UniGate.upper_char c) -> c = 304%N.
Proof.
  unfold UniGate.upper_char. destruct (UniGate.lookup c _) as [u|] eqn:E; intros H.
  - apply lookup_in in E. pose proof no_upper_gives_304 as F.
    rewrite forallb_forall in F. specialize (F _ E). cbn [snd] in F.
    assert (G : existsb (N.eqb 304%N) u = true)
      by (apply existsb_exists; exists 304%N; split; [exact H | apply N.eqb_refl]).
    rewrite G in F. discriminate F.
  - destruct H as [-> | []]. reflexivity.
Qed.

Lemma lower_candidates (tbl : list (N * N)) (x lo : N) :
  N.eqb (match UniGate.lookup x tbl with Some l => l | None => x end) lo = true ->
  In x (lo :: map fst (filter (fun kv => N.eqb (snd kv) lo) tbl)).
Proof.
  intros H. destruct (UniGate.lookup x tbl) as [l|] eqn:E.
  - apply N.eqb_eq in H. subst l. right. apply lookup_in in E.
    apply in_map_iff. exists (x, lo). split; [reflexivity|].
    apply filter_In. split; [exact E | apply N.eqb_refl].
  - apply N.eqb_eq in H. left. symmetry. exact H.
Qed.

Lemma lower_set_candidates (tbl : list (N * N)) (x : N) (set : list N) :
  existsb (N.eqb (match UniGate.lookup x tbl with Some l => l | None => x end)) set = true ->
  In x (set ++ map fst (filter (fun kv => existsb (N.eqb (snd kv)) set) tbl)).
Proof.
  intros H. destruct (UniGate.lookup x tbl) as [l|] eqn:E.
  - apply in_or_app. right. apply lookup_in in E.
    apply in_map_iff. exists (x, l). split; [reflexivity|].
    apply filter_In. split; [exact E | exact H].
  - apply in_or_app. left. apply existsb_exists in H as [y [Hy Ey]].
    apply N.eqb_eq in Ey. subst y. exact Hy.
Qed.

Lemma op_matches_candidates (op : UniGate.Op) (x : N) :
  UniGate.op_matches op x = true -> In x (UniGate.candidates op).
Proof.
  destruct op as [c | lo | set]; intros H.
  - apply N.eqb_eq in H. left. symmetry. exact H.
  - exact (lower_candidates UniGate.sre_lower_table x lo H).
  - exact (lower_set_candidates UniGate.sre_lower_table x set H).
Qed.

Lemma char_ok_spec (p P x : N) :
  UniGate.char_ok p P = true -> UniGate.in_image x = true -> x <> 304%N ->
  UniGate.op_matches (UniGate.compile_literal p) x = N.eqb x P.
Proof.
  unfold UniGate.char_ok. intros H Im N304. apply andb_true_iff in H as [HP HF].
  destruct (N.eqb x P) eqn:E.
  - apply N.eqb_eq in E. subst. exact HP.
  - destruct (UniGate.op_matches _ x) eqn:O; [|reflexivity].
    apply op_matches_candidates in O. rewrite forallb_forall in HF.
    specialize (HF x O). rewrite Im, E in HF.
    apply N.eqb_neq in N304. rewrite N304 in HF. discriminate HF.
Qed.

Lemma match_prefix_startswith (ps Ps s : list N) :
  UniGate.all_char_ok ps Ps = true ->
  Forall (fun x => UniGate.in_image x = true /\ x <> 304%N) s ->
  UniGate.match_prefix (map UniGate.compile_literal ps) s = UniGate.startswith Ps s.
Proof.
  revert Ps s. induction ps as [|p ps IH]; intros [|P Ps] s H F;
    cbn [UniGate.all_char_ok] in H; try discriminate H.
  - destruct s; reflexivity.
  - apply andb_true_iff in H as [Hp Hs]. destruct s as [|x s]; [reflexivity|].
    inversion F as [|? ? [Im N304] F']. subst.
    cbn [map UniGate.match_prefix UniGate.startswith].
    rewrite (char_ok_spec _ _ _ Hp Im N304), (IH _ _ Hs F'), N.eqb_sym. reflexivity.
Qed.

Lemma normalize_chars (g : list N) :
  ~ In 304%N g -> Forall (fun x => UniGate.in_image x = true /\ x <> 304%N) (UniGate.normalize g).
Proof.
  intros H. apply Forall_forall. intros x Hx.
  apply strip_incl in Hx. unfold UniGate.upper in Hx. apply in_flat_map in Hx as [c [Hc Hx]].
  split; [exact (upper_char_image _ _ Hx)|].
  intros ->. apply upper_char_304 in Hx. subst. contradiction.
Qed.

(** C2 (as amended): on a statement without U+0130 (İ), the gate accepts
    exactly when the normalized form ([upper()] then [strip()]) begins with
    [SELECT] or with [PRAGMA TABLE_INFO]; the case-insensitive alternative
    [PRAGMA table_info] adds nothing on upper-cased text. *)
Theorem gate_accepts_iff_allowed_prefix_unicode (g : list N) :
  ~ In 304%N g ->
  UniGate.accepts g = true
  <-> UniGate.startswith (UniGate.codes "SELECT") (UniGate.normalize g) = true
      \/ UniGate.startswith (UniGate.codes "PRAGMA TABLE_INFO") (UniGate.normalize g) = true.
Proof.
  intros H. pose proof (normalize_chars g H) as F.
  assert (A1 : UniGate.all_char_ok (UniGate.codes "SELECT") (UniGate.codes "SELECT") = true)
    by (vm_compute; reflexivity).
  assert (A2 : UniGate.all_char_ok (UniGate.codes "PRAGMA TABLE_INFO")
                 (UniGate.codes "PRAGMA TABLE_INFO") = true) by (vm_compute; reflexivity).
  assert (A3 : UniGate.all_char_ok (UniGate.codes "PRAGMA table_info")
                 (UniGate.codes "PRAGMA TABLE_INFO") = true) by (vm_compute; reflexivity).
  unfold UniGate.accepts, UniGate.allowed_match.
  change UniGate.allowed_alternatives with
    [UniGate.codes "SELECT"; UniGate.codes "PRAGMA TABLE_INFO"; UniGate.codes "PRAGMA table_info"].
  cbn [existsb].
  rewrite (match_prefix_startswith _ _ _ A1 F), (match_prefix_startswith _ _ _ A2 F),
    (match_prefix_startswith _ _ _ A3 F).
  destruct (UniGate.startswith (UniGate.codes "SELECT") _),
    (UniGate.startswith (UniGate.codes "PRAGMA TABLE_INFO") _); cbn; intuition congruence.
Qed.

(** ** C4 *)

(** C4: when the gate accepts the candidate, the statement handed to
    [cursor.execute] is the candidate text itself ([generated_sql]), not its
    normalized form; it is the last statement the cycle executes. *)
Theorem accepted_executes_original_text {V : Type} (py_str : V -> string)
    (catalog : string -> list (string * string)) (llm : LlmRequest -> LlmReply)
    (db : string -> DbReply V) (p : string) :
  (Gate.accepts (Cycle.main_candidate llm p) = true ->
   fst (run (Main.execute_prompt py_str catalog llm db p))
   = app (Cycle.main_prefix catalog p) [EExec (Cycle.main_candidate llm p)])
  /\ (Gate.accepts (Cycle.sample_candidate catalog llm p) = true ->
      fst (run (Sample.execute_prompt py_str catalog llm db p))
      = app (Cycle.sample_prefix catalog p) [EExec (Cycle.sample_candidate catalog llm p)]).
Proof.
  split; intros A.
  - rewrite main_run. gate_step A.
    destruct (db _) as [h [|r rs] | e]; reflexivity.
  - rewrite sample_run. gate_step A.
    destruct (db _) as [h rs | e]; [destruct (startswith "PRAGMA" _), rs|]; reflexivity.
Qed.

(** ** C5 *)

(** C5: an accepted statement whose normalized form begins with [SELECT]
    and whose execution succeeds with no rows yields the message
    ["No results found for your query."] in both scripts. *)
Theorem select_zero_rows_no_results {V : Type} (py_str : V -> string)
    (catalog : string -> list (string * string)) (llm : LlmRequest -> LlmReply)
    (db : string -> DbReply V) (p : string) (header : list string) :
  (Gate.accepts (Cycle.main_candidate llm p) = true ->
   startswith "SELECT" (Gate.normalize (Cycle.main_candidate llm p)) = true ->
   db (Cycle.main_candidate llm p) = DbRows header [] ->
   snd (run (Main.execute_prompt py_str catalog llm db p)) = Ok (RStr Main.no_results_message))
  /\ (Gate.accepts (Cycle.sample_candidate catalog llm p) = true ->
      startswith "SELECT" (Gate.normalize (Cycle.sample_candidate catalog llm p)) = true ->
      db (Cycle.sample_candidate catalog llm p) = DbRows header [] ->
      snd (run (Sample.execute_prompt py_str catalog llm db p))
      = Ok (RStr Sample.no_results_message)).
Proof.
  split; intros A S D.
  - rewrite main_run. gate_step A. rewrite D. reflexivity.
  - rewrite sample_run. gate_step A. rewrite D.
    rewrite (startswith_select_not_pragma _ S). reflexivity.
Qed.

(** ** The full model

    Every computation of [Full] appends its events to the trace it is given
    and returns or raises independently of it; a cycle then reduces to the
    replies of the external calls.  On the replies that [Agent] models, the
    full model is the model of [Main] and [Sample]. *)

Lemma frames_ret {A : Type} (a : A) : Full.frames (ret a).
Proof. intros tr. unfold ret. cbn. rewrite app_nil_r. reflexivity. Qed.

Lemma frames_raise {A : Type} (e : PyExn) : Full.frames (@raise A e).
Proof. intros tr. unfold raise. cbn. rewrite app_nil_r. reflexivity. Qed.

Lemma frames_emit (e : Event) : Full.frames (emit e).
Proof. intros tr. reflexivity. Qed.

Lemma bind_frames {A B : Type} (m : M A) (k : A -> M B) (tr : list Event) :
  Full.frames m ->
  bind m k tr = match snd (m []) with
                | Ok a => k a (app tr (fst (m [])))
                | Raised e => (app tr (fst (m [])), Raised e)
                end.
Proof.
  intros Hm. unfold bind. rewrite (Hm tr). destruct (m []) as [t0 [a|e]]; reflexivity.
Qed.

Lemma frames_bind {A B : Type} (m : M A) (k : A -> M B) :
  Full.frames m -> (forall a, Full.frames (k a)) -> Full.frames (bind m k).
Proof.
  intros Hm Hk tr. rewrite (bind_frames m k tr Hm), (bind_frames m k [] Hm).
  destruct (m []) as [t0 [a|e]]; cbn [fst snd].
  - rewrite (Hk a (app tr t0)), (Hk a (app [] t0)). cbn [app fst snd].
    rewrite app_assoc. reflexivity.
  - reflexivity.
Qed.

Lemma frames_map_m {A B : Type} (f : A -> M B) (xs : list A) :
  (forall x, Full.frames (f x)) -> Full.frames (map_m f xs).
Proof.
  intros Hf. induction xs as [|x xs IH]; cbn [map_m].
  - apply frames_ret.
  - apply frames_bind; [apply Hf|]. intros y. apply frames_bind; [exact IH|].
    intros ys. apply frames_ret.
Qed.

Lemma frames_schema (catalog : string -> Full.CatalogReply) :
  Full.frames (Full.get_schema_description catalog).
Proof.
  unfold Full.get_schema_description. apply frames_bind; [|intros; apply frames_ret].
  apply frames_map_m. intros t. unfold Full.schema_part.
  apply frames_bind; [apply frames_emit|]. intros _.
  destruct (catalog t); [apply frames_ret | apply frames_raise].
Qed.

Lemma frames_main_llm_call (llm : LlmRequest -> Full.Reply) (p c : string) :
  Full.frames (Full.MainFull.llm_call llm p c).
Proof.
  unfold Full.MainFull.llm_call. apply frames_bind; [apply frames_emit|]. intros _.
  destruct (llm _); first [apply frames_ret | apply frames_raise].
Qed.

Lemma frames_main_gate {V : Type} (py_str : V -> string) (db : string -> Full.Exec V) (g : string) :
  Full.frames (Full.MainFull.gate_and_execute py_str db g).
Proof.
  unfold Full.MainFull.gate_and_execute. destruct (negb _).
  - destruct (py_split _); [apply frames_raise|].
    apply frames_bind; [apply frames_emit|]. intros _. apply frames_ret.
  - apply frames_bind; [apply frames_emit|]. intros _.
    destruct (db g) as [h [|r rs] | | e]; first [apply frames_ret | apply frames_raise].
Qed.

Lemma frames_sample_generate (catalog : string -> Full.CatalogReply)
    (llm : LlmRequest -> Full.Reply) (p : string) :
  Full.frames (Full.SampleFull.generate_sql catalog llm p).
Proof.
  unfold Full.SampleFull.generate_sql. apply frames_bind; [apply frames_schema|]. intros s.
  apply frames_bind; [apply frames_emit|]. intros _.
  destruct (llm _); first [apply frames_ret | apply frames_raise].
Qed.

Lemma frames_sample_gate {V : Type} (py_str : V -> string) (db : string -> Full.Exec V) (g : string) :
  Full.frames (Full.SampleFull.gate_and_execute py_str db g).
Proof.
  unfold Full.SampleFull.gate_and_execute. destruct (negb _); [apply frames_ret|].
  apply frames_bind; [apply frames_emit|]. intros _.
  destruct (db g) as [h [|r rs] | | e]; try destruct (startswith _ _);
    first [apply frames_ret | apply frames_raise].
Qed.

Lemma snd_frames {A : Type} (m : M A) (tr : list Event) : Full.frames m -> snd (m tr) = snd (m []).
Proof. intros H. rewrite (H tr). reflexivity. Qed.

Lemma catalog_ok_rows (catalog : string -> Full.CatalogReply) :
  Full.catalog_ok catalog = true ->
  catalog "Employees" = Full.CRows (Full.columns_read catalog "Employees")
  /\ catalog "Departments" = Full.CRows (Full.columns_read catalog "Departments").
Proof.
  unfold Full.catalog_ok, Full.columns_read. cbn [forallb table_names].
  destruct (catalog "Employees"), (catalog "Departments"); cbn; intros H;
    try discriminate H; split; reflexivity.
Qed.

Lemma schema_full_ok (catalog : string -> Full.CatalogReply) :
  Full.catalog_ok catalog = true ->
  run (Full.get_schema_description catalog)
  = (map (fun t => EExec (table_info_sql t)) table_names,
     Ok (Cycle.schema_of (Full.columns_read catalog))).
Proof.
  intros H. destruct (catalog_ok_rows _ H) as [E1 E2].
  unfold run, Full.get_schema_description, Full.schema_part. cbn [table_names map_m bind emit].
  rewrite E1, E2. reflexivity.
Qed.

Lemma reason_request_not_act (p s : string) :
  Main.llm_request p (Main.reason_context s) <> Main.llm_request p Main.sql_context.
Proof.
  intros H. apply (f_equal (fun r => substring 0 40 (req_contents r))) in H.
  cbv in H. discriminate H.
Qed.

Lemma think_request_not_act (p : string) :
  Main.llm_request p Main.think_context <> Main.llm_request p Main.sql_context.
Proof.
  intros H. apply (f_equal (fun r => substring 0 40 (req_contents r))) in H.
  cbv in H. discriminate H.
Qed.

Lemma main_llm_call_run (llm : LlmRequest -> Full.Reply) (p c : string) :
  snd (run (Full.MainFull.llm_call llm p c))
  = match llm (Main.llm_request p c) with
    | Full.RText t => Ok (strip t)
    | Full.RNoText => Raised AttributeError
    | Full.RApiError _ => Ok "ERROR: API Call Failed"
    | Full.ROtherError e => Raised (ClientError e)
    end.
Proof. unfold run, Full.MainFull.llm_call. cbn [bind emit]. destruct (llm _); reflexivity. Qed.

Lemma main_full_outcome {V : Type} (py_str : V -> string) (catalog : string -> Full.CatalogReply)
    (llm : LlmRequest -> Full.Reply) (db : string -> Full.Exec V) (p : string) :
  Full.catalog_ok catalog = true ->
  (forall req, req <> Main.llm_request p Main.sql_context -> Full.handled (llm req) = true) ->
  snd (run (Full.MainFull.execute_prompt py_str catalog llm db p))
  = match llm (Main.llm_request p Main.sql_context) with
    | Full.RText t => snd (run (Full.MainFull.gate_and_execute py_str db (strip t)))
    | Full.RNoText => Raised AttributeError
    | Full.RApiError _ => snd (run (Full.MainFull.gate_and_execute py_str db "ERROR: API Call Failed"))
    | Full.ROtherError e => Raised (ClientError e)
    end.
Proof.
  intros C Hh. unfold Full.MainFull.execute_prompt. unfold run at 1.
  rewrite bind_frames by apply frames_schema.
  pose proof (schema_full_ok _ C) as S. unfold run in S. rewrite S. clear S. cbn [fst snd].
  set (schema := Cycle.schema_of (Full.columns_read catalog)).
  rewrite bind_frames by apply frames_main_llm_call.
  pose proof (main_llm_call_run llm p (Main.reason_context schema)) as R. unfold run in R.
  rewrite R. clear R. cbn [fst snd].
  pose proof (Hh _ (reason_request_not_act p schema)) as H1.
  destruct (llm (Main.llm_request p (Main.reason_context schema))); try discriminate H1;
  rewrite bind_frames by apply frames_main_llm_call;
  pose proof (main_llm_call_run llm p Main.think_context) as T; unfold run in T;
  rewrite T; clear T; cbn [fst snd];
  pose proof (Hh _ (think_request_not_act p)) as H2;
  destruct (llm (Main.llm_request p Main.think_context)); try discriminate H2;
  rewrite bind_frames by apply frames_main_llm_call;
  pose proof (main_llm_call_run llm p Main.sql_context) as A; unfold run in A;
  rewrite A; clear A; cbn [fst snd];
  destruct (llm (Main.llm_request p Main.sql_context)); try reflexivity;
  apply snd_frames, frames_main_gate.
Qed.

Lemma sample_full_outcome {V : Type} (py_str : V -> string) (catalog : string -> Full.CatalogReply)
    (llm : LlmRequest -> Full.Reply) (db : string -> Full.Exec V) (p : string) :
  Full.catalog_ok catalog = true ->
  snd (run (Full.SampleFull.execute_prompt py_str catalog llm db p))
  = match llm (Sample.generate_request p (Cycle.schema_of (Full.columns_read catalog))) with
    | Full.RText t => snd (run (Full.SampleFull.gate_and_execute py_str db (strip t)))
    | Full.RNoText => Raised AttributeError
    | Full.RApiError e =>
        snd (run (Full.SampleFull.gate_and_execute py_str db
                    ("ERROR: Could not generate SQL due to API issue: " ++ e)))
    | Full.ROtherError e => Raised (ClientError e)
    end.
Proof.
  intros C. unfold Full.SampleFull.execute_prompt. unfold run at 1.
  rewrite bind_frames by apply frames_sample_generate.
  unfold Full.SampleFull.generate_sql.
  rewrite bind_frames by apply frames_schema.
  pose proof (schema_full_ok _ C) as S. unfold run in S. rewrite S. clear S.
  cbn [bind emit fst snd app].
  destruct (llm _); try reflexivity; apply snd_frames, frames_sample_gate.
Qed.

Lemma bind_ext {A B : Type} (m m' : M A) (k k' : A -> M B) :
  (forall tr, m tr = m' tr) -> (forall a tr, k a tr = k' a tr) ->
  forall tr, bind m k tr = bind m' k' tr.
Proof. intros Hm Hk tr. unfold bind. rewrite Hm. destruct (m' tr) as [t [a|e]]; auto. Qed.

(** On the replies the scripts handle, the full model is the model of
    [Main] and [Sample]. *)
Lemma main_full_refines {V : Type} (py_str : V -> string)
    (catalog : string -> list (string * string)) (llm : LlmRequest -> LlmReply)
    (db : string -> DbReply V) (p : string) (tr : list Event) :
  Full.MainFull.execute_prompt py_str (fun t => Full.CRows (catalog t))
    (fun r => Full.lift_reply (llm r)) (fun s => Full.lift_db (db s)) p tr
  = Main.execute_prompt py_str catalog llm db p tr.
Proof.
  unfold Full.MainFull.execute_prompt, Main.execute_prompt.
  assert (L : forall c tr', Full.MainFull.llm_call (fun r => Full.lift_reply (llm r)) p c tr'
                            = Main.llm_call llm p c tr').
  { intros c tr'. unfold Full.MainFull.llm_call, Main.llm_call, Main.llm_result.
    cbn [bind emit]. destruct (llm _); reflexivity. }
  apply bind_ext; [reflexivity|]. intros schema.
  apply bind_ext; [apply L|]. intros reason.
  apply bind_ext; [apply L|]. intros think.
  apply bind_ext; [apply L|]. intros g tr'.
  unfold Full.MainFull.gate_and_execute, Main.gate_and_execute.
  destruct (negb _); [reflexivity|]. cbn [bind emit].
  destruct (db g) as [h [|r rs] | e]; reflexivity.
Qed.

Lemma sample_full_refines {V : Type} (py_str : V -> string)
    (catalog : string -> list (string * string)) (llm : LlmRequest -> LlmReply)
    (db : string -> DbReply V) (p : string) (tr : list Event) :
  Full.SampleFull.execute_prompt py_str (fun t => Full.CRows (catalog t))
    (fun r => Full.lift_reply (llm r)) (fun s => Full.lift_db (db s)) p tr
  = Sample.execute_prompt py_str catalog llm db p tr.
Proof.
  unfold Full.SampleFull.execute_prompt, Sample.execute_prompt.
  apply bind_ext.
  - intros tr'. unfold Full.SampleFull.generate_sql, Sample.generate_sql.
    apply bind_ext; [reflexivity|]. intros schema tr''.
    unfold Sample.generate_result. cbn [bind emit]. destruct (llm _); reflexivity.
  - intros g tr'. unfold Full.SampleFull.gate_and_execute, Sample.gate_and_execute.
    destruct (negb _); [reflexivity|]. cbn [bind emit].
    destruct (db g) as [h rs | e]; reflexivity.
Qed.

Lemma sample_sentinel_rejected (e : string) :
  Gate.accepts ("ERROR: Could not generate SQL due to API issue: " ++ e) = false.
Proof.
  unfold Gate.accepts. simpl append.
  rewrite normalize_cons_nonspace by reflexivity. reflexivity.
Qed.

(** ** C6 *)

(** C6 (as amended): when a call to the completion service raises
    [APIError], the requester returns its sentinel text instead of raising,
    the gate rejects that text, and [execute_prompt] returns the rejection
    message, provided the schema reads succeed and, in main.py, the REASON
    and THINK calls return.  A response whose [.text] is None makes
    [.strip()] raise [AttributeError], and any other exception of the
    client (a transport error) is not caught: [execute_prompt] raises. *)
Theorem api_error_rejected_other_failures_raise {V : Type} (py_str : V -> string)
    (catalog : string -> Full.CatalogReply) (llm : LlmRequest -> Full.Reply)
    (db : string -> Full.Exec V) (p e : string) :
  Full.catalog_ok catalog = true ->
  ((forall req, req <> Main.llm_request p Main.sql_context -> Full.handled (llm req) = true) ->
   (llm (Main.llm_request p Main.sql_context) = Full.RApiError e ->
    snd (run (Full.MainFull.llm_call llm p Main.sql_context)) = Ok "ERROR: API Call Failed"
    /\ Gate.accepts "ERROR: API Call Failed" = false
    /\ snd (run (Full.MainFull.execute_prompt py_str catalog llm db p))
       = Ok (RStr Main.reject_message))
   /\ (llm (Main.llm_request p Main.sql_context) = Full.RNoText ->
       snd (run (Full.MainFull.execute_prompt py_str catalog llm db p)) = Raised AttributeError)
   /\ (llm (Main.llm_request p Main.sql_context) = Full.ROtherError e ->
       snd (run (Full.MainFull.execute_prompt py_str catalog llm db p))
       = Raised (ClientError e)))
  /\ (llm (Sample.generate_request p (Cycle.schema_of (Full.columns_read catalog)))
        = Full.RApiError e ->
      snd (run (Full.SampleFull.generate_sql catalog llm p))
      = Ok ("ERROR: Could not generate SQL due to API issue: " ++ e)
      /\ Gate.accepts ("ERROR: Could not generate SQL due to API issue: " ++ e) = false
      /\ snd (run (Full.SampleFull.execute_prompt py_str catalog llm db p))
         = Ok (RStr Sample.reject_message))
  /\ (llm (Sample.generate_request p (Cycle.schema_of (Full.columns_read catalog)))
        = Full.RNoText ->
      snd (run (Full.SampleFull.execute_prompt py_str catalog llm db p)) = Raised AttributeError)
  /\ (llm (Sample.generate_request p (Cycle.schema_of (Full.columns_read catalog)))
        = Full.ROtherError e ->
      snd (run (Full.SampleFull.execute_prompt py_str catalog llm db p))
      = Raised (ClientError e)).
Proof.
  intros C. split; [|split; [|split]].
  - intros Hh. rewrite (main_full_outcome py_str catalog llm db p C Hh).
    split; [|split]; intros H; rewrite H; [|reflexivity|reflexivity].
    split; [rewrite main_llm_call_run, H; reflexivity|]. split; [reflexivity|].
    reflexivity.
  - intros H. split; [|split].
    + unfold run, Full.SampleFull.generate_sql.
      rewrite bind_frames by apply frames_schema.
      pose proof (schema_full_ok _ C) as S. unfold run in S. rewrite S. clear S.
      cbn [fst snd bind emit]. rewrite H. reflexivity.
    + apply sample_sentinel_rejected.
    + rewrite (sample_full_outcome py_str catalog llm db p C), H.
      unfold run, Full.SampleFull.gate_and_execute.
      pose proof (sample_sentinel_rejected e) as A. unfold Gate.accepts in A. rewrite A.
      reflexivity.
  - intros H. rewrite (sample_full_outcome py_str catalog llm db p C), H. reflexivity.
  - intros H. rewrite (sample_full_outcome py_str catalog llm db p C), H. reflexivity.
Qed.

(** ** C7 *)

(** C7: when an accepted statement fails in the database with an
    [sqlite3.Error], [execute_prompt] returns (does not raise)
    ["Error executing SQL: "] followed by the engine's error text. *)
Theorem engine_error_reported {V : Type} (py_str : V -> string)
    (catalog : string -> list (string * string)) (llm : LlmRequest -> LlmReply)
    (db : string -> DbReply V) (p e : string) :
  (Gate.accepts (Cycle.main_candidate llm p) = true ->
   db (Cycle.main_candidate llm p) = DbError e ->
   snd (run (Main.execute_prompt py_str catalog llm db p))
   = Ok (RStr ("Error executing SQL: " ++ e)))
  /\ (Gate.accepts (Cycle.sample_candidate catalog llm p) = true ->
      db (Cycle.sample_candidate catalog llm p) = DbError e ->
      snd (run (Sample.execute_prompt py_str catalog llm db p))
      = Ok (RStr ("Error executing SQL: " ++ e))).
Proof.
  split; intros A D.
  - rewrite main_run. gate_step A. rewrite D. reflexivity.
  - rewrite sample_run. gate_step A. rewrite D. reflexivity.
Qed.

(** ** C10 *)

(** C10: in main.py, a blank candidate statement (empty or only whitespace)
    is rejected by the gate, and the rejection log line evaluates
    [normalized_sql.split()[0]] on an empty list: [execute_prompt] raises
    [IndexError] instead of returning the rejection message. *)
Theorem main_blank_statement_index_error {V : Type} (py_str : V -> string)
    (catalog : string -> list (string * string)) (llm : LlmRequest -> LlmReply)
    (db : string -> DbReply V) (p : string) :
  Cycle.all_space (Cycle.main_candidate llm p) = true ->
  snd (run (Main.execute_prompt py_str catalog llm db p)) = Raised IndexError.
Proof.
  intros B. rewrite main_run. unfold Main.gate_and_execute.
  rewrite (all_space_normalize _ B). reflexivity.
Qed.

(** ** Splitting rendered tables *)

Lemma str_app_assoc (a b c : string) : (a ++ b) ++ c = a ++ (b ++ c).
Proof. induction a as [|x a IH]; simpl; congruence. Qed.

Lemma has_char_app (c : ascii) (a b : string) :
  Cycle.has_char c (a ++ b) = Cycle.has_char c a || Cycle.has_char c b.
Proof.
  induction a as [|x a IH]; simpl; [reflexivity|]. rewrite IH. apply orb_assoc.
Qed.

Lemma split_on_plain (c : ascii) (x : string) :
  Cycle.has_char c x = false -> TableParse.split_on c x = [x].
Proof.
  induction x as [|a x IH]; simpl; intros H; [reflexivity|].
  apply orb_false_iff in H as [Ha Hx]. rewrite Ascii.eqb_sym, Ha, IH by exact Hx.
  reflexivity.
Qed.

Lemma split_on_app_sep (c : ascii) (x rest : string) :
  Cycle.has_char c x = false ->
  TableParse.split_on c (x ++ String c rest) = x :: TableParse.split_on c rest.
Proof.
  induction x as [|a x IH]; simpl; intros H.
  - rewrite Ascii.eqb_refl. reflexivity.
  - apply orb_false_iff in H as [Ha Hx]. rewrite Ascii.eqb_sym, Ha, IH by exact Hx.
    reflexivity.
Qed.

(** A cell with its one space of padding on each side. *)
Definition pad (x : string) : string := " " ++ x ++ " ".

Lemma chop_space_cons (a : ascii) (s : string) :
  s <> EmptyString -> TableParse.chop_space (String a s) = String a (TableParse.chop_space s).
Proof. destruct s; [congruence | reflexivity]. Qed.

Lemma chop_space_app (x : string) : TableParse.chop_space (x ++ " ") = x.
Proof.
  induction x as [|a x IH]; [reflexivity|].
  change (String a x ++ " ") with (String a (x ++ " ")).
  rewrite chop_space_cons, IH; [reflexivity|].
  destruct x; discriminate.
Qed.

Lemma trim1_pad (x : string) : TableParse.trim1 (pad x) = x.
Proof. unfold pad, TableParse.trim1. simpl. apply chop_space_app. Qed.

Lemma map_trim1_pad (xs : list string) : map TableParse.trim1 (map pad xs) = xs.
Proof. induction xs as [|x xs IH]; cbn [map]; [|rewrite trim1_pad, IH]; reflexivity. Qed.

Lemma join_cells_step (x J T : string) :
  " " ++ (x ++ " | " ++ J) ++ T = pad x ++ String "|" (" " ++ J ++ T).
Proof.
  unfold pad. simpl. rewrite !str_app_assoc. simpl. reflexivity.
Qed.

Lemma has_char_pad (x : string) :
  Cycle.has_char "|" x = false -> Cycle.has_char "|" (pad x) = false.
Proof. intros H. unfold pad. simpl. rewrite has_char_app, H. reflexivity. Qed.

Lemma split_cells_then (xs : list string) (rest : string) :
  xs <> [] -> Forall (fun x => Cycle.has_char "|" x = false) xs ->
  TableParse.split_on "|" (" " ++ join " | " xs ++ " " ++ String "|" rest)
  = app (map pad xs) (TableParse.split_on "|" rest).
Proof.
  intros NE F. induction F as [|x xs Hx F IH]; [congruence|].
  destruct xs as [|y ys].
  - simpl join. change (" " ++ x ++ " " ++ String "|" rest)
      with (String " " (x ++ String " " (String "|" rest))).
    replace (String " " (x ++ String " " (String "|" rest)))
      with (pad x ++ String "|" rest)
      by (unfold pad; simpl; rewrite str_app_assoc; reflexivity).
    rewrite split_on_app_sep by (apply has_char_pad; assumption). reflexivity.
  - change (join " | " (x :: y :: ys)) with (x ++ " | " ++ join " | " (y :: ys)).
    rewrite join_cells_step.
    rewrite split_on_app_sep by (apply has_char_pad; assumption).
    rewrite IH by discriminate. reflexivity.
Qed.

Lemma split_cells_end (xs : list string) :
  xs <> [] -> Forall (fun x => Cycle.has_char "|" x = false) xs ->
  TableParse.split_on "|" (" " ++ join " | " xs ++ " ") = map pad xs.
Proof.
  intros NE F. induction F as [|x xs Hx F IH]; [congruence|].
  destruct xs as [|y ys].
  - simpl join. apply split_on_plain.
    change (" " ++ x ++ " ") with (pad x). apply has_char_pad; assumption.
  - change (join " | " (x :: y :: ys)) with (x ++ " | " ++ join " | " (y :: ys)).
    rewrite join_cells_step.
    rewrite split_on_app_sep by (apply has_char_pad; assumption).
    rewrite IH by discriminate. reflexivity.
Qed.

Lemma split_on_lead_sep (c : ascii) (s : string) :
  TableParse.split_on c (String c s) = EmptyString :: TableParse.split_on c s.
Proof. apply (split_on_app_sep c EmptyString s). reflexivity. Qed.

Lemma split_lines (xs : list string) :
  xs <> [] -> Forall (fun x => Cycle.has_char (chr 10) x = false) xs ->
  TableParse.split_on (chr 10) (join nl xs) = xs.
Proof.
  intros NE F. induction F as [|x xs Hx F IH]; [congruence|].
  destruct xs as [|y ys].
  - apply split_on_plain. exact Hx.
  - change (join nl (x :: y :: ys)) with (x ++ String (chr 10) (join nl (y :: ys))).
    rewrite split_on_app_sep by exact Hx. rewrite IH by discriminate. reflexivity.
Qed.

Lemma has_char_join (c : ascii) (sep : string) (xs : list string) :
  Cycle.has_char c sep = false -> Forall (fun x => Cycle.has_char c x = false) xs ->
  Cycle.has_char c (join sep xs) = false.
Proof.
  intros Hs F. induction F as [|x xs Hx F IH]; [reflexivity|].
  destruct xs as [|y ys]; [exact Hx|].
  change (join sep (x :: y :: ys)) with (x ++ sep ++ join sep (y :: ys)).
  rewrite !has_char_app, Hx, Hs, IH. reflexivity.
Qed.

Lemma has_char_repeat_dash (n : nat) : Cycle.has_char (chr 10) (repeat_str "-" n) = false.
Proof. induction n as [|n IH]; [reflexivity|]. exact IH. Qed.

Lemma drop_prefix_app (p s : string) : TableParse.drop_prefix p (p ++ s) = Some s.
Proof.
  induction p as [|a p IH]; [reflexivity|]. simpl. rewrite Ascii.eqb_refl. exact IH.
Qed.

Lemma plain_cells_bar (xs : list string) :
  forallb Cycle.plain_cell xs = true -> Forall (fun x => Cycle.has_char "|" x = false) xs.
Proof.
  intros H. apply Forall_forall. intros x Hx. rewrite forallb_forall in H.
  specialize (H x Hx). unfold Cycle.plain_cell in H.
  apply andb_true_iff in H as [H _]. apply negb_true_iff, H.
Qed.

Lemma plain_cells_nl (xs : list string) :
  forallb Cycle.plain_cell xs = true -> Forall (fun x => Cycle.has_char (chr 10) x = false) xs.
Proof.
  intros H. apply Forall_forall. intros x Hx. rewrite forallb_forall in H.
  specialize (H x Hx). unfold Cycle.plain_cell in H.
  apply andb_true_iff in H as [_ H]. apply negb_true_iff, H.
Qed.

Lemma main_cells_table_line (xs : list string) :
  xs <> [] -> forallb Cycle.plain_cell xs = true ->
  TableParse.main_cells (Main.table_line xs) = xs.
Proof.
  intros NE P. unfold TableParse.main_cells, Main.table_line.
  change ("| " ++ join " | " xs ++ " |")
    with (String "|" (" " ++ join " | " xs ++ " " ++ String "|" EmptyString)).
  rewrite split_on_lead_sep, split_cells_then by (auto using plain_cells_bar).
  cbn [tl TableParse.split_on]. rewrite removelast_last. apply map_trim1_pad.
Qed.

Lemma has_nl_table_line (xs : list string) :
  forallb Cycle.plain_cell xs = true -> Cycle.has_char (chr 10) (Main.table_line xs) = false.
Proof.
  intros P. unfold Main.table_line. rewrite !has_char_app.
  rewrite has_char_join by (auto using plain_cells_nl). reflexivity.
Qed.

Lemma sample_cells_line (xs : list string) :
  xs <> [] -> forallb Cycle.plain_cell xs = true ->
  TableParse.sample_cells (join " | " xs) = xs.
Proof.
  intros NE P. unfold TableParse.sample_cells.
  rewrite split_cells_end by (auto using plain_cells_bar). apply map_trim1_pad.
Qed.

Lemma row_cells_nonempty {V : Type} (py_str : V -> string) (header : list string)
    (row : list V) :
  header <> [] -> length row = length header -> map py_str row <> [].
Proof.
  intros NE L E. apply map_eq_nil in E. subst row. destruct header; simpl in L;
    congruence.
Qed.

(** ** C8 *)

(** C8 (as amended): for a result with at least one column and one row,
    every row as long as the header, whose column names and rendered values
    contain neither a bar nor a newline, re-parsing the text rendered by
    main.py ([FINAL ANSWER] table) or by sample.py recovers the column names
    and the [str] of every value. *)
Theorem table_roundtrip_plain_cells {V : Type} (py_str : V -> string)
    (header : list string) (rows : list (list V)) :
  header <> [] -> rows <> [] ->
  Forall (fun row => length row = length header) rows ->
  forallb Cycle.plain_cell header = true ->
  forallb (fun row => forallb Cycle.plain_cell (map py_str row)) rows = true ->
  TableParse.parse_main (Main.final_answer py_str header rows)
    = Some (header, map (map py_str) rows)
  /\ TableParse.parse_sample (Sample.format_table py_str header rows)
    = Some (header, map (map py_str) rows).
Proof.
  intros NH NR L PH PR.
  assert (PR' : forall row, In row rows ->
            map py_str row <> [] /\ forallb Cycle.plain_cell (map py_str row) = true).
  { intros row Hin. rewrite Forall_forall in L. rewrite forallb_forall in PR.
    split; [apply (row_cells_nonempty py_str header); auto | auto]. }
  split.
  - unfold TableParse.parse_main, Main.final_answer.
    match goal with
    | |- context [TableParse.drop_prefix ?p (nl ++ nl ++ "FINAL ANSWER:" ++ nl ++ ?f)] =>
        change (nl ++ nl ++ "FINAL ANSWER:" ++ nl ++ f) with (p ++ f)
    end.
    rewrite drop_prefix_app. unfold Main.format_table. rewrite split_lines.
    + rewrite main_cells_table_line by assumption. rewrite map_map.
      do 2 f_equal. apply map_ext_in. intros row Hin.
      destruct (PR' row Hin). apply main_cells_table_line; assumption.
    + discriminate.
    + constructor; [apply has_nl_table_line; assumption|].
      constructor.
      * simpl. rewrite has_char_app, has_char_repeat_dash. reflexivity.
      * apply Forall_forall. intros line Hin. apply in_map_iff in Hin as [row [<- Hin]].
        destruct (PR' row Hin). apply has_nl_table_line. assumption.
  - unfold TableParse.parse_sample, Sample.format_table. rewrite split_lines.
    + rewrite sample_cells_line by assumption. rewrite map_map.
      do 2 f_equal. apply map_ext_in. intros row Hin.
      destruct (PR' row Hin). apply sample_cells_line; assumption.
    + discriminate.
    + constructor; [apply has_char_join; [reflexivity | apply plain_cells_nl; assumption]|].
      constructor; [apply has_char_repeat_dash|].
      apply Forall_forall. intros line Hin. apply in_map_iff in Hin as [row [<- Hin]].
      destruct (PR' row Hin). apply has_char_join; [reflexivity | apply plain_cells_nl; assumption].
Qed.

(** ** C3 *)

(** C3 (as amended): when the gate rejects the candidate, the caller gets a
    fixed rejection message that does not depend on the statement; main.py
    writes the first token of the normalized statement to its error log
    only (for a statement that has one), sample.py records nothing. *)
Theorem rejection_message_is_fixed {V : Type} (py_str : V -> string)
    (catalog : string -> list (string * string)) (llm : LlmRequest -> LlmReply)
    (db : string -> DbReply V) (p : string) :
  (Gate.accepts (Cycle.main_candidate llm p) = false ->
   forall command rest,
   py_split (Gate.normalize (Cycle.main_candidate llm p)) = command :: rest ->
   run (Main.execute_prompt py_str catalog llm db p)
   = (app (Cycle.main_prefix catalog p) [ELogReject command], Ok (RStr Main.reject_message)))
  /\ (Gate.accepts (Cycle.sample_candidate catalog llm p) = false ->
      run (Sample.execute_prompt py_str catalog llm db p)
      = (Cycle.sample_prefix catalog p, Ok (RStr Sample.reject_message))).
Proof.
  split.
  - intros A command rest T. rewrite main_run. gate_step A. rewrite T. reflexivity.
  - intros A. rewrite sample_run. gate_step A. reflexivity.
Qed.

(** ** C9 *)


(** * Counterexamples *)

(** C2: [PRAGMA TABLE_İNFO(Departments)] is accepted, since under
    [re.IGNORECASE] the İ (U+0130) of the normalized text matches the I of the
    pattern ([_sre.unicode_tolower] maps it to [i]), yet its normalized form
    begins with neither [SELECT] nor [PRAGMA TABLE_INFO]. *)
Lemma gate_accepts_dotted_i_cex :
  UniGate.accepts Fixtures.dotted_table_info = true
  /\ UniGate.startswith (UniGate.codes "SELECT")
       (UniGate.normalize Fixtures.dotted_table_info) = false
  /\ UniGate.startswith (UniGate.codes "PRAGMA TABLE_INFO")
       (UniGate.normalize Fixtures.dotted_table_info) = false
  /\ ~ (forall g, UniGate.accepts g = true
                  <-> UniGate.startswith (UniGate.codes "SELECT") (UniGate.normalize g) = true
                      \/ UniGate.startswith (UniGate.codes "PRAGMA TABLE_INFO")
                           (UniGate.normalize g) = true).
Proof.
  assert (A : UniGate.accepts Fixtures.dotted_table_info = true) by (vm_compute; reflexivity).
  assert (S1 : UniGate.startswith (UniGate.codes "SELECT")
                 (UniGate.normalize Fixtures.dotted_table_info) = false)
    by (vm_compute; reflexivity).
  assert (S2 : UniGate.startswith (UniGate.codes "PRAGMA TABLE_INFO")
                 (UniGate.normalize Fixtures.dotted_table_info) = false)
    by (vm_compute; reflexivity).
  split; [exact A | split; [exact S1 | split; [exact S2 |]]].
  intros H. apply H in A. rewrite S1, S2 in A. destruct A as [E | E]; discriminate E.
Qed.

(** C3: the statement [UPDATE Employees SET ...] is rejected, and the
    message either script returns does not contain [UPDATE]. *)
Lemma rejection_message_omits_command_cex :
  Gate.accepts Fixtures.update_bob = false
  /\ snd (run (Main.execute_prompt Fixtures.show Fixtures.demo_catalog
                 (Fixtures.llm_says Fixtures.update_bob) Fixtures.demo_db
                 "Update Bob Johnson's salary to 100000."))
     = Ok (RStr Main.reject_message)
  /\ String.index 0 "UPDATE" Main.reject_message = None
  /\ snd (run (Sample.execute_prompt Fixtures.show Fixtures.demo_catalog
                 (Fixtures.llm_says Fixtures.update_bob) Fixtures.demo_db
                 "Update Bob Johnson's salary to 100000."))
     = Ok (RStr Sample.reject_message)
  /\ String.index 0 "UPDATE" Sample.reject_message = None.
Proof. repeat split; vm_compute; reflexivity. Qed.

(** C6: a transport error of the client, or a response with no text, is
    not caught: [execute_prompt] of either script raises instead of
    returning the rejection message. *)
Lemma transport_error_raises_cex :
  snd (run (Full.MainFull.execute_prompt Fixtures.show Fixtures.demo_catalog_full
              Fixtures.llm_unreachable Fixtures.demo_exec "salaries"))
  = Raised (ClientError "ConnectError: [Errno 111] Connection refused")
  /\ snd (run (Full.SampleFull.execute_prompt Fixtures.show Fixtures.demo_catalog_full
                 Fixtures.llm_unreachable Fixtures.demo_exec "salaries"))
     = Raised (ClientError "ConnectError: [Errno 111] Connection refused")
  /\ snd (run (Full.MainFull.execute_prompt Fixtures.show Fixtures.demo_catalog_full
                 Fixtures.llm_no_text Fixtures.demo_exec "salaries"))
     = Raised AttributeError
  /\ snd (run (Full.SampleFull.execute_prompt Fixtures.show Fixtures.demo_catalog_full
                 Fixtures.llm_no_text Fixtures.demo_exec "salaries"))
     = Raised AttributeError.
Proof. repeat split; vm_compute; reflexivity. Qed.

(** C8: two different results render to the same text in both scripts when
    a value contains [" | "], so no parser recovers both. *)
Lemma table_rendering_ambiguous_cex :
  Main.final_answer Fixtures.show ["x"; "y"] [["a | b"; "c"]]
  = Main.final_answer Fixtures.show ["x"; "y"] [["a"; "b | c"]]
  /\ Sample.format_table Fixtures.show ["x"; "y"] [["a | b"; "c"]]
     = Sample.format_table Fixtures.show ["x"; "y"] [["a"; "b | c"]]
  /\ ~ (exists parse : string -> option (list string * list (list string)),
          forall header rows, header <> [] -> rows <> [] ->
          parse (Main.final_answer Fixtures.show header rows) = Some (header, rows)).
Proof.
  assert (E : Main.final_answer Fixtures.show ["x"; "y"] [["a | b"; "c"]]
              = Main.final_answer Fixtures.show ["x"; "y"] [["a"; "b | c"]])
    by reflexivity.
  split; [exact E | split; [reflexivity |]].
  intros [parse H].
  pose proof (H ["x"; "y"] [["a | b"; "c"]] ltac:(discriminate) ltac:(discriminate)) as H1.
  pose proof (H ["x"; "y"] [["a"; "b | c"]] ltac:(discriminate) ltac:(discriminate)) as H2.
  rewrite E in H1. rewrite H1 in H2. discriminate H2.
Qed.


(** * Witnesses: each theorem with hypotheses, applied on the demo database *)

Lemma gate_accepts_iff_allowed_prefix_unicode_witness :
  ~ In 304%N (UniGate.codes Fixtures.select_salaries)
  /\ (UniGate.accepts (UniGate.codes Fixtures.select_salaries) = true
      <-> UniGate.startswith (UniGate.codes "SELECT")
            (UniGate.normalize (UniGate.codes Fixtures.select_salaries)) = true
          \/ UniGate.startswith (UniGate.codes "PRAGMA TABLE_INFO")
               (UniGate.normalize (UniGate.codes Fixtures.select_salaries)) = true).
Proof.
  assert (H : ~ In 304%N (UniGate.codes Fixtures.select_salaries)).
  { intros H. vm_compute in H. repeat (destruct H as [H | H]; [discriminate H |]). exact H. }
  exact (conj H (gate_accepts_iff_allowed_prefix_unicode _ H)).
Defined.

Lemma accepted_executes_original_text_witness :
  Gate.accepts (Cycle.main_candidate (Fixtures.llm_says Fixtures.select_salaries) "salaries") = true
  /\ fst (run (Main.execute_prompt Fixtures.show Fixtures.demo_catalog
                (Fixtures.llm_says Fixtures.select_salaries) Fixtures.demo_db "salaries"))
     = app (Cycle.main_prefix Fixtures.demo_catalog "salaries") [EExec Fixtures.select_salaries]
  /\ Gate.accepts (Cycle.sample_candidate Fixtures.demo_catalog
                     (Fixtures.llm_says Fixtures.select_salaries) "salaries") = true
  /\ fst (run (Sample.execute_prompt Fixtures.show Fixtures.demo_catalog
                (Fixtures.llm_says Fixtures.select_salaries) Fixtures.demo_db "salaries"))
     = app (Cycle.sample_prefix Fixtures.demo_catalog "salaries") [EExec Fixtures.select_salaries].
Proof.
  destruct (accepted_executes_original_text Fixtures.show Fixtures.demo_catalog
              (Fixtures.llm_says Fixtures.select_salaries) Fixtures.demo_db "salaries")
    as [M S].
  assert (HM : Gate.accepts (Cycle.main_candidate (Fixtures.llm_says Fixtures.select_salaries)
                               "salaries") = true) by (vm_compute; reflexivity).
  assert (HS : Gate.accepts (Cycle.sample_candidate Fixtures.demo_catalog
                               (Fixtures.llm_says Fixtures.select_salaries) "salaries") = true)
    by (vm_compute; reflexivity).
  exact (conj HM (conj (M HM) (conj HS (S HS)))).
Defined.

Lemma select_zero_rows_no_results_witness :
  snd (run (Main.execute_prompt Fixtures.show Fixtures.demo_catalog
              (Fixtures.llm_says Fixtures.select_engineering) Fixtures.demo_db "engineers"))
  = Ok (RStr Main.no_results_message)
  /\ snd (run (Sample.execute_prompt Fixtures.show Fixtures.demo_catalog
                 (Fixtures.llm_says Fixtures.select_engineering) Fixtures.demo_db "engineers"))
     = Ok (RStr Sample.no_results_message).
Proof.
  destruct (select_zero_rows_no_results Fixtures.show Fixtures.demo_catalog
              (Fixtures.llm_says Fixtures.select_engineering) Fixtures.demo_db "engineers"
              ["employee_id"; "name"; "department"; "salary"]) as [M S].
  split; [apply M | apply S]; vm_compute; reflexivity.
Defined.

Lemma api_error_rejected_other_failures_raise_witness :
  Full.catalog_ok Fixtures.demo_catalog_full = true
  /\ snd (run (Full.MainFull.execute_prompt Fixtures.show Fixtures.demo_catalog_full
                 Fixtures.llm_api_down Fixtures.demo_exec "salaries"))
     = Ok (RStr Main.reject_message)
  /\ snd (run (Full.SampleFull.execute_prompt Fixtures.show Fixtures.demo_catalog_full
                 Fixtures.llm_api_down Fixtures.demo_exec "salaries"))
     = Ok (RStr Sample.reject_message)
  /\ snd (run (Full.SampleFull.execute_prompt Fixtures.show Fixtures.demo_catalog_full
                 Fixtures.llm_unreachable Fixtures.demo_exec "salaries"))
     = Raised (ClientError "ConnectError: [Errno 111] Connection refused").
Proof.
  assert (C : Full.catalog_ok Fixtures.demo_catalog_full = true) by reflexivity.
  destruct (api_error_rejected_other_failures_raise Fixtures.show Fixtures.demo_catalog_full
              Fixtures.llm_api_down Fixtures.demo_exec "salaries" "503 UNAVAILABLE" C)
    as [M [S _]].
  destruct (api_error_rejected_other_failures_raise Fixtures.show Fixtures.demo_catalog_full
              Fixtures.llm_unreachable Fixtures.demo_exec "salaries"
              "ConnectError: [Errno 111] Connection refused" C)
    as [_ [_ [_ U]]].
  destruct (M (fun _ _ => eq_refl)) as [M1 _].
  split; [exact C|]. split; [exact (proj2 (proj2 (M1 eq_refl)))|].
  split; [exact (proj2 (proj2 (S eq_refl)))|]. exact (U eq_refl).
Defined.

Lemma engine_error_reported_witness :
  snd (run (Main.execute_prompt Fixtures.show Fixtures.demo_catalog
              (Fixtures.llm_says Fixtures.select_bonus) Fixtures.demo_db "bonus"))
  = Ok (RStr ("Error executing SQL: " ++ "no such column: bonus"))
  /\ snd (run (Sample.execute_prompt Fixtures.show Fixtures.demo_catalog
                 (Fixtures.llm_says Fixtures.select_bonus) Fixtures.demo_db "bonus"))
     = Ok (RStr ("Error executing SQL: " ++ "no such column: bonus")).
Proof.
  destruct (engine_error_reported Fixtures.show Fixtures.demo_catalog
              (Fixtures.llm_says Fixtures.select_bonus) Fixtures.demo_db "bonus"
              "no such column: bonus") as [M S].
  split; [apply M | apply S]; vm_compute; reflexivity.
Defined.

Lemma main_blank_statement_index_error_witness :
  Cycle.all_space (Cycle.main_candidate (Fixtures.llm_says "   ") "salaries") = true
  /\ snd (run (Main.execute_prompt Fixtures.show Fixtures.demo_catalog
                 (Fixtures.llm_says "   ") Fixtures.demo_db "salaries"))
     = Raised IndexError.
Proof.
  assert (B : Cycle.all_space (Cycle.main_candidate (Fixtures.llm_says "   ") "salaries") = true)
    by reflexivity.
  exact (conj B (main_blank_statement_index_error Fixtures.show Fixtures.demo_catalog
                   (Fixtures.llm_says "   ") Fixtures.demo_db "salaries" B)).
Defined.

Lemma table_roundtrip_plain_cells_witness :
  TableParse.parse_main
    (Main.final_answer Fixtures.show ["name"; "salary"]
       [["Alice Smith"; "60000.0"]; ["Bob Johnson"; "75000.0"]])
  = Some (["name"; "salary"],
          map (map Fixtures.show) [["Alice Smith"; "60000.0"]; ["Bob Johnson"; "75000.0"]])
  /\ TableParse.parse_sample
       (Sample.format_table Fixtures.show ["name"; "salary"]
          [["Alice Smith"; "60000.0"]; ["Bob Johnson"; "75000.0"]])
     = Some (["name"; "salary"],
             map (map Fixtures.show) [["Alice Smith"; "60000.0"]; ["Bob Johnson"; "75000.0"]]).
Proof.
  apply (table_roundtrip_plain_cells Fixtures.show ["name"; "salary"]
           [["Alice Smith"; "60000.0"]; ["Bob Johnson"; "75000.0"]]).
  - discriminate.
  - discriminate.
  - repeat constructor.
  - reflexivity.
  - reflexivity.
Defined.

Lemma rejection_message_is_fixed_witness :
  run (Main.execute_prompt Fixtures.show Fixtures.demo_catalog
         (Fixtures.llm_says Fixtures.update_bob) Fixtures.demo_db "raise Bob")
  = (app (Cycle.main_prefix Fixtures.demo_catalog "raise Bob") [ELogReject "UPDATE"],
     Ok (RStr Main.reject_message))
  /\ run (Sample.execute_prompt Fixtures.show Fixtures.demo_catalog
            (Fixtures.llm_says Fixtures.update_bob) Fixtures.demo_db "raise Bob")
     = (Cycle.sample_prefix Fixtures.demo_catalog "raise Bob", Ok (RStr Sample.reject_message)).
Proof.
  destruct (rejection_message_is_fixed Fixtures.show Fixtures.demo_catalog
              (Fixtures.llm_says Fixtures.update_bob) Fixtures.demo_db "raise Bob") as [M S].
  split.
  - apply (M ltac:(vm_compute; reflexivity) "UPDATE"
             ["EMPLOYEES"; "SET"; "SALARY=100000"; "WHERE"; "NAME='BOB"; "JOHNSON'"]).
    vm_compute. reflexivity.
  - apply S. vm_compute. reflexivity.
Defined.


(** * Further properties of the code *)

(** ** Whitespace and case *)

Lemma rstrip_idem (s : string) : rstrip (rstrip s) = rstrip s.
Proof.
  induction s as [|c s IH]; [reflexivity|]. cbn [rstrip].
  destruct (rstrip s) as [|a r] eqn:E.
  - destruct (is_space c) eqn:C; [reflexivity|]. cbn [rstrip]. rewrite C. reflexivity.
  - assert (H : rstrip (String a r) = String a r) by exact IH.
    change (rstrip (String c (String a r))) with
      (match rstrip (String a r) with
       | EmptyString => if is_space c then EmptyString else String c EmptyString
       | String b r' => String c (String b r')
       end).
    rewrite H. reflexivity.
Qed.

Lemma lstrip_rstrip_lstrip (s : string) : lstrip (rstrip (lstrip s)) = rstrip (lstrip s).
Proof.
  induction s as [|c s IH]; [reflexivity|]. cbn [lstrip].
  destruct (is_space c) eqn:C; [exact IH|].
  rewrite rstrip_cons_nonspace by exact C. cbn [lstrip]. rewrite C. reflexivity.
Qed.

Lemma strip_idem (s : string) : strip (strip s) = strip s.
Proof. unfold strip. rewrite lstrip_rstrip_lstrip. apply rstrip_idem. Qed.

Lemma upper_idem (s : string) : upper (upper s) = upper s.
Proof. induction s as [|c s IH]; simpl; [|rewrite upper_char_idem, IH]; reflexivity. Qed.

Lemma strip_upper (s : string) : strip (upper s) = upper (strip s).
Proof. unfold strip. rewrite lstrip_upper, rstrip_upper. reflexivity. Qed.

Lemma lstrip_space_app (ws s : string) :
  Cycle.all_space ws = true -> lstrip (ws ++ s) = lstrip s.
Proof.
  induction ws as [|c ws IH]; intros H; [reflexivity|].
  cbn [Cycle.all_space] in H. apply andb_true_iff in H as [Hc Hw].
  cbn [append lstrip]. rewrite Hc. auto.
Qed.

Lemma rstrip_app_space (s ws : string) :
  Cycle.all_space ws = true -> rstrip (s ++ ws) = rstrip s.
Proof.
  intros H. induction s as [|c s IH].
  - cbn [append rstrip]. induction ws as [|a ws IHw]; [reflexivity|].
    cbn [Cycle.all_space] in H. apply andb_true_iff in H as [Ha Hw].
    cbn [rstrip]. rewrite IHw by exact Hw. rewrite Ha. reflexivity.
  - cbn [append rstrip]. rewrite IH. reflexivity.
Qed.

Lemma strip_app_space (s ws : string) :
  Cycle.all_space ws = true -> strip (s ++ ws) = strip s.
Proof.
  intros H. unfold strip. induction s as [|c s IH].
  - cbn [append]. replace (lstrip ws) with EmptyString; [reflexivity|].
    induction ws as [|a ws IHw]; [reflexivity|].
    cbn [Cycle.all_space] in H. apply andb_true_iff in H as [Ha Hw].
    cbn [lstrip]. rewrite Ha. auto.
  - cbn [append lstrip]. destruct (is_space c) eqn:C; [exact IH|].
    change (String c (s ++ ws)) with (String c s ++ ws). apply rstrip_app_space, H.
Qed.

Lemma rstrip_cons_nonempty (c : ascii) (s : string) (a : ascii) (r : string) :
  rstrip s = String a r -> rstrip (String c s) = String c (String a r).
Proof. intros H. cbn [rstrip]. rewrite H. reflexivity. Qed.

Lemma accepts_upper_strip (s : string) : Gate.accepts s = Gate.allowed_match (upper (strip s)).
Proof. unfold Gate.accepts. rewrite normalize_upper. reflexivity. Qed.

(** X1: the gate's decision ignores letter case and whitespace around the
    statement. *)
Theorem gate_ignores_case_and_surrounding_space (s ws : string) :
  Gate.accepts (upper s) = Gate.accepts s
  /\ (Cycle.all_space ws = true -> Gate.accepts (ws ++ s) = Gate.accepts s)
  /\ (Cycle.all_space ws = true -> Gate.accepts (s ++ ws) = Gate.accepts s).
Proof.
  rewrite !accepts_upper_strip. split; [|split]; intros.
  - rewrite strip_upper, upper_idem. reflexivity.
  - unfold strip. rewrite lstrip_space_app by assumption. reflexivity.
  - rewrite strip_app_space by assumption. reflexivity.
Qed.

Lemma gate_ignores_case_and_surrounding_space_witness :
  Cycle.all_space (String (chr 9) (String (chr 10) "  ")) = true
  /\ Gate.accepts (upper Fixtures.update_bob) = Gate.accepts Fixtures.update_bob
  /\ (Cycle.all_space (String (chr 9) (String (chr 10) "  ")) = true ->
      Gate.accepts (String (chr 9) (String (chr 10) "  ") ++ Fixtures.update_bob)
      = Gate.accepts Fixtures.update_bob)
  /\ (Cycle.all_space (String (chr 9) (String (chr 10) "  ")) = true ->
      Gate.accepts (Fixtures.update_bob ++ String (chr 9) (String (chr 10) "  "))
      = Gate.accepts Fixtures.update_bob).
Proof.
  split; [reflexivity|].
  exact (gate_ignores_case_and_surrounding_space Fixtures.update_bob
           (String (chr 9) (String (chr 10) "  "))).
Defined.

(** X2: the gate tests a bare prefix: whatever follows [SELECT] or
    [PRAGMA TABLE_INFO] (no word boundary, a second statement after a
    semicolon, a comment) is accepted. *)
Theorem gate_accepts_any_suffix (t : string) :
  Gate.accepts ("SELECT" ++ t) = true /\ Gate.accepts ("PRAGMA TABLE_INFO" ++ t) = true.
Proof.
  rewrite !accepts_upper_strip. unfold strip. split.
  - change (lstrip ("SELECT" ++ t)) with ("SELECT" ++ t). cbn [append].
    repeat rewrite rstrip_cons_nonspace by reflexivity. reflexivity.
  - change (lstrip ("PRAGMA TABLE_INFO" ++ t)) with ("PRAGMA TABLE_INFO" ++ t). cbn [append].
    repeat rewrite rstrip_cons_nonspace by reflexivity.
    rewrite (rstrip_cons_nonempty " "%char _ "T"%char ("ABLE_INFO" ++ rstrip t)).
    + repeat rewrite rstrip_cons_nonspace by reflexivity. reflexivity.
    + repeat rewrite rstrip_cons_nonspace by reflexivity. reflexivity.
Qed.

(** X3: the statement [_llm_call] returns carries no surrounding whitespace,
    also its failure sentinel; [_generate_sql] strips the service's text. *)
Theorem llm_results_are_stripped (r : LlmReply) (t : string) :
  strip (Main.llm_result r) = Main.llm_result r
  /\ strip (Sample.generate_result (LlmText t)) = Sample.generate_result (LlmText t).
Proof.
  split.
  - destruct r; [apply strip_idem | reflexivity].
  - apply strip_idem.
Qed.

(** ** Schema description *)

Lemma schema_of_lines (catalog : string -> list (string * string)) :
  Cycle.schema_of catalog = join nl (map (schema_line catalog) table_names).
Proof. reflexivity. Qed.

Lemma schema_line_no_nl (catalog : string -> list (string * string)) (t : string) :
  (forall col, In col (catalog t) ->
     Cycle.has_char (chr 10) (fst col) = false /\ Cycle.has_char (chr 10) (snd col) = false) ->
  Cycle.has_char (chr 10) t = false ->
  Cycle.has_char (chr 10) (schema_line catalog t) = false.
Proof.
  intros H Ht.
  assert (F : Forall (fun x => Cycle.has_char (chr 10) x = false)
                (map (fun col => fst col ++ " (" ++ snd col ++ ")") (catalog t))).
  { apply Forall_forall. intros x Hx. apply in_map_iff in Hx as [col [<- Hc]].
    destruct (H col Hc) as [H1 H2]. rewrite !has_char_app, H1, H2. reflexivity. }
  unfold schema_line. rewrite !has_char_app, Ht, (has_char_join (chr 10) ", " _ eq_refl F).
  reflexivity.
Qed.

(** X4: [_get_schema_description] runs [PRAGMA table_info(T)] once per table
    of [self.table_names], in order.  When every read succeeds it returns
    exactly one line per table, [Table **T**: (name (type), ...)] (when no
    column name or type holds a newline); when the read of a table raises an
    [sqlite3.Error], no later table is read and the error leaves the function,
    which has no handler. *)
Theorem schema_description_reads_in_order
    (cols : string -> list (string * string)) (catalog : string -> Full.CatalogReply)
    (k : nat) (e : string) :
  ((forall t col, In col (cols t) ->
      Cycle.has_char (chr 10) (fst col) = false /\ Cycle.has_char (chr 10) (snd col) = false) ->
   run (Full.get_schema_description (fun t => Full.CRows (cols t)))
   = (map (fun t => EExec (table_info_sql t)) table_names, Ok (Cycle.schema_of cols))
   /\ TableParse.split_on (chr 10) (Cycle.schema_of cols) = map (schema_line cols) table_names)
  /\ (k < length table_names ->
      (forall i, i < k -> exists c, catalog (nth i table_names EmptyString) = Full.CRows c) ->
      catalog (nth k table_names EmptyString) = Full.CError e ->
      run (Full.get_schema_description catalog)
      = (map (fun t => EExec (table_info_sql t)) (firstn (S k) table_names),
         Raised (Sqlite3Error e))).
Proof.
  split.
  - intros H. split; [reflexivity|].
    rewrite schema_of_lines. apply split_lines; [discriminate|].
    unfold table_names. cbn [map].
    repeat apply Forall_cons; try apply Forall_nil;
      (apply schema_line_no_nl; [exact (H _) | reflexivity]).
  - intros Hk Hpre He. cbn [length table_names] in Hk.
    unfold run, Full.get_schema_description, Full.schema_part.
    cbn [table_names map_m bind emit].
    destruct k as [|[|k]]; [| |lia]; cbn [nth table_names] in He.
    + rewrite He. reflexivity.
    + destruct (Hpre 0 ltac:(lia)) as [c E]. cbn [nth table_names] in E.
      rewrite E, He. reflexivity.
Qed.

Lemma schema_description_reads_in_order_witness :
  run (Full.get_schema_description (fun t => Full.CRows (Fixtures.demo_catalog t)))
  = (map (fun t => EExec (table_info_sql t)) table_names,
     Ok (Cycle.schema_of Fixtures.demo_catalog))
  /\ run (Full.get_schema_description Fixtures.closed_catalog)
     = ([EExec (table_info_sql "Employees")],
        Raised (Sqlite3Error "Cannot operate on a closed database.")).
Proof.
  destruct (schema_description_reads_in_order Fixtures.demo_catalog Fixtures.closed_catalog 0
              "Cannot operate on a closed database.") as [A B].
  split.
  - apply A. intros t col. unfold Fixtures.demo_catalog.
    destruct (String.eqb t "Employees"); [|destruct (String.eqb t "Departments")];
      intros Hc; repeat (destruct Hc as [<- | Hc]; [split; reflexivity|]); destruct Hc.
  - apply B; [cbn; lia | intros i Hi; lia | reflexivity].
Defined.

(** ** What main.py's result depends on *)

(** X5: in main.py, once the schema reads succeed and the REASON and THINK
    calls return (with text or [APIError]), the value [execute_prompt]
    returns or the exception it raises is fixed by the ACT call's reply: the
    schema and the REASON and THINK replies never influence it. *)
Theorem main_outcome_fixed_by_act_reply {V : Type} (py_str : V -> string)
    (catalog1 catalog2 : string -> Full.CatalogReply) (llm1 llm2 : LlmRequest -> Full.Reply)
    (db : string -> Full.Exec V) (p : string) :
  Full.catalog_ok catalog1 = true -> Full.catalog_ok catalog2 = true ->
  (forall req, req <> Main.llm_request p Main.sql_context -> Full.handled (llm1 req) = true) ->
  (forall req, req <> Main.llm_request p Main.sql_context -> Full.handled (llm2 req) = true) ->
  llm1 (Main.llm_request p Main.sql_context) = llm2 (Main.llm_request p Main.sql_context) ->
  snd (run (Full.MainFull.execute_prompt py_str catalog1 llm1 db p))
  = snd (run (Full.MainFull.execute_prompt py_str catalog2 llm2 db p)).
Proof.
  intros C1 C2 H1 H2 A.
  rewrite (main_full_outcome py_str catalog1 llm1 db p C1 H1),
    (main_full_outcome py_str catalog2 llm2 db p C2 H2), A.
  reflexivity.
Qed.

Lemma main_outcome_fixed_by_act_reply_witness :
  snd (run (Full.MainFull.execute_prompt Fixtures.show Fixtures.demo_catalog_full
              (Fixtures.llm_text Fixtures.select_salaries) Fixtures.demo_exec "salaries"))
  = snd (run (Full.MainFull.execute_prompt Fixtures.show (fun _ => Full.CRows [])
              (fun r => if String.eqb (req_contents r)
                              (req_contents (Main.llm_request "salaries" Main.sql_context))
                        then Full.RText Fixtures.select_salaries else Fixtures.llm_api_down r)
              Fixtures.demo_exec "salaries")).
Proof.
  apply main_outcome_fixed_by_act_reply.
  - reflexivity.
  - reflexivity.
  - intros req _. reflexivity.
  - intros req _. destruct (String.eqb _ _); reflexivity.
  - cbv beta. rewrite String.eqb_refl. reflexivity.
Defined.





(** ** Database setup *)

Lemma run_ops_fails (db_step : list Setup.DbOp -> Setup.DbOp -> option string)
    (done ops : list Setup.DbOp) (k : nat) (e : string) :
  Setup.fails_first_at db_step done ops k e ->
  Setup.run_ops db_step done ops = (app done (firstn (S k) ops), Some e).
Proof.
  revert done k. induction ops as [|op ops IH]; intros done k [Hlt [Hok Hk]];
    cbn [length] in Hlt; [lia|].
  destruct k as [|k].
  - cbn [firstn nth] in Hk. rewrite app_nil_r in Hk. cbn [Setup.run_ops]. rewrite Hk.
    reflexivity.
  - assert (H0 := Hok 0 ltac:(lia)). cbn [firstn nth] in H0. rewrite app_nil_r in H0.
    cbn [Setup.run_ops]. rewrite H0. rewrite IH with (k := k).
    + rewrite <- app_assoc. reflexivity.
    + split; [lia|split].
      * intros i Hi. rewrite <- app_assoc. exact (Hok (S i) ltac:(lia)).
      * rewrite <- app_assoc. exact Hk.
Qed.

(** X8: when the [k]-th setup step after a successful connect raises, db.py's
    [setup_demo_database] runs no later step, closes the connection and
    returns [None]; only an error of [close] itself would escape. *)
Theorem setup_demo_database_error_closes
    (db_step : list Setup.DbOp -> Setup.DbOp -> option string) (db_path : string)
    (k : nat) (e : string) :
  db_step [] (Setup.OpConnect db_path) = None ->
  Setup.fails_first_at db_step [Setup.OpConnect db_path] Setup.db_setup_ops k e ->
  Setup.setup_demo_database db_step db_path
  = (app (Setup.OpConnect db_path :: firstn (S k) Setup.db_setup_ops) [Setup.OpClose],
     match db_step (Setup.OpConnect db_path :: firstn (S k) Setup.db_setup_ops) Setup.OpClose with
     | None => Ok None
     | Some e' => Raised (Sqlite3Error e')
     end).
Proof.
  intros C F. unfold Setup.setup_demo_database. rewrite C, (run_ops_fails _ _ _ _ _ F).
  cbn [app]. destruct (db_step _ Setup.OpClose); reflexivity.
Qed.

Lemma setup_demo_database_error_closes_witness :
  Fixtures.populated_file_db [] (Setup.OpConnect "demo.db") = None
  /\ Setup.fails_first_at Fixtures.populated_file_db [Setup.OpConnect "demo.db"]
       Setup.db_setup_ops 1 "UNIQUE constraint failed: Employees.employee_id"
  /\ Setup.setup_demo_database Fixtures.populated_file_db "demo.db"
     = ([Setup.OpConnect "demo.db"; Setup.OpExecute Setup.create_employees_block;
         Setup.OpExecuteMany Setup.insert_employees_sql Setup.employee_data; Setup.OpClose],
        Ok None).
Proof.
  assert (C : Fixtures.populated_file_db [] (Setup.OpConnect "demo.db") = None) by reflexivity.
  assert (F : Setup.fails_first_at Fixtures.populated_file_db [Setup.OpConnect "demo.db"]
       Setup.db_setup_ops 1 "UNIQUE constraint failed: Employees.employee_id").
  { split; [cbn; lia|split]; [|reflexivity].
    intros i Hi. destruct i as [|i]; [reflexivity|lia]. }
  split; [exact C|]. split; [exact F|].
  exact (setup_demo_database_error_closes _ "demo.db" 1 _ C F).
Defined.

(** X10: unlike db.py, the constructors of both scripts have no handler: when
    the [k]-th step of [_setup_database] raises, no later step runs, the
    connection is not closed, and the [sqlite3.Error] leaves [__init__]. *)
Theorem agent_init_propagates_setup_error
    (db_step : list Setup.DbOp -> Setup.DbOp -> option string)
    (setup_ops : list Setup.DbOp) (db_path : string) (table_names_arg : option (list string))
    (k : nat) (e : string) :
  db_step [] (Setup.OpConnect db_path) = None ->
  Setup.fails_first_at db_step [Setup.OpConnect db_path] setup_ops k e ->
  Setup.agent_init db_step setup_ops db_path table_names_arg
  = (Setup.OpConnect db_path :: firstn (S k) setup_ops, Raised (Sqlite3Error e)).
Proof.
  intros C F. unfold Setup.agent_init. rewrite C, (run_ops_fails _ _ _ _ _ F). reflexivity.
Qed.

Lemma agent_init_propagates_setup_error_witness :
  Fixtures.populated_file_db [] (Setup.OpConnect "demo.db") = None
  /\ Setup.fails_first_at Fixtures.populated_file_db [Setup.OpConnect "demo.db"]
       Setup.main_setup_ops 1 "UNIQUE constraint failed: Employees.employee_id"
  /\ Setup.agent_init Fixtures.populated_file_db Setup.main_setup_ops "demo.db" None
     = ([Setup.OpConnect "demo.db"; Setup.OpExecute Setup.main_create_employees;
         Setup.OpExecuteMany Setup.insert_employees_sql Setup.employee_data],
        Raised (Sqlite3Error "UNIQUE constraint failed: Employees.employee_id")).
Proof.
  assert (C : Fixtures.populated_file_db [] (Setup.OpConnect "demo.db") = None) by reflexivity.
  assert (F : Setup.fails_first_at Fixtures.populated_file_db [Setup.OpConnect "demo.db"]
       Setup.main_setup_ops 1 "UNIQUE constraint failed: Employees.employee_id").
  { split; [cbn; lia|split]; [|reflexivity].
    intros i Hi. destruct i as [|i]; [reflexivity|lia]. }
  split; [exact C|]. split; [exact F|].
  exact (agent_init_propagates_setup_error _ _ "demo.db" None 1 _ C F).
Defined.
